(** * Credential and session authentication core of the Nuxt 4 starter

    A shallow embedding of the custom session-token authentication code:

    - [server/utils/customAuth.ts]: hashPassword, verifyPassword,
      generateSessionToken, createSession, getSession, deleteSession
      (the first file of [unnamed/part_001]);
    - [server/api/auth/signup.ts] and [get-session.ts] (the two handlers of
      [unnamed/part_000]), [server/api/auth/signin.ts], and [signout.ts]
      (the handler in [utils/onboarding.ts]);
    - [server/utils/requireAuth.ts]: requireAuth, getOptionalAuth;
    - [utils/onboarding.ts]: checkOnboardingStatus, needsOnboarding, and the
      two onboarding handlers [server/api/onboarding/complete.ts] and
      [company-setup.ts];
    - [composables/useAuth.ts] (fetchSession, isAuthenticated, signOut) and
      the route middleware [middleware/auth.ts], [middleware/onboarding.ts].

    The handlers are [async] functions that talk to a Prisma client, read the
    request cookies and push [Set-Cookie] headers.  They are embedded in a
    state-and-exception monad over an explicit [State]: the two tables, the
    clock, the response cookies, a cursor in the random source and a script
    of store failures.  JavaScript strings are [string]s of code units below
    256; dates are milliseconds since the epoch in [Z].

    Sign-in and company-setup are embedded on the request body as
    [readBody] returns it, any JSON value or none; the handlers on an
    [Event] see a body whose fields are strings or absent. *)

From Stdlib Require Import ZArith List String Ascii Bool Lia Arith DecimalString.
Import ListNotations.
Open Scope string_scope.
Open Scope Z_scope.

(** ** JavaScript values that reach a response *)

#[warnings="-register-all"]
Inductive jsval : Type :=
| JNull
| JBool (b : bool)
| JStr (s : string)
| JDate (ms : Z)
| JObj (fields : list (string * jsval)).

Definition opt_str (o : option string) : jsval :=
  match o with Some s => JStr s | None => JNull end.

(** [k in o], at any depth: does some object inside [v] own a property [k]? *)
Fixpoint has_key (k : string) (v : jsval) : bool :=
  match v with
  | JObj fields =>
      (fix any (l : list (string * jsval)) : bool :=
         match l with
         | [] => false
         | (k', v') :: t => String.eqb k k' || has_key k v' || any t
         end) fields
  | _ => false
  end.

(** [const { k: _, ...rest } = o] *)
Definition obj_without (k : string) (v : jsval) : jsval :=
  match v with
  | JObj fields => JObj (filter (fun kv => negb (String.eqb k (fst kv))) fields)
  | _ => v
  end.

(** Truthiness of a string-or-missing value: [undefined], [null] and the
    empty string are falsy. *)
Definition truthy (o : option string) : bool :=
  match o with
  | None => false
  | Some s => negb (String.eqb s "")
  end.

(** [a || b] on strings *)
Definition or_else (a b : string) : string :=
  if String.eqb a "" then b else a.

(** ** Errors and results *)

Inductive exn : Type :=
| H3Error (statusCode : Z) (message : string)   (* createError({statusCode, message}) *)
| JsError (message : string).                   (* any other thrown Error *)

Definition createError (statusCode : Z) (message : string) : exn :=
  H3Error statusCode message.

Definition exn_message (e : exn) : string :=
  match e with H3Error _ m => m | JsError m => m end.

(** [error.statusCode] is truthy *)
Definition has_statusCode (e : exn) : bool :=
  match e with
  | H3Error c _ => negb (c =? 0)
  | JsError _ => false
  end.

Inductive Result (A : Type) : Type :=
| Ok (a : A)
| Throw (e : exn).
Arguments Ok {A} a.
Arguments Throw {A} e.

(** ** Rows of the two tables (prisma/schema.prisma) *)

Record User : Type := mkUser {
  u_id : string;
  u_email : string;
  u_emailVerified : bool;
  u_name : option string;
  u_image : option string;
  u_passwordHash : option string;
  u_tenantId : option string;
  u_onboardingCompleted : bool;
  u_createdAt : Z
}.

Record Session : Type := mkSession {
  s_id : string;
  s_sessionToken : string;
  s_userId : string;
  s_expires : Z
}.

(** ** Cookies *)

Record Cookie : Type := mkCookie {
  c_name : string;
  c_value : string;
  c_httpOnly : bool;
  c_secure : bool;
  c_sameSite : string;
  c_maxAge : Z;
  c_path : string
}.

(** ** The request: cookies sent by the client and the parsed body

    The body fields are strings, as [composables/useAuth.ts] sends them
    ([JSON.stringify({ email, password, name })]); an absent field is
    [None]. Bodies of any other shape (no body at all, [null], fields that
    are not strings) are the [json] values further down, on which sign-in
    and company-setup are embedded a second time. *)

Record Event : Type := mkEvent {
  req_cookies : list (string * string);
  body_email : option string;
  body_password : option string;
  body_name : option string
}.

(** ** The state a handler runs against *)

Record State : Type := mkState {
  db_users : list User;
  db_sessions : list Session;
  clock : Z;                        (* Date.now() *)
  faults : list (option string);    (* one slot per store call; [Some m]: it throws Error(m) *)
  seed : nat;                       (* cursor in the random source *)
  res_cookies : list Cookie         (* Set-Cookie headers of the response *)
}.

Definition set_users (us : list User) (st : State) : State :=
  mkState us (db_sessions st) (clock st) (faults st) (seed st) (res_cookies st).
Definition set_sessions (ss : list Session) (st : State) : State :=
  mkState (db_users st) ss (clock st) (faults st) (seed st) (res_cookies st).
Definition set_faults (fs : list (option string)) (st : State) : State :=
  mkState (db_users st) (db_sessions st) (clock st) fs (seed st) (res_cookies st).
Definition set_seed (n : nat) (st : State) : State :=
  mkState (db_users st) (db_sessions st) (clock st) (faults st) n (res_cookies st).
Definition set_res_cookies (cs : list Cookie) (st : State) : State :=
  mkState (db_users st) (db_sessions st) (clock st) (faults st) (seed st) cs.

(** ** The monad of handlers: state passing with exceptions *)

Definition M (A : Type) : Type := State -> Result A * State.

Definition ret {A} (a : A) : M A := fun st => (Ok a, st).

Definition throw {A} (e : exn) : M A := fun st => (Throw e, st).

Definition bind {A B} (m : M A) (k : A -> M B) : M B :=
  fun st =>
    match m st with
    | (Ok a, st') => k a st'
    | (Throw e, st') => (Throw e, st')
    end.

(** [try { m } catch (error) { h error }] *)
Definition try_catch {A} (m : M A) (h : exn -> M A) : M A :=
  fun st =>
    match m st with
    | (Ok a, st') => (Ok a, st')
    | (Throw e, st') => h e st'
    end.

Notation "x <- m ;; k" := (bind m (fun x => k))
  (at level 61, m at next level, right associativity).
Notation "m ;;; k" := (bind m (fun _ => k))
  (at level 61, right associativity).

Definition get_state : M State := fun st => (Ok st, st).

(** ** The e-mail regular expression

    [/^[^\s@]+@[^\s@]+\.[^\s@]+$/], matched by Brzozowski derivatives. *)

Inductive re : Type :=
| Empty
| Eps
| Chr (p : ascii -> bool)
| Cat (r1 r2 : re)
| Alt (r1 r2 : re)
| Star (r : re).

Fixpoint nullable (r : re) : bool :=
  match r with
  | Empty => false
  | Eps => true
  | Chr _ => false
  | Cat r1 r2 => nullable r1 && nullable r2
  | Alt r1 r2 => nullable r1 || nullable r2
  | Star _ => true
  end.

Fixpoint deriv (c : ascii) (r : re) : re :=
  match r with
  | Empty => Empty
  | Eps => Empty
  | Chr p => if p c then Eps else Empty
  | Cat r1 r2 =>
      if nullable r1
      then Alt (Cat (deriv c r1) r2) (deriv c r2)
      else Cat (deriv c r1) r2
  | Alt r1 r2 => Alt (deriv c r1) (deriv c r2)
  | Star r1 => Cat (deriv c r1) (Star r1)
  end.

Fixpoint re_test (r : re) (s : string) : bool :=
  match s with
  | EmptyString => nullable r
  | String c s' => re_test (deriv c r) s'
  end.

Definition Plus (r : re) : re := Cat r (Star r).

(** [\s] on code units below 256: TAB, LF, VT, FF, CR, SPACE, NBSP *)
Definition is_space (c : ascii) : bool :=
  let n := nat_of_ascii c in
  ((9 <=? n) && (n <=? 13) || (n =? 32) || (n =? 160))%nat.

(** [[^\s@]] *)
Definition not_space_at (c : ascii) : bool :=
  negb (is_space c) && negb (Ascii.eqb c "@").

Definition emailRegex : re :=
  Cat (Plus (Chr not_space_at))
   (Cat (Chr (Ascii.eqb "@"))
    (Cat (Plus (Chr not_space_at))
     (Cat (Chr (Ascii.eqb "."))
          (Plus (Chr not_space_at))))).

(** ** What the platform supplies

    The Node runtime and the bcryptjs package are not part of the
    repository; the handlers are parametric in them. *)

Record Platform : Type := mkPlatform {
  NODE_ENV : option string;                        (* process.env.NODE_ENV *)
  rand_byte : nat -> Byte.byte;                    (* the source behind crypto.randomBytes *)
  cuid : nat -> string;                            (* @default(cuid()) of the schema *)
  bcrypt_hash : string -> Z -> nat -> Result string;   (* hash(password, rounds), salted from the source *)
  bcrypt_compare : string -> string -> Result bool;    (* compare(password, hash) *)
  toISOString : Z -> string                        (* Date.prototype.toISOString *)
}.

(** ** Prisma client over the two tables *)

(** Every call to the store takes one slot of the failure script; past the
    end of the script the store answers. *)
Definition next_fault (st : State) : option string := hd None (faults st).

Definition after_call (st : State) : State := set_faults (tl (faults st)) st.

Definition store_call {A} (op : M A) : M A :=
  fun st =>
    match next_fault st with
    | Some msg => (Throw (JsError msg), after_call st)
    | None => op (after_call st)
    end.

Section Auth.

Context (P : Platform).

Definition user_columns (u : User) : list (string * jsval) :=
  [ ("id", JStr (u_id u));
    ("email", JStr (u_email u));
    ("emailVerified", JBool (u_emailVerified u));
    ("name", opt_str (u_name u));
    ("image", opt_str (u_image u));
    ("passwordHash", opt_str (u_passwordHash u));
    ("tenantId", opt_str (u_tenantId u));
    ("onboardingCompleted", JBool (u_onboardingCompleted u));
    ("createdAt", JDate (u_createdAt u)) ].

(** [select: { k: true, ... }] *)
Definition select_user (keys : list string) (u : User) : jsval :=
  JObj (filter (fun kv => existsb (String.eqb (fst kv)) keys) (user_columns u)).

Definition find_user_by_email (email : string) (us : list User) : option User :=
  find (fun u => String.eqb (u_email u) email) us.

Definition find_user_by_id (id : string) (us : list User) : option User :=
  find (fun u => String.eqb (u_id u) id) us.

Definition find_session_by_token (tok : string) (ss : list Session) : option Session :=
  find (fun s => String.eqb (s_sessionToken s) tok) ss.

(** [prisma.user.findUnique({ where: { email } })] *)
Definition prisma_user_findUnique (email : string) : M (option User) :=
  store_call (fun st => (Ok (find_user_by_email email (db_users st)), st)).

(** [prisma.user.create({ data })]; [email] is [@unique], [id] defaults to
    [cuid()], [createdAt] to [now()], the other columns to null. *)
Definition prisma_user_create (email : string) (name : option string)
    (passwordHash : string) (emailVerified onboardingCompleted : bool) : M User :=
  store_call (fun st =>
    match find_user_by_email email (db_users st) with
    | Some _ => (Throw (JsError "Unique constraint failed on the fields: (`email`)"), st)
    | None =>
        let u := mkUser (cuid P (seed st)) email emailVerified name None
                        (Some passwordHash) None onboardingCompleted (clock st) in
        (Ok u, set_seed (S (seed st)) (set_users (db_users st ++ [u]) st))
    end).

(** [prisma.session.create({ data })]; [sessionToken] is [@unique]. *)
Definition prisma_session_create (sessionToken userId : string) (expires : Z) : M Session :=
  store_call (fun st =>
    match find_session_by_token sessionToken (db_sessions st) with
    | Some _ => (Throw (JsError "Unique constraint failed on the fields: (`sessionToken`)"), st)
    | None =>
        let s := mkSession (cuid P (seed st)) sessionToken userId expires in
        (Ok s, set_seed (S (seed st)) (set_sessions (db_sessions st ++ [s]) st))
    end).

(** A session row with the [include]d projection of its user ([null] when
    the user row is gone). *)
Record SessionWithUser : Type := mkSessionWithUser {
  sw_session : Session;
  sw_user : jsval
}.

(** [include: { user: { select } }] *)
Definition include_user (keys : list string) (us : list User) (s : Session) : jsval :=
  match find_user_by_id (s_userId s) us with
  | Some u => select_user keys u
  | None => JNull
  end.

(** [prisma.session.findUnique({ where: { sessionToken }, include: { user: { select } } })] *)
Definition prisma_session_findUnique (sessionToken : string) (keys : list string)
    : M (option SessionWithUser) :=
  store_call (fun st =>
    match find_session_by_token sessionToken (db_sessions st) with
    | None => (Ok None, st)
    | Some s =>
        (Ok (Some (mkSessionWithUser s (include_user keys (db_users st) s))), st)
    end).

(** [prisma.session.delete({ where: { id } })]: throws when no row has the id. *)
Definition prisma_session_delete (id : string) : M unit :=
  store_call (fun st =>
    if existsb (fun s => String.eqb (s_id s) id) (db_sessions st)
    then (Ok tt, set_sessions (filter (fun s => negb (String.eqb (s_id s) id)) (db_sessions st)) st)
    else (Throw (JsError "Record to delete does not exist."), st)).

(** [prisma.session.deleteMany({ where: { sessionToken } })] *)
Definition prisma_session_deleteMany (sessionToken : string) : M nat :=
  store_call (fun st =>
    let gone := filter (fun s => String.eqb (s_sessionToken s) sessionToken) (db_sessions st) in
    (Ok (List.length gone),
     set_sessions (filter (fun s => negb (String.eqb (s_sessionToken s) sessionToken)) (db_sessions st)) st)).

(** ** h3 cookies *)

Definition getCookie (event : Event) (name : string) : option string :=
  match find (fun kv => String.eqb (fst kv) name) (req_cookies event) with
  | Some kv => Some (snd kv)
  | None => None
  end.

Definition setCookie (c : Cookie) : M unit :=
  fun st => (Ok tt, set_res_cookies (res_cookies st ++ [c]) st).

Definition is_production : bool :=
  match NODE_ENV P with
  | Some e => String.eqb e "production"
  | None => false
  end.

(** [setCookie(event, "auth.session_token", "", { ..., maxAge: 0, path: "/" })] *)
Definition clear_cookie : Cookie :=
  mkCookie "auth.session_token" "" true is_production "lax" 0 "/".

(** ** server/utils/customAuth.ts *)

Definition SESSION_MAX_AGE : Z := 30 * 24 * 60 * 60.

Definition hashPassword (password : string) : M string :=
  fun st =>
    match bcrypt_hash P password 10 (seed st) with
    | Ok h => (Ok h, set_seed (S (seed st)) st)
    | Throw e => (Throw e, set_seed (S (seed st)) st)
    end.

Definition verifyPassword (password hash : string) : M bool :=
  fun st => (bcrypt_compare P password hash, st).

Definition hex_digit (n : N) : ascii :=
  nth (N.to_nat n) (list_ascii_of_string "0123456789abcdef") "0"%char.

Definition hex_of_byte (b : Byte.byte) : string :=
  let n := Byte.to_N b in
  String (hex_digit (n / 16)) (String (hex_digit (n mod 16)) EmptyString).

(** [buf.toString("hex")] *)
Definition toString_hex (buf : list Byte.byte) : string :=
  String.concat "" (map hex_of_byte buf).

Definition randomBytes (n : nat) : M (list Byte.byte) :=
  fun st => (Ok (map (rand_byte P) (seq (seed st) n)), set_seed (seed st + n)%nat st).

Definition generateSessionToken : M string :=
  buf <- randomBytes 32 ;;
  ret (toString_hex buf).

Definition createSession (userId : string) : M (string * Z) :=
  sessionToken <- generateSessionToken ;;
  st <- get_state ;;
  let expires := clock st + SESSION_MAX_AGE * 1000 in
  prisma_session_create sessionToken userId expires ;;;
  ret (sessionToken, expires).

Definition session_user_select : list string :=
  ["id"; "email"; "name"; "image"; "tenantId"; "onboardingCompleted"; "emailVerified"].

Definition getSession (sessionToken : string) : M (option SessionWithUser) :=
  session <- prisma_session_findUnique sessionToken session_user_select ;;
  st <- get_state ;;
  match session with
  | None => ret None
  | Some s =>
      if s_expires (sw_session s) <? clock st
      then prisma_session_delete (s_id (sw_session s)) ;;; ret None
      else ret (Some s)
  end.

Definition deleteSession (sessionToken : string) : M unit :=
  prisma_session_deleteMany sessionToken ;;; ret tt.

End Auth.

Section Handlers.

Context (P : Platform).

(** The string behind a value already known to be truthy. *)
Definition str_of (o : option string) : string :=
  match o with Some s => s | None => "" end.

Definition session_cookie (value : string) (maxAge : Z) : Cookie :=
  mkCookie "auth.session_token" value true (is_production P) "lax" maxAge "/".

(** The [catch] of signup.ts and signin.ts: an H3 error is thrown as it
    is, anything else becomes a 500. *)
Definition rethrow_or_500 {A} (fallback : string) (error : exn) : M A :=
  if has_statusCode error
  then throw error
  else throw (createError 500 (or_else (exn_message error) fallback)).

(** ** server/api/auth/signup.ts *)

Definition signup_select : list string :=
  ["id"; "email"; "name"; "emailVerified"; "onboardingCompleted"; "createdAt"].

Definition signup_handler (event : Event) : M jsval :=
  try_catch
    (let email := body_email event in
     let password := body_password event in
     let name := body_name event in
     if negb (truthy email) || negb (truthy password)
     then throw (createError 400 "Email and password are required")
     else if negb (re_test emailRegex (str_of email))
     then throw (createError 400 "Invalid email format")
     else if (String.length (str_of password) <? 8)%nat
     then throw (createError 400 "Password must be at least 8 characters long")
     else
       existingUser <- prisma_user_findUnique (str_of email) ;;
       match existingUser with
       | Some _ => throw (createError 400 "User with this email already exists")
       | None =>
           passwordHash <- hashPassword P (str_of password) ;;
           user <- prisma_user_create P (str_of email)
                     (if truthy name then name else None)
                     passwordHash false false ;;
           ret (JObj [ ("success", JBool true);
                       ("user", select_user signup_select user) ])
       end)
    (rethrow_or_500 "Failed to create user").

(** ** server/api/auth/signin.ts *)

Definition signin_select : list string :=
  ["id"; "email"; "name"; "image"; "passwordHash"; "tenantId";
   "onboardingCompleted"; "emailVerified"].

Definition invalid_credentials : exn :=
  createError 401 "Invalid email or password".

Definition signin_handler (event : Event) : M jsval :=
  try_catch
    (let email := body_email event in
     let password := body_password event in
     if negb (truthy email) || negb (truthy password)
     then throw (createError 400 "Email and password are required")
     else
       user <- prisma_user_findUnique (str_of email) ;;
       match user with
       | None => throw invalid_credentials
       | Some user =>
           if negb (truthy (u_passwordHash user))
           then throw invalid_credentials
           else
             isValidPassword <- verifyPassword P (str_of password)
                                  (str_of (u_passwordHash user)) ;;
             if negb isValidPassword
             then throw invalid_credentials
             else
               se <- createSession P (u_id user) ;;
               let sessionToken := fst se in
               let expires := snd se in
               setCookie (session_cookie sessionToken (30 * 24 * 60 * 60)) ;;;
               let userWithoutPassword :=
                 obj_without "passwordHash" (select_user signin_select user) in
               ret (JObj [ ("success", JBool true);
                           ("session", JObj [ ("sessionToken", JStr sessionToken);
                                              ("expires", JStr (toISOString P expires)) ]);
                           ("user", userWithoutPassword) ])
       end)
    (rethrow_or_500 "Failed to sign in").

(** ** server/api/auth/signout.ts *)

Definition signout_handler (event : Event) : M jsval :=
  try_catch
    (let sessionToken := getCookie event "auth.session_token" in
     (if truthy sessionToken
      then deleteSession (str_of sessionToken)
      else ret tt) ;;;
     setCookie (clear_cookie P) ;;;
     ret (JObj [ ("success", JBool true);
                 ("message", JStr "Signed out successfully") ]))
    (fun error =>
       setCookie (clear_cookie P) ;;;
       throw (createError 500 (or_else (exn_message error) "Failed to sign out"))).

(** ** server/api/auth/get-session.ts *)

Definition no_session : jsval :=
  JObj [ ("session", JNull); ("user", JNull) ].

Definition get_session_handler (event : Event) : M jsval :=
  try_catch
    (let sessionToken := getCookie event "auth.session_token" in
     if negb (truthy sessionToken)
     then ret no_session
     else
       session <- getSession (str_of sessionToken) ;;
       match session with
       | None =>
           setCookie (clear_cookie P) ;;;
           ret no_session
       | Some session =>
           ret (JObj [ ("session",
                        JObj [ ("id", JStr (s_id (sw_session session)));
                               ("sessionToken", JStr (s_sessionToken (sw_session session)));
                               ("expires", JStr (toISOString P (s_expires (sw_session session)))) ]);
                       ("user", sw_user session) ])
       end)
    (fun error =>
       throw (createError 500 (or_else (exn_message error) "Failed to get session"))).

(** ** server/utils/requireAuth.ts *)

(** [!v] for a value that is an object or [null] *)
Definition is_null (v : jsval) : bool :=
  match v with JNull => true | _ => false end.

Definition requireAuth (event : Event) : M jsval :=
  let sessionToken := getCookie event "auth.session_token" in
  if negb (truthy sessionToken)
  then throw (createError 401 "Unauthorized - No session token")
  else
    session <- getSession (str_of sessionToken) ;;
    match session with
    | None =>
        setCookie (clear_cookie P) ;;;
        throw (createError 401 "Unauthorized - Invalid or expired session")
    | Some session =>
        if is_null (sw_user session)
        then
          setCookie (clear_cookie P) ;;;
          throw (createError 401 "Unauthorized - Invalid or expired session")
        else
          ret (JObj [ ("session",
                       JObj [ ("id", JStr (s_id (sw_session session)));
                              ("sessionToken", JStr (s_sessionToken (sw_session session)));
                              ("expires", JDate (s_expires (sw_session session))) ]);
                      ("user", sw_user session) ])
    end.


End Handlers.

(** ** Vocabulary of the properties *)

Section Vocabulary.

Context (P : Platform).

(** *** Sign-up *)

(** The four ways the spec lists for a sign-up to be refused. *)
Definition signup_refused (event : Event) (st : State) : bool :=
  negb (truthy (body_email event)) || negb (truthy (body_password event))
  || negb (re_test emailRegex (str_of (body_email event)))
  || (String.length (str_of (body_password event)) <? 8)%nat
  || match find_user_by_email (str_of (body_email event)) (db_users st) with
     | Some _ => true
     | None => false
     end.

Definition valid_signup (event : Event) : bool :=
  truthy (body_email event) && truthy (body_password event)
  && re_test emailRegex (str_of (body_email event))
  && negb (String.length (str_of (body_password event)) <? 8)%nat.

(** *** Sign-in *)

(** The three ways a sign-in with both fields supplied is denied, once the
    store has answered the lookup. *)
Inductive signin_denied (event : Event) (st : State) : Prop :=
| unknown_email :
    find_user_by_email (str_of (body_email event)) (db_users st) = None ->
    signin_denied event st
| no_password_hash (u : User) :
    find_user_by_email (str_of (body_email event)) (db_users st) = Some u ->
    truthy (u_passwordHash u) = false ->
    signin_denied event st
| wrong_password (u : User) (h : string) :
    find_user_by_email (str_of (body_email event)) (db_users st) = Some u ->
    u_passwordHash u = Some h ->
    h <> "" ->
    bcrypt_compare P (str_of (body_password event)) h = Ok false ->
    signin_denied event st.

Definition credentials_supplied (event : Event) : bool :=
  truthy (body_email event) && truthy (body_password event).

(** The token minted by a sign-in that starts in [st]. *)
Definition minted_token (st : State) : string :=
  toString_hex (map (rand_byte P) (seq (seed st) 32)).

Definition signin_response (u : User) (sessionToken : string) (expires : Z) : jsval :=
  JObj [ ("success", JBool true);
         ("session", JObj [ ("sessionToken", JStr sessionToken);
                            ("expires", JStr (toISOString P expires)) ]);
         ("user", obj_without "passwordHash" (select_user signin_select u)) ].

(** *** Sessions *)

(** [sessionToken] is [@unique] in the schema. *)
Definition unique_tokens (ss : list Session) : Prop :=
  NoDup (map s_sessionToken ss).

Definition without_id (id : string) (ss : list Session) : list Session :=
  filter (fun r => negb (String.eqb (s_id r) id)) ss.

(** The row [getSession] hands back: the session with the projection of
    its owner. *)
Definition joined (st : State) (s : Session) : SessionWithUser :=
  mkSessionWithUser s (include_user session_user_select (db_users st) s).

(** *** Responses and cookies *)

Definition session_token (event : Event) : option string :=
  getCookie event "auth.session_token".

Definition session_response (sw : SessionWithUser) : jsval :=
  JObj [ ("session",
          JObj [ ("id", JStr (s_id (sw_session sw)));
                 ("sessionToken", JStr (s_sessionToken (sw_session sw)));
                 ("expires", JStr (toISOString P (s_expires (sw_session sw)))) ]);
         ("user", sw_user sw) ].

Definition auth_context (sw : SessionWithUser) : jsval :=
  JObj [ ("session",
          JObj [ ("id", JStr (s_id (sw_session sw)));
                 ("sessionToken", JStr (s_sessionToken (sw_session sw)));
                 ("expires", JDate (s_expires (sw_session sw))) ]);
         ("user", sw_user sw) ].

Definition cleared (st : State) : State :=
  set_res_cookies (res_cookies st ++ [clear_cookie P]) st.

Definition signed_out : jsval :=
  JObj [ ("success", JBool true); ("message", JStr "Signed out successfully") ].

End Vocabulary.

(** ** The rest of server/utils/customAuth.ts *)

(** [prisma.session.deleteMany({ where })], the [where] clause as a
    predicate on rows; the result carries the number of rows removed. *)
Definition prisma_session_deleteMany_where (cond : Session -> bool) : M nat :=
  store_call (fun st =>
    (Ok (List.length (filter cond (db_sessions st))),
     set_sessions (filter (fun s => negb (cond s)) (db_sessions st)) st)).

Definition deleteUserSessions (userId : string) : M unit :=
  prisma_session_deleteMany_where (fun s => String.eqb (s_userId s) userId) ;;;
  ret tt.

(** [where: { expires: { lt: new Date() } }]; returns [result.count]. *)
Definition cleanupExpiredSessions : M nat :=
  st <- get_state ;;
  result <- prisma_session_deleteMany_where (fun s => s_expires s <? clock st) ;;
  ret result.

(** ** utils/onboarding.ts *)

(** [!!v] *)
Definition js_truthy (v : jsval) : bool :=
  match v with
  | JNull => false
  | JBool b => b
  | JStr s => negb (String.eqb s "")
  | JDate _ => true
  | JObj _ => true
  end.

(** [v?.k]: [None] is [undefined], which is what a missing property, a
    [null] base and a primitive base all give for the keys read here. *)
Definition opt_chain (v : jsval) (k : string) : option jsval :=
  match v with
  | JObj fields =>
      match find (fun kv => String.eqb (fst kv) k) fields with
      | Some kv => Some (snd kv)
      | None => None
      end
  | _ => None
  end.

Definition truthy_opt (o : option jsval) : bool :=
  match o with
  | Some v => js_truthy v
  | None => false
  end.

Definition checkOnboardingStatus (user : jsval) : bool :=
  negb (truthy_opt (opt_chain user "onboardingCompleted"))
  || negb (truthy_opt (opt_chain user "tenantId")).

Definition needsOnboarding (user : jsval) : bool :=
  checkOnboardingStatus user.

(** ** The body of a request, as [readBody] returns it

    Any JSON value, or [undefined] ([None]) when the request has no body.
    A number is an integer here: the handlers only test a number for being
    zero and for not being a string. *)

#[warnings="-register-all"]
Inductive json : Type :=
| JsNull
| JsBool (b : bool)
| JsNum (n : Z)
| JsString (s : string)
| JsArray (items : list json)
| JsObject (members : list (string * json)).

(** [typeof v] *)
Definition typeof (v : option json) : string :=
  match v with
  | None => "undefined"
  | Some (JsBool _) => "boolean"
  | Some (JsNum _) => "number"
  | Some (JsString _) => "string"
  | Some JsNull | Some (JsArray _) | Some (JsObject _) => "object"
  end.

(** [!!v]: [undefined], [null], [false], [0] and the empty string are
    falsy, everything else is truthy. *)
Definition json_truthy (v : option json) : bool :=
  match v with
  | None => false
  | Some JsNull => false
  | Some (JsBool b) => b
  | Some (JsNum n) => negb (n =? 0)
  | Some (JsString s) => negb (String.eqb s "")
  | Some (JsArray _) => true
  | Some (JsObject _) => true
  end.

(** [body.k] for the keys the handlers read ([email], [password], [cif],
    [name]) on a body that is neither [null] nor [undefined]: the property
    of an object, and [undefined] on a primitive or an array. *)
Definition member (k : string) (body : json) : option json :=
  match body with
  | JsObject members =>
      match find (fun kv => String.eqb (fst kv) k) members with
      | Some kv => Some (snd kv)
      | None => None
      end
  | _ => None
  end.

(** The errors raised on a value of the wrong type come from outside the
    repository, and so do their messages: the engine's TypeError for
    destructuring [null] or [undefined], the Error of bcryptjs for a
    password that is not a string, and the validation error of the Prisma
    client for a [String] argument that is given something else. *)
Record Runtime : Type := mkRuntime {
  cannot_destructure : string -> option json -> string;   (* property, body *)
  illegal_arguments : option json -> string -> string;    (* password, hash *)
  invalid_argument : string -> option json -> string      (* argument, value *)
}.

Section Bodies.

Context (R : Runtime) (P : Platform).

(** [const { k, ... } = body] *)
Definition destructure (k : string) (body : option json) : M json :=
  match body with
  | None => throw (JsError (cannot_destructure R k body))
  | Some JsNull => throw (JsError (cannot_destructure R k body))
  | Some b => ret b
  end.

(** What the Prisma client makes of the value given for a [String]
    argument: the validation error is raised before the store is asked. *)
Definition prisma_string (argument : string) (v : option json) : M string :=
  match v with
  | Some (JsString s) => ret s
  | _ => throw (JsError (invalid_argument R argument v))
  end.

(** [prisma.user.findUnique({ where: { email } })] *)
Definition prisma_user_findUnique_where (email : option json) : M (option User) :=
  email <- prisma_string "email" email ;;
  prisma_user_findUnique email.

(** [verifyPassword(password, hash)], that is [compare(password, hash)] of
    bcryptjs, which throws unless both arguments are strings. *)
Definition verifyPassword_of (password : option json) (hash : string) : M bool :=
  match password with
  | Some (JsString p) => verifyPassword P p hash
  | _ => throw (JsError (illegal_arguments R password hash))
  end.

(** The handler of signin.ts on the body as it comes. *)
Definition signin_request (body : option json) : M jsval :=
  try_catch
    (b <- destructure "email" body ;;
     let email := member "email" b in
     let password := member "password" b in
     if negb (json_truthy email) || negb (json_truthy password)
     then throw (createError 400 "Email and password are required")
     else
       user <- prisma_user_findUnique_where email ;;
       match user with
       | None => throw invalid_credentials
       | Some user =>
           if negb (truthy (u_passwordHash user))
           then throw invalid_credentials
           else
             isValidPassword <- verifyPassword_of password
                                  (str_of (u_passwordHash user)) ;;
             if negb isValidPassword
             then throw invalid_credentials
             else
               se <- createSession P (u_id user) ;;
               let sessionToken := fst se in
               let expires := snd se in
               setCookie (session_cookie P sessionToken (30 * 24 * 60 * 60)) ;;;
               let userWithoutPassword :=
                 obj_without "passwordHash" (select_user signin_select user) in
               ret (JObj [ ("success", JBool true);
                           ("session", JObj [ ("sessionToken", JStr sessionToken);
                                              ("expires", JStr (toISOString P expires)) ]);
                           ("user", userWithoutPassword) ])
       end)
    (rethrow_or_500 "Failed to sign in").

End Bodies.

(** The body that carries the fields of an [Event]. *)
Definition body_field (k : string) (o : option string) : list (string * json) :=
  match o with
  | Some s => [(k, JsString s)]
  | None => []
  end.

Definition body_of (event : Event) : option json :=
  Some (JsObject (body_field "email" (body_email event)
                  ++ body_field "password" (body_password event)
                  ++ body_field "name" (body_name event))%list).

(** The e-mail and password of a body that carries both as non-empty
    strings. *)
Definition credentials (body : option json) : option (string * string) :=
  match body with
  | Some b =>
      match member "email" b, member "password" b with
      | Some (JsString e), Some (JsString p) =>
          if negb (String.eqb e "") && negb (String.eqb p "")
          then Some (e, p)
          else None
      | _, _ => None
      end
  | None => None
  end.

Definition with_credentials (email password : string) : Event :=
  mkEvent [] (Some email) (Some password) None.

(** ** server/api/onboarding/complete.ts and company-setup.ts *)

Record Tenant : Type := mkTenant {
  t_id : string;
  t_cif : string;
  t_name : string;
  t_createdAt : Z;
  t_updatedAt : Z
}.

Definition tenant_object (t : Tenant) : jsval :=
  JObj [ ("id", JStr (t_id t));
         ("cif", JStr (t_cif t));
         ("name", JStr (t_name t));
         ("createdAt", JDate (t_createdAt t));
         ("updatedAt", JDate (t_updatedAt t)) ].

Definition find_tenant_by_cif (cif : string) (ts : list Tenant) : option Tenant :=
  find (fun t => String.eqb (t_cif t) cif) ts.

Definition set_onboardingCompleted (b : bool) (u : User) : User :=
  mkUser (u_id u) (u_email u) (u_emailVerified u) (u_name u) (u_image u)
         (u_passwordHash u) (u_tenantId u) b (u_createdAt u).

Definition set_tenantId (t : option string) (u : User) : User :=
  mkUser (u_id u) (u_email u) (u_emailVerified u) (u_name u) (u_image u)
         (u_passwordHash u) t (u_onboardingCompleted u) (u_createdAt u).

(** The rows of a table with [change] applied to the row of the given id. *)
Definition update_user (id : string) (change : User -> User) (us : list User) : list User :=
  map (fun u => if String.eqb (u_id u) id then change u else u) us.

(** [session.user.id] on what [requireAuth] returned; [None] is
    [undefined]. *)
Definition auth_user_id (session : jsval) : option string :=
  match opt_chain session "user" with
  | Some user =>
      match opt_chain user "id" with
      | Some (JStr id) => Some id
      | _ => None
      end
  | None => None
  end.

Section Onboarding.

Context (R : Runtime) (P : Platform).

(** [prisma.user.update({ where: { id }, data })]: throws when no row has
    the id, and when the id is [undefined]. *)
Definition prisma_user_update (id : option string) (data : User -> User) : M User :=
  store_call (fun st =>
    match id with
    | None => (Throw (JsError "Argument `where` needs at least one of `id` or `email` arguments."), st)
    | Some id =>
        match find_user_by_id id (db_users st) with
        | None => (Throw (JsError "Record to update not found."), st)
        | Some u => (Ok (data u), set_users (update_user id data (db_users st)) st)
        end
    end).

Definition complete_handler (event : Event) : M jsval :=
  session <- requireAuth P event ;;
  prisma_user_update (auth_user_id session) (set_onboardingCompleted true) ;;;
  ret (JObj [ ("success", JBool true) ]).

(** [prisma.tenant.findUnique({ where: { cif } })]; the Tenant table is
    passed along with the call. *)
Definition prisma_tenant_findUnique (cif : string) (tenants : list Tenant)
    : M (option Tenant) :=
  store_call (fun st => (Ok (find_tenant_by_cif cif tenants), st)).

(** [prisma.tenant.create({ data: { cif, name, users: { connect: { id } } } })]:
    one nested write; [cif] is [@unique], and the user to connect must
    exist. Returns the row created. *)
Definition prisma_tenant_create (cif name : string) (connect : option string)
    (tenants : list Tenant) : M Tenant :=
  store_call (fun st =>
    match find_tenant_by_cif cif tenants with
    | Some _ => (Throw (JsError "Unique constraint failed on the fields: (`cif`)"), st)
    | None =>
        match connect with
        | None => (Throw (JsError "Argument `connect` needs at least one of `id` or `email` arguments."), st)
        | Some id =>
            match find_user_by_id id (db_users st) with
            | None =>
                (Throw (JsError "An operation failed because it depends on one or more records that were required but not found."), st)
            | Some _ =>
                let t := mkTenant (cuid P (seed st)) cif name (clock st) (clock st) in
                (Ok t,
                 set_seed (S (seed st))
                   (set_users (update_user id (set_tenantId (Some (t_id t))) (db_users st)) st))
            end
        end
    end).

(** [prisma.tenant.findUnique({ where: { cif } })] on the value the body
    gave for [cif]. *)
Definition prisma_tenant_findUnique_where (cif : option json) (tenants : list Tenant)
    : M (option Tenant) :=
  cif <- prisma_string R "cif" cif ;;
  prisma_tenant_findUnique cif tenants.

(** [prisma.tenant.create({ data: { cif, name, users: ... } })] on the
    values the body gave. *)
Definition prisma_tenant_create_data (cif name : option json) (connect : option string)
    (tenants : list Tenant) : M Tenant :=
  cif <- prisma_string R "cif" cif ;;
  name <- prisma_string R "name" name ;;
  prisma_tenant_create cif name connect tenants.

(** The handler of company-setup.ts, on the body as it comes. Nothing is
    caught: the TypeError of destructuring and the errors of the Prisma
    client leave the handler as they are. The result pairs the response
    with the Tenant table after the call. *)
Definition company_setup_handler (event : Event) (body : option json)
    (tenants : list Tenant) : M (jsval * list Tenant) :=
  session <- requireAuth P event ;;
  b <- destructure R "cif" body ;;
  let cif := member "cif" b in
  let name := member "name" b in
  if negb (json_truthy cif) || negb (json_truthy name)
  then throw (createError 400 "CIF and name are required")
  else
    existingTenant <- prisma_tenant_findUnique_where cif tenants ;;
    match existingTenant with
    | Some _ => throw (createError 409 "Company with this CIF already exists")
    | None =>
        tenant <- prisma_tenant_create_data cif name (auth_user_id session) tenants ;;
        ret (JObj [ ("tenant", tenant_object tenant) ], (tenants ++ [tenant])%list)
    end.

End Onboarding.

(** ** composables/useAuth.ts and the route middleware

    The client keeps the session in refs that [useAuth()] creates afresh on
    every call. A ref holds a value or [undefined] ([None]). *)

Record AuthRefs : Type := mkAuthRefs {
  ref_user : option jsval;
  ref_session : option jsval;
  ref_loading : bool
}.

(** [ref(null)], [ref(null)], [ref(true)] *)
Definition useAuth : AuthRefs :=
  mkAuthRefs (Some JNull) (Some JNull) true.

(** [!!session.value && !!user.value] *)
Definition isAuthenticated (refs : AuthRefs) : bool :=
  truthy_opt (ref_session refs) && truthy_opt (ref_user refs).

(** What [await fetch(...)] and then [await response.json()] give. *)
Inductive Fetched : Type :=
| NetworkError                                   (* fetch rejects *)
| Response (ok : bool) (json : option jsval).    (* [None]: response.json() rejects *)

(** [session.value = null; user.value = null] *)
Definition signed_off (loading : bool) : AuthRefs :=
  mkAuthRefs (Some JNull) (Some JNull) loading.

(** [fetchSession]: the value returned and the refs when it settles; the
    [finally] has set [loading] to false on every path. *)
Definition fetchSession (fetched : Fetched) (refs : AuthRefs) : jsval * AuthRefs :=
  match fetched with
  | Response true (Some data) =>
      if js_truthy data && truthy_opt (opt_chain data "user")
      then (data, mkAuthRefs (opt_chain data "user") (opt_chain data "session") false)
      else (JNull, signed_off false)
  | Response true None => (JNull, signed_off false)
  | Response false _ => (JNull, signed_off false)
  | NetworkError => (JNull, signed_off false)
  end.

(** [signOut]: reading [result.success] of a [null] body throws, which the
    [catch] turns into the failure object. *)
Definition signOut (fetched : Fetched) (refs : AuthRefs) : jsval * AuthRefs :=
  let failed :=
    JObj [ ("success", JBool false); ("error", JStr "Sign out failed") ] in
  match fetched with
  | Response _ (Some JNull) => (failed, signed_off (ref_loading refs))
  | Response _ (Some result) =>
      (JObj [ ("success",
               if truthy_opt (opt_chain result "success")
               then match opt_chain result "success" with
                    | Some v => v
                    | None => JBool true
                    end
               else JBool true) ],
       signed_off (ref_loading refs))
  | Response _ None => (failed, signed_off (ref_loading refs))
  | NetworkError => (failed, signed_off (ref_loading refs))
  end.

(** [navigateTo({ path, query: { redirect } })] and [navigateTo(path)] *)
Record Navigation : Type := navigateTo {
  nav_path : string;
  nav_redirect : option string
}.

(** middleware/auth.ts: [None] lets the navigation through. *)
Definition auth_middleware (to_fullPath : string) (fetched : Fetched) : option Navigation :=
  let refs := useAuth in
  let refs := if ref_loading refs then snd (fetchSession fetched refs) else refs in
  if negb (isAuthenticated refs)
  then Some (navigateTo "/auth/signin" (Some to_fullPath))
  else None.

(** middleware/onboarding.ts *)
Definition onboarding_middleware (to_path : string) (fetched : Fetched) : option Navigation :=
  let refs := useAuth in
  if negb (isAuthenticated refs)
  then None
  else
    let refs := snd (fetchSession fetched refs) in
    if prefix "/onboarding" to_path
    then None
    else if needsOnboarding (match ref_user refs with Some v => v | None => JNull end)
    then Some (navigateTo "/onboarding/company-setup" None)
    else None.

(** ** More vocabulary *)

(** [id] is [@id] and [email] is [@unique] in the schema. *)
Definition unique_ids (us : list User) : Prop :=
  NoDup (map u_id us).

Definition unique_emails (us : list User) : Prop :=
  NoDup (map u_email us).

Definition expired_at (now : Z) (s : Session) : bool :=
  s_expires s <? now.

(** [Session.user] is a required relation: the owner of a stored session
    exists. *)
Definition owners_exist (st : State) : Prop :=
  forall s, In s (db_sessions st) ->
            exists u, find_user_by_id (s_userId s) (db_users st) = Some u.

(** The language of a regular expression. *)
Inductive matches : re -> string -> Prop :=
| MEps : matches Eps ""
| MChr (p : ascii -> bool) (c : ascii) :
    p c = true -> matches (Chr p) (String c "")
| MCat (r1 r2 : re) (s1 s2 : string) :
    matches r1 s1 -> matches r2 s2 -> matches (Cat r1 r2) (s1 ++ s2)
| MAltL (r1 r2 : re) (s : string) :
    matches r1 s -> matches (Alt r1 r2) s
| MAltR (r1 r2 : re) (s : string) :
    matches r2 s -> matches (Alt r1 r2) s
| MStar0 (r : re) : matches (Star r) ""
| MStarS (r : re) (s1 s2 : string) :
    matches r s1 -> matches (Star r) s2 -> matches (Star r) (s1 ++ s2).

Fixpoint all_chars (p : ascii -> bool) (s : string) : bool :=
  match s with
  | EmptyString => true
  | String c s' => p c && all_chars p s'
  end.

(** A non-empty run of characters that are neither white space nor [@]. *)
Definition email_part (s : string) : bool :=
  negb (String.eqb s "") && all_chars not_space_at s.

Fixpoint is_lower_hex (s : string) : bool :=
  match s with
  | EmptyString => true
  | String c s' =>
      let n := nat_of_ascii c in
      (((48 <=? n) && (n <=? 57)) || ((97 <=? n) && (n <=? 102)))%nat
      && is_lower_hex s'
  end.

Section MoreVocabulary.

Context (P : Platform).

(** The row [createSession] writes when it starts in [st]. *)
Definition created_session (userId : string) (st : State) : Session :=
  mkSession (cuid P (seed st + 32)) (minted_token P st) userId
    (clock st + SESSION_MAX_AGE * 1000).

(** The tenant company-setup creates when its store calls start in [st]. *)
Definition created_tenant (cif name : string) (st : State) : Tenant :=
  mkTenant (cuid P (seed st)) cif name (clock st) (clock st).

(** How an operation may change the Session table: not at all, by
    deleting rows, or by appending a row whose token no row holds. *)
Inductive sessions_step (ss : list Session) : list Session -> Prop :=
| step_same : sessions_step ss ss
| step_delete (g : Session -> bool) : sessions_step ss (filter g ss)
| step_create (row : Session) :
    find_session_by_token (s_sessionToken row) ss = None ->
    sessions_step ss (ss ++ [row]).

End MoreVocabulary.

(** ** A test double for the platform, to run the handlers on concrete requests *)

Module Test.

Definition byte_of_nat (n : nat) : Byte.byte :=
  match Byte.of_N (N.of_nat n mod 256) with
  | Some b => b
  | None => Byte.x00
  end.

Definition digits (n : nat) : string :=
  DecimalString.NilEmpty.string_of_uint (Nat.to_uint n).

(** Not a password hash: a tag in front of the plaintext is enough to
    exercise the control flow of the handlers. *)
Definition toy_hash (password : string) (rounds : Z) (salt : nat) : Result string :=
  Ok ("$2a$10$" ++ digits salt ++ "$" ++ password).

Definition after_salt (h : string) : string :=
  let body := substring 7 (String.length h - 7) h in
  match index 0 "$" body with
  | Some i => substring (S i) (String.length body - S i) body
  | None => body
  end.

Definition toy_compare (password hash : string) : Result bool :=
  Ok (prefix "$2a$10$" hash && String.eqb (after_salt hash) password).

Definition platform : Platform :=
  mkPlatform (Some "production") byte_of_nat
             (fun n => "c" ++ digits n) toy_hash toy_compare
             (fun ms => "t" ++ DecimalString.NilEmpty.string_of_int (Z.to_int ms)).

Definition alice : User :=
  mkUser "u1" "alice@test.com" false (Some "Alice") None
         (Some "$2a$10$0$password123") None false 1000.

(** An account without a password credential. *)
Definition bob : User :=
  mkUser "u2" "bob@test.com" false None None None None false 1000.

Definition live : Session := mkSession "s1" "tok-live" "u1" 5000.
Definition stale : Session := mkSession "s2" "tok-stale" "u1" 1999.
Definition edge : Session := mkSession "s3" "tok-edge" "u1" 2000.

Definition st0 : State :=
  mkState [alice; bob] [live; stale; edge] 2000 [] 0 [].

Definition post (email password : string) : Event :=
  mkEvent [] (Some email) (Some password) None.

Definition with_cookie (tok : string) : Event :=
  mkEvent [("auth.session_token", tok)] None None None.

Definition no_cookie : Event := mkEvent [] None None None.

(** The same store, unreachable for its next call. *)
Definition st_down : State := set_faults [Some "db down"] st0.

Definition minted : string :=
  "000102030405060708090a0b0c0d0e0f101112131415161718191a1b1c1d1e1f".

(** The states of a round trip: sign up, sign in, sign out. *)
Definition carol : Event := post "carol@test.com" "password123".
Definition st1 : State := snd (signup_handler platform carol st0).
Definition st2 : State := snd (signin_handler platform carol st1).
Definition carol_token : string := minted_token platform st1.
Definition st3 : State := snd (signout_handler platform (with_cookie carol_token) st2).

(** The store one millisecond after carol's session has lapsed. *)
Definition st2_late : State :=
  mkState (db_users st2) (db_sessions st2) 2592002001 [] (seed st2) (res_cookies st2).

(** The messages as Node, bcryptjs and the Prisma client word them. *)
Definition runtime : Runtime :=
  mkRuntime
    (fun k body =>
       "Cannot destructure property '" ++ k ++ "' of 'body' as it is "
       ++ match body with None => "undefined" | Some _ => "null" end ++ ".")
    (fun password hash => "Illegal arguments: " ++ typeof password ++ ", string")
    (fun argument v =>
       "Argument `" ++ argument ++ "`: Invalid value provided. Expected String, provided "
       ++ typeof v ++ ".").

(** A sign-in body with the two fields. *)
Definition sign_in (email password : json) : option json :=
  Some (JsObject [ ("email", email); ("password", password) ]).

(** alice sets up her company. *)
Definition acme : Event :=
  mkEvent [("auth.session_token", "tok-live")] None None (Some "Acme").

Definition acme_body : option json :=
  Some (JsObject [ ("cif", JsString "B12345678"); ("name", JsString "Acme") ]).

Definition acme_tenant : Tenant := mkTenant "c0" "B12345678" "Acme" 2000 2000.

Definition st0_linked : State :=
  set_seed 1 (set_users [set_tenantId (Some "c0") alice; bob] st0).

(** alice after company-setup and complete. *)
Definition st0_onboarded : State :=
  set_users [set_onboardingCompleted true (set_tenantId (Some "c0") alice); bob]
    st0_linked.

(** alice, with her session, after the handler of complete.ts. *)
Definition st0_completed : State :=
  set_users [set_onboardingCompleted true alice; bob] st0.

(** The responses of carol's sign-up and sign-in. *)
Definition carol_row : User :=
  mkUser "c1" "carol@test.com" false None None
    (Some "$2a$10$0$password123") None false 2000.

Definition carol_signup : jsval :=
  JObj [ ("success", JBool true); ("user", select_user signup_select carol_row) ].

Definition carol_signin : jsval :=
  signin_response platform
    (mkUser "c1" "carol@test.com" false None None
       (Some "$2a$10$0$password123") None false 2000)
    carol_token 2592002000.

End Test.

(** * Properties *)

(** ** The model at work *)

Example emailRegex_ok : re_test emailRegex "alice@test.com" = true.
Proof. reflexivity. Qed.

Example emailRegex_no_tld : re_test emailRegex "alice@test" = false.
Proof. reflexivity. Qed.

Example emailRegex_space : re_test emailRegex "al ice@test.com" = false.
Proof. reflexivity. Qed.

Example emailRegex_two_at : re_test emailRegex "a@b@c.d" = false.
Proof. reflexivity. Qed.

Module TestRuns.

Import Test.

Example signin_alice :
  snd (signin_handler platform (post "alice@test.com" "password123") st0)
  = mkState [alice; bob]
      [live; stale; edge; mkSession "c32" minted "u1" 2592002000]
      2000 [] 33
      [mkCookie "auth.session_token" minted true true "lax" 2592000 "/"].
Proof. reflexivity. Qed.

Example signup_carol :
  fst (signup_handler platform (post "carol@test.com" "longenough1") st0)
  = Ok (JObj [ ("success", JBool true);
               ("user", JObj [ ("id", JStr "c1"); ("email", JStr "carol@test.com");
                               ("emailVerified", JBool false); ("name", JNull);
                               ("onboardingCompleted", JBool false);
                               ("createdAt", JDate 2000) ]) ]).
Proof. reflexivity. Qed.

Example signup_short_password :
  fst (signup_handler platform (post "carol@test.com" "short") st0)
  = Throw (H3Error 400 "Password must be at least 8 characters long").
Proof. reflexivity. Qed.

Example requireAuth_live :
  exists v, requireAuth platform (with_cookie "tok-live") st0 = (Ok v, st0).
Proof. eexists; reflexivity. Qed.

Example requireAuth_stale :
  requireAuth platform (with_cookie "tok-stale") st0
  = (Throw (H3Error 401 "Unauthorized - Invalid or expired session"),
     mkState [alice; bob] [live; edge] 2000 [] 0 [clear_cookie platform]).
Proof. reflexivity. Qed.

(** Sign up, sign in, pass the guard with the cookie just set, sign out,
    and be refused by the guard with the stale cookie. *)
Example guard_round_trip :
  map c_value (res_cookies st2) = [carol_token]
  /\ (exists sw, fst (requireAuth platform (with_cookie carol_token) st2)
                 = Ok (auth_context sw)
                 /\ sw_user sw = select_user session_user_select
                                   (mkUser "c1" "carol@test.com" false None None
                                      (Some "$2a$10$0$password123") None false 2000))
  /\ fst (requireAuth platform (with_cookie carol_token) st3)
     = Throw (H3Error 401 "Unauthorized - Invalid or expired session").
Proof.
  split; [reflexivity|]. split; [|reflexivity].
  eexists; split; reflexivity.
Qed.

End TestRuns.

(** ** Running the monad *)

Lemma after_call_idle (st : State) : faults st = [] -> after_call st = st.
Proof.
  destruct st as [us ss now fs sd cs]; unfold after_call, set_faults; simpl.
  intros ->; reflexivity.
Qed.

Lemma next_fault_idle (st : State) : faults st = [] -> next_fault st = None.
Proof. unfold next_fault; intros ->; reflexivity. Qed.

Lemma store_call_answers {A} (op : M A) (st : State) :
  next_fault st = None -> store_call op st = op (after_call st).
Proof. unfold store_call; intros ->; reflexivity. Qed.

Lemma store_call_fails {A} (op : M A) (st : State) (msg : string) :
  next_fault st = Some msg ->
  store_call op st = (Throw (JsError msg), after_call st).
Proof. unfold store_call; intros ->; reflexivity. Qed.

(** [verifyPassword] hands its arguments to bcryptjs and its outcome back,
    value or exception, and touches nothing. *)
Lemma verifyPassword_delegates (P : Platform) (password hash : string) (st : State) :
  verifyPassword P password hash st = (bcrypt_compare P password hash, st).
Proof. reflexivity. Qed.

Lemma toString_hex_length (buf : list Byte.byte) :
  String.length (toString_hex buf) = (2 * List.length buf)%nat.
Proof.
  unfold toString_hex.
  induction buf as [|b buf IH]; [reflexivity|].
  destruct buf as [|b' buf]; [reflexivity|].
  remember (b' :: buf) as tl eqn:E.
  transitivity (S (S (String.length (String.concat "" (map hex_of_byte tl))))).
  - rewrite E; reflexivity.
  - rewrite IH; simpl; lia.
Qed.

(** A session token is 64 hexadecimal digits. *)
Lemma minted_token_length (P : Platform) (st : State) :
  String.length (minted_token P st) = 64%nat.
Proof.
  unfold minted_token.
  rewrite toString_hex_length, length_map, length_seq; reflexivity.
Qed.

(** Unfolding of the monad and of the store, for symbolic execution. *)
Ltac unfold_monad :=
  unfold rethrow_or_500 in *;
  unfold try_catch, bind, ret, throw, get_state, setCookie, store_call in *.

(** Case analysis on the innermost scrutinee of a term. *)
Ltac case_inner t :=
  match t with
  | context [match ?x with _ => _ end] => case_inner x
  | _ => destruct t eqn:?
  end.

Ltac step :=
  match goal with
  | H : (_, _) = (_, _) |- _ => inversion H; subst; clear H
  | H : Ok _ = Throw _ |- _ => discriminate H
  | H : Throw _ = Ok _ |- _ => discriminate H
  | H : context [match ?x with _ => _ end] |- _ => case_inner x
  | |- context [match ?x with _ => _ end] => case_inner x
  end.

(** ** Sign-up *)

Section SignUp.

Context (P : Platform).

Lemma signup_throw_frame (event : Event) (st st' : State) (e : exn) :
  signup_handler P event st = (Throw e, st') ->
  db_users st' = db_users st /\ db_sessions st' = db_sessions st
  /\ res_cookies st' = res_cookies st.
Proof.
  unfold signup_handler, prisma_user_findUnique, prisma_user_create, hashPassword.
  unfold_monad.
  intros H.
  repeat (step; simpl in *); auto.
Qed.

Lemma signup_refused_throws (event : Event) (st : State) :
  signup_refused event st = true ->
  exists e, fst (signup_handler P event st) = Throw e.
Proof.
  unfold signup_refused, signup_handler, prisma_user_findUnique.
  unfold_monad.
  intros H.
  repeat (step; simpl in *); eauto; discriminate.
Qed.

Lemma signup_existing_outcome (event : Event) (st : State) (u : User) :
  valid_signup event = true ->
  next_fault st = None ->
  find_user_by_email (str_of (body_email event)) (db_users st) = Some u ->
  signup_handler P event st
  = (Throw (H3Error 400 "User with this email already exists"), after_call st).
Proof.
  unfold valid_signup, signup_handler, prisma_user_findUnique.
  unfold_monad.
  intros V F U.
  apply andb_prop in V as [V V4]; apply andb_prop in V as [V V3];
    apply andb_prop in V as [V1 V2].
  rewrite V1, V2, V3; simpl.
  apply negb_true_iff in V4; rewrite V4, F; simpl.
  rewrite U; reflexivity.
Qed.

Lemma signup_ok_inv (event : Event) (st st' : State) (resp : jsval) :
  signup_handler P event st = (Ok resp, st') ->
  signup_refused event st = false
  /\ exists u, db_users st' = (db_users st ++ [u])%list
       /\ u_email u = str_of (body_email event)
       /\ resp = JObj [("success", JBool true); ("user", select_user signup_select u)].
Proof.
  unfold signup_refused, signup_handler, prisma_user_findUnique,
    prisma_user_create, hashPassword.
  unfold_monad.
  intros H.
  repeat (step; simpl in *); try discriminate.
  all: split; [reflexivity|]; eexists; repeat split.
Qed.

End SignUp.

(** ** Sign-in *)

Section SignIn.

Context (P : Platform).

Lemma signin_denied_outcome (event : Event) (st : State) :
  credentials_supplied event = true ->
  next_fault st = None ->
  signin_denied P event st ->
  signin_handler P event st
  = (Throw (H3Error 401 "Invalid email or password"), after_call st).
Proof.
  unfold credentials_supplied, signin_handler, prisma_user_findUnique, verifyPassword.
  unfold_monad.
  intros C F D.
  apply andb_prop in C as [C1 C2]; rewrite C1, C2; simpl.
  rewrite F; simpl.
  destruct D as [U | u U H | u h U H Hne B].
  - rewrite U; reflexivity.
  - rewrite U, H; reflexivity.
  - rewrite U, H; simpl.
    destruct (String.eqb_spec h "") as [->|_]; [contradiction|simpl].
    rewrite B; reflexivity.
Qed.

Lemma signin_ok_inv (event : Event) (st st' : State) (resp : jsval) :
  signin_handler P event st = (Ok resp, st') ->
  exists (u : User) (row : Session),
    find_user_by_email (str_of (body_email event)) (db_users st) = Some u
    /\ find_session_by_token (minted_token P st) (db_sessions st) = None
    /\ db_users st' = db_users st
    /\ db_sessions st' = (db_sessions st ++ [row])%list
    /\ s_sessionToken row = minted_token P st
    /\ s_userId row = u_id u
    /\ s_expires row = clock st + 30 * 24 * 60 * 60 * 1000
    /\ res_cookies st' = (res_cookies st ++ [session_cookie P (minted_token P st) (30 * 24 * 60 * 60)])%list
    /\ clock st' = clock st
    /\ resp = signin_response P u (minted_token P st) (s_expires row).
Proof.
  unfold signin_handler, prisma_user_findUnique, verifyPassword, createSession,
    generateSessionToken, randomBytes, prisma_session_create, minted_token,
    signin_response.
  unfold_monad.
  intros H.
  repeat (step; simpl in *); try discriminate.
  do 2 eexists; repeat split; eauto.
Qed.

(** The uniqueness of tokens is kept by a sign-in: the store refuses a
    token that some row already holds. *)
Lemma signin_keeps_unique_tokens (event : Event) (st st' : State) (resp : jsval) :
  signin_handler P event st = (Ok resp, st') ->
  unique_tokens (db_sessions st) -> unique_tokens (db_sessions st').
Proof.
  intros H U.
  apply signin_ok_inv in H as (u & row & _ & Fresh & _ & Hs & Htok & _).
  unfold unique_tokens in *; rewrite Hs, map_app; simpl.
  apply NoDup_app; [exact U | repeat constructor; intros [] |].
  intros tok Hin [<-|[]].
  apply in_map_iff in Hin as (r & Hr & Hin).
  unfold find_session_by_token in Fresh.
  pose proof (find_none _ _ Fresh r Hin) as Hne; simpl in Hne.
  rewrite Hr, Htok, String.eqb_refl in Hne; discriminate.
Qed.

End SignIn.

(** ** The session store *)

Section Sessions.

Lemma find_session_In (tok : string) (ss : list Session) (s : Session) :
  find_session_by_token tok ss = Some s -> In s ss /\ s_sessionToken s = tok.
Proof.
  unfold find_session_by_token; intros H.
  apply find_some in H as [Hin Heq].
  split; [exact Hin | now apply String.eqb_eq].
Qed.

Lemma find_session_none (tok : string) (ss : list Session) :
  (forall r, In r ss -> s_sessionToken r <> tok) ->
  find_session_by_token tok ss = None.
Proof.
  unfold find_session_by_token.
  induction ss as [|r ss IH]; simpl; intros H; [reflexivity|].
  destruct (String.eqb_spec (s_sessionToken r) tok) as [E|_].
  - exfalso; apply (H r); auto.
  - apply IH; intros r' Hr'; apply H; auto.
Qed.

Lemma row_has_id (s : Session) (ss : list Session) :
  In s ss -> existsb (fun r => String.eqb (s_id r) (s_id s)) ss = true.
Proof.
  intros H; apply existsb_exists; exists s; split; [exact H|].
  apply String.eqb_refl.
Qed.

Lemma unique_tokens_inj (ss : list Session) (a b : Session) :
  unique_tokens ss -> In a ss -> In b ss ->
  s_sessionToken a = s_sessionToken b -> a = b.
Proof.
  unfold unique_tokens.
  induction ss as [|r ss IH]; simpl; intros U Ha Hb E; [contradiction|].
  inversion U as [|x l Hnotin Hnd]; subst.
  destruct Ha as [<-|Ha], Hb as [<-|Hb]; auto.
  - exfalso; apply Hnotin; rewrite E; now apply in_map.
  - exfalso; apply Hnotin; rewrite <- E; now apply in_map.
Qed.

Lemma deleted_token_is_gone (tok : string) (ss : list Session) (s : Session) :
  unique_tokens ss ->
  find_session_by_token tok ss = Some s ->
  find_session_by_token tok (without_id (s_id s) ss) = None.
Proof.
  intros U F; apply find_session_In in F as [Hin Htok].
  apply find_session_none; intros r Hr E.
  apply filter_In in Hr as [Hr Hid].
  assert (r = s) as -> by (apply unique_tokens_inj with (ss := ss); auto; congruence).
  rewrite String.eqb_refl in Hid; discriminate.
Qed.

Lemma getSession_absent (tok : string) (st : State) :
  next_fault st = None ->
  find_session_by_token tok (db_sessions st) = None ->
  getSession tok st = (Ok None, after_call st).
Proof.
  unfold getSession, prisma_session_findUnique; unfold_monad.
  intros F N; rewrite F; simpl; rewrite N; reflexivity.
Qed.

Lemma getSession_live (tok : string) (st : State) (s : Session) :
  next_fault st = None ->
  find_session_by_token tok (db_sessions st) = Some s ->
  clock st <= s_expires s ->
  getSession tok st = (Ok (Some (joined st s)), after_call st).
Proof.
  unfold getSession, prisma_session_findUnique; unfold_monad.
  intros F N L; rewrite F; simpl; rewrite N; simpl.
  destruct (Z.ltb_spec (s_expires s) (clock st)); [lia|reflexivity].
Qed.

Lemma getSession_expired (tok : string) (st : State) (s : Session) :
  next_fault st = None ->
  next_fault (after_call st) = None ->
  find_session_by_token tok (db_sessions st) = Some s ->
  s_expires s < clock st ->
  getSession tok st
  = (Ok None,
     set_sessions (without_id (s_id s) (db_sessions st)) (after_call (after_call st))).
Proof.
  unfold getSession, prisma_session_findUnique, prisma_session_delete; unfold_monad.
  intros F F' N L; rewrite F; simpl; rewrite N; simpl.
  destruct (Z.ltb_spec (s_expires s) (clock st)); [|lia].
  rewrite F'; simpl.
  apply find_session_In in N as [Hin _].
  rewrite (row_has_id _ _ Hin); reflexivity.
Qed.

Lemma getSession_expired_delete_fails (tok : string) (st : State) (s : Session)
    (msg : string) :
  next_fault st = None ->
  next_fault (after_call st) = Some msg ->
  find_session_by_token tok (db_sessions st) = Some s ->
  s_expires s < clock st ->
  getSession tok st = (Throw (JsError msg), after_call (after_call st)).
Proof.
  unfold getSession, prisma_session_findUnique, prisma_session_delete; unfold_monad.
  intros F F' N L; rewrite F; simpl; rewrite N; simpl.
  destruct (Z.ltb_spec (s_expires s) (clock st)); [|lia].
  rewrite F'; reflexivity.
Qed.

Lemma getSession_store_down (tok : string) (st : State) (msg : string) :
  next_fault st = Some msg ->
  getSession tok st = (Throw (JsError msg), after_call st).
Proof.
  unfold getSession, prisma_session_findUnique; unfold_monad.
  intros F; rewrite F; reflexivity.
Qed.

End Sessions.

(** ** What a response can carry *)

Section Projections.

Lemma session_user_select_safe (u : User) :
  has_key "passwordHash" (select_user session_user_select u) = false.
Proof. destruct u as [i e v [n|] [im|] [h|] [t|] o c]; reflexivity. Qed.

Lemma signup_select_safe (u : User) :
  has_key "passwordHash" (select_user signup_select u) = false.
Proof. destruct u as [i e v [n|] [im|] [h|] [t|] o c]; reflexivity. Qed.

(** The object read by sign-in does carry the hash ... *)
Lemma signin_select_reads_hash (u : User) :
  has_key "passwordHash" (select_user signin_select u) = true.
Proof. destruct u as [i e v [n|] [im|] [h|] [t|] o c]; reflexivity. Qed.

(** ... and the rest pattern takes it out. *)
Lemma userWithoutPassword_safe (u : User) :
  has_key "passwordHash" (obj_without "passwordHash" (select_user signin_select u)) = false.
Proof. destruct u as [i e v [n|] [im|] [h|] [t|] o c]; reflexivity. Qed.

Lemma include_user_safe (us : list User) (s : Session) :
  has_key "passwordHash" (include_user session_user_select us s) = false.
Proof.
  unfold include_user.
  destruct (find_user_by_id (s_userId s) us); [apply session_user_select_safe | reflexivity].
Qed.

End Projections.

(** ** get-session, requireAuth, getOptionalAuth, sign-out *)

Section Gateway.

Context (P : Platform).

Lemma getSession_some_inv (tok : string) (st st' : State) (sw : SessionWithUser) :
  getSession tok st = (Ok (Some sw), st') ->
  exists s, find_session_by_token tok (db_sessions st) = Some s
            /\ sw = joined st s /\ clock st <= s_expires s /\ st' = after_call st.
Proof.
  unfold getSession, prisma_session_findUnique, prisma_session_delete, joined.
  unfold_monad.
  intros H.
  repeat (step; simpl in *); try discriminate.
  eexists; repeat split.
  destruct (Z.ltb_spec (s_expires s) (clock st)); [discriminate | assumption].
Qed.

Lemma get_session_no_cookie (event : Event) (st : State) :
  truthy (session_token event) = false ->
  get_session_handler P event st = (Ok no_session, st).
Proof.
  unfold get_session_handler, session_token; unfold_monad.
  intros ->; reflexivity.
Qed.

Lemma get_session_via (event : Event) (st : State) :
  truthy (session_token event) = true ->
  get_session_handler P event st
  = match getSession (str_of (session_token event)) st with
    | (Ok None, st1) => (Ok no_session, cleared P st1)
    | (Ok (Some sw), st1) => (Ok (session_response P sw), st1)
    | (Throw e, st1) =>
        (Throw (H3Error 500 (or_else (exn_message e) "Failed to get session")), st1)
    end.
Proof.
  unfold get_session_handler, session_token; unfold_monad.
  intros ->; simpl.
  destruct (getSession _ st) as [[[sw|]|e] st1]; reflexivity.
Qed.

Lemma requireAuth_no_cookie (event : Event) (st : State) :
  truthy (session_token event) = false ->
  requireAuth P event st = (Throw (H3Error 401 "Unauthorized - No session token"), st).
Proof.
  unfold requireAuth, session_token; unfold_monad.
  intros ->; reflexivity.
Qed.

Lemma requireAuth_via (event : Event) (st : State) :
  truthy (session_token event) = true ->
  requireAuth P event st
  = match getSession (str_of (session_token event)) st with
    | (Ok None, st1) =>
        (Throw (H3Error 401 "Unauthorized - Invalid or expired session"), cleared P st1)
    | (Ok (Some sw), st1) =>
        if is_null (sw_user sw)
        then (Throw (H3Error 401 "Unauthorized - Invalid or expired session"), cleared P st1)
        else (Ok (auth_context sw), st1)
    | (Throw e, st1) => (Throw e, st1)
    end.
Proof.
  unfold requireAuth, session_token; unfold_monad.
  intros ->; simpl.
  destruct (getSession _ st) as [[[sw|]|e] st1]; try reflexivity.
  destruct (is_null (sw_user sw)); reflexivity.
Qed.

Lemma requireAuth_ok_inv (event : Event) (st st' : State) (v : jsval) :
  requireAuth P event st = (Ok v, st') ->
  exists sw, getSession (str_of (session_token event)) st = (Ok (Some sw), st')
             /\ is_null (sw_user sw) = false /\ v = auth_context sw.
Proof.
  destruct (truthy (session_token event)) eqn:T.
  - rewrite (requireAuth_via _ _ T).
    destruct (getSession _ st) as [[[sw|]|e] st1]; try discriminate.
    destruct (is_null (sw_user sw)) eqn:N; [discriminate|].
    intros H; inversion H; subst; eauto.
  - rewrite (requireAuth_no_cookie _ _ T); discriminate.
Qed.

(** With the store answering, [getSession] returns; it never throws. *)
Lemma getSession_returns (tok : string) (st : State) :
  faults st = [] ->
  exists r st', getSession tok st = (Ok r, st') /\ faults st' = [].
Proof.
  intros F.
  pose proof (next_fault_idle _ F) as NF.
  pose proof (after_call_idle _ F) as AC.
  destruct (find_session_by_token tok (db_sessions st)) as [s|] eqn:E.
  - destruct (Z.lt_ge_cases (s_expires s) (clock st)) as [L|L].
    + rewrite (getSession_expired tok st s); rewrite ?AC; auto.
      do 2 eexists; split; [reflexivity | exact F].
    + rewrite (getSession_live tok st s); auto; rewrite AC.
      do 2 eexists; split; [reflexivity | exact F].
  - rewrite getSession_absent; auto; rewrite AC.
    do 2 eexists; split; [reflexivity | exact F].
Qed.

Lemma deleteSession_answers (tok : string) (st : State) :
  next_fault st = None ->
  deleteSession tok st
  = (Ok tt,
     set_sessions
       (filter (fun s => negb (String.eqb (s_sessionToken s) tok)) (db_sessions st))
       (after_call st)).
Proof.
  unfold deleteSession, prisma_session_deleteMany; unfold_monad.
  intros ->; reflexivity.
Qed.

Lemma deleteSession_fails (tok : string) (st : State) (msg : string) :
  next_fault st = Some msg ->
  deleteSession tok st = (Throw (JsError msg), after_call st).
Proof.
  unfold deleteSession, prisma_session_deleteMany; unfold_monad.
  intros ->; reflexivity.
Qed.

Lemma signout_no_cookie (event : Event) (st : State) :
  truthy (session_token event) = false ->
  signout_handler P event st = (Ok signed_out, cleared P st).
Proof.
  unfold signout_handler, session_token; unfold_monad.
  intros ->; reflexivity.
Qed.

Lemma signout_via (event : Event) (st : State) :
  truthy (session_token event) = true ->
  signout_handler P event st
  = match deleteSession (str_of (session_token event)) st with
    | (Ok _, st1) => (Ok signed_out, cleared P st1)
    | (Throw e, st1) =>
        (Throw (H3Error 500 (or_else (exn_message e) "Failed to sign out")), cleared P st1)
    end.
Proof.
  unfold signout_handler, session_token; unfold_monad.
  intros ->; simpl.
  destruct (deleteSession _ st) as [[[]|e] st1]; reflexivity.
Qed.

End Gateway.

(** * Main results *)

Lemma has_key_cons (k k' : string) (v : jsval) (t : list (string * jsval)) :
  has_key k (JObj ((k', v) :: t))
  = (String.eqb k k' || has_key k v || has_key k (JObj t))%bool.
Proof. reflexivity. Qed.

Lemma find_app {A} (f : A -> bool) (l l' : list A) :
  find f (l ++ l')%list
  = match find f l with Some x => Some x | None => find f l' end.
Proof.
  induction l as [|a l IH]; simpl; [reflexivity|].
  destruct (f a); [reflexivity | exact IH].
Qed.

(** ** Sign-in failures *)

Section SignInBodies.

Context (R : Runtime) (P : Platform).

(** On a body that carries the fields of an [Event], the handler on bodies
    is the handler on events. *)
Lemma signin_request_body_of (event : Event) (st : State) :
  signin_request R P (body_of event) st = signin_handler P event st.
Proof.
  unfold signin_request, signin_handler, body_of, destructure,
    prisma_user_findUnique_where, prisma_string, verifyPassword_of.
  unfold try_catch, bind, ret, throw.
  destruct event as [cookies [e|] [p|] [n|]]; cbn [body_email body_password body_name
    body_field app member find fst snd String.eqb Ascii.eqb Bool.eqb andb json_truthy truthy
    negb orb str_of]; try reflexivity.
  all: destruct (String.eqb e ""); cbn [negb orb]; try reflexivity.
  all: destruct (String.eqb p ""); cbn [negb orb]; reflexivity.
Qed.

Lemma signin_request_credentials (body : option json) (e p : string) (st : State) :
  credentials body = Some (e, p) ->
  credentials_supplied (with_credentials e p) = true
  /\ signin_request R P body st = signin_handler P (with_credentials e p) st.
Proof.
  unfold credentials.
  destruct body as [[| | | | |ms]|]; try discriminate.
  destruct (member "email" (JsObject ms)) as [[| | |e'| |]|] eqn:Ee; try discriminate.
  destruct (member "password" (JsObject ms)) as [[| | |p'| |]|] eqn:Ep; try discriminate.
  destruct (String.eqb e' "") eqn:Ne; [discriminate|].
  destruct (String.eqb p' "") eqn:Np; [discriminate|].
  intros [= <- <-].
  split.
  - unfold credentials_supplied, with_credentials, truthy; simpl.
    rewrite Ne, Np; reflexivity.
  - unfold signin_request, signin_handler, destructure,
      prisma_user_findUnique_where, prisma_string, verifyPassword_of.
    unfold try_catch, bind, ret, throw.
    rewrite Ee, Ep.
    cbn [with_credentials body_email body_password json_truthy truthy negb orb str_of].
    rewrite Ne, Np; reflexivity.
Qed.

End SignInBodies.

(** C1, as the code has it. Every denied sign-in that carries e-mail and
    password as non-empty strings (the e-mail is not registered, the
    registered user has no password hash, or bcrypt's compare returns false
    for the password) ends in the same error, status 401 with the message
    "Invalid email or password": the payloads of any two such failures are
    equal, and neither sets a cookie. *)
Theorem signin_failures_indistinguishable
    (R : Runtime) (P : Platform) (body1 body2 : option json)
    (e1 p1 e2 p2 : string) (st1 st2 : State) :
  credentials body1 = Some (e1, p1) -> next_fault st1 = None ->
  signin_denied P (with_credentials e1 p1) st1 ->
  credentials body2 = Some (e2, p2) -> next_fault st2 = None ->
  signin_denied P (with_credentials e2 p2) st2 ->
  fst (signin_request R P body1 st1) = Throw (H3Error 401 "Invalid email or password")
  /\ fst (signin_request R P body2 st2) = fst (signin_request R P body1 st1)
  /\ res_cookies (snd (signin_request R P body1 st1)) = res_cookies st1
  /\ res_cookies (snd (signin_request R P body2 st2)) = res_cookies st2.
Proof.
  intros B1 F1 D1 B2 F2 D2.
  destruct (signin_request_credentials R P body1 e1 p1 st1 B1) as [C1 ->].
  destruct (signin_request_credentials R P body2 e2 p2 st2 B2) as [C2 ->].
  rewrite (signin_denied_outcome P _ st1 C1 F1 D1).
  rewrite (signin_denied_outcome P _ st2 C2 F2 D2).
  repeat split.
Qed.

(** The two requests of the spec's secrecy scenario: an unknown e-mail, and
    a known e-mail with a wrong password. *)
Lemma signin_failures_indistinguishable_witness :
  fst (signin_request Test.runtime Test.platform
         (Test.sign_in (JsString "nonexistent@x.com") (JsString "anything")) Test.st0)
  = Throw (H3Error 401 "Invalid email or password")
  /\ fst (signin_request Test.runtime Test.platform
            (Test.sign_in (JsString "alice@test.com") (JsString "wrongpassword")) Test.st0)
     = fst (signin_request Test.runtime Test.platform
              (Test.sign_in (JsString "nonexistent@x.com") (JsString "anything")) Test.st0)
  /\ res_cookies (snd (signin_request Test.runtime Test.platform
                         (Test.sign_in (JsString "nonexistent@x.com") (JsString "anything"))
                         Test.st0))
     = res_cookies Test.st0
  /\ res_cookies (snd (signin_request Test.runtime Test.platform
                         (Test.sign_in (JsString "alice@test.com") (JsString "wrongpassword"))
                         Test.st0))
     = res_cookies Test.st0.
Proof.
  apply (signin_failures_indistinguishable Test.runtime Test.platform
           (Test.sign_in (JsString "nonexistent@x.com") (JsString "anything"))
           (Test.sign_in (JsString "alice@test.com") (JsString "wrongpassword"))
           "nonexistent@x.com" "anything" "alice@test.com" "wrongpassword"
           Test.st0 Test.st0).
  - reflexivity.
  - reflexivity.
  - apply unknown_email; reflexivity.
  - reflexivity.
  - reflexivity.
  - apply (wrong_password Test.platform _ _ Test.alice "$2a$10$0$password123").
    + reflexivity.
    + reflexivity.
    + discriminate.
    + reflexivity.
Defined.

(** C1, as the spec words it, fails. The handler tests the two fields for
    truthiness only. With the number 12345678 as password, which matches no
    account, the unknown e-mail is answered 401 and alice's e-mail 500 with
    the message of bcryptjs: the two failures tell whether the account
    exists. And a sign-in for an unknown e-mail with an empty password is
    answered 400, not 401. *)
Lemma signin_failure_payloads_differ :
  find_user_by_email "nonexistent@x.com" (db_users Test.st0) = None
  /\ find_user_by_email "alice@test.com" (db_users Test.st0) = Some Test.alice
  /\ fst (signin_request Test.runtime Test.platform
            (Test.sign_in (JsString "nonexistent@x.com") (JsNum 12345678)) Test.st0)
     = Throw (H3Error 401 "Invalid email or password")
  /\ fst (signin_request Test.runtime Test.platform
            (Test.sign_in (JsString "alice@test.com") (JsNum 12345678)) Test.st0)
     = Throw (H3Error 500 "Illegal arguments: number, string")
  /\ fst (signin_request Test.runtime Test.platform
            (Test.sign_in (JsString "nonexistent@x.com") (JsString "")) Test.st0)
     = Throw (H3Error 400 "Email and password are required").
Proof. repeat split. Qed.

(** ** Sign-up *)

(** C3, as the code has it. A sign-up whose e-mail already belongs to a user
    fails with status 400, not 409, whenever the store answers the lookup;
    the message is "User with this email already exists" once the request
    has passed the field, format and length checks; no user is created. *)
Theorem signup_existing_email_is_400
    (P : Platform) (event : Event) (st : State) (u : User) :
  find_user_by_email (str_of (body_email event)) (db_users st) = Some u ->
  next_fault st = None ->
  exists (m : string) (st' : State),
    signup_handler P event st = (Throw (H3Error 400 m), st')
    /\ db_users st' = db_users st
    /\ (valid_signup event = true -> m = "User with this email already exists").
Proof.
  intros U F.
  destruct (valid_signup event) eqn:V.
  - rewrite (signup_existing_outcome P event st u V F U).
    do 2 eexists; repeat split.
  - unfold valid_signup in V; unfold signup_handler; unfold_monad.
    destruct (truthy (body_email event)); simpl in *;
      [|do 2 eexists; repeat split; discriminate].
    destruct (truthy (body_password event)); simpl in *;
      [|do 2 eexists; repeat split; discriminate].
    destruct (re_test emailRegex (str_of (body_email event))); simpl in *;
      [|do 2 eexists; repeat split; discriminate].
    apply negb_false_iff in V; rewrite V; simpl.
    do 2 eexists; repeat split; discriminate.
Qed.

Lemma signup_existing_email_is_400_witness :
  exists (m : string) (st' : State),
    signup_handler Test.platform (Test.post "alice@test.com" "password123") Test.st0
    = (Throw (H3Error 400 m), st')
    /\ db_users st' = db_users Test.st0
    /\ (valid_signup (Test.post "alice@test.com" "password123") = true ->
        m = "User with this email already exists").
Proof.
  apply (signup_existing_email_is_400 Test.platform
           (Test.post "alice@test.com" "password123") Test.st0 Test.alice).
  - reflexivity.
  - reflexivity.
Defined.

(** C3, as the spec words it, fails: the duplicate e-mail is answered with
    status 400, so no 409 reaches the caller. *)
Lemma signup_duplicate_not_409 :
  find_user_by_email "alice@test.com" (db_users Test.st0) = Some Test.alice
  /\ fst (signup_handler Test.platform (Test.post "alice@test.com" "password123") Test.st0)
     = Throw (H3Error 400 "User with this email already exists")
  /\ ~ (exists m, fst (signup_handler Test.platform
                         (Test.post "alice@test.com" "password123") Test.st0)
                  = Throw (H3Error 409 m)).
Proof.
  repeat split.
  intros [m H]; vm_compute in H; discriminate H.
Qed.

(** C9. A sign-up that fails writes nothing. Each of the four refusals
    (missing field, bad e-mail format, short password, e-mail already
    registered) is a failure, and whenever the handler throws, for these or
    any other reason, both tables are as they were. *)
Theorem signup_failure_writes_nothing (P : Platform) (event : Event) (st : State) :
  (signup_refused event st = true ->
   exists e, fst (signup_handler P event st) = Throw e)
  /\ (forall e st', signup_handler P event st = (Throw e, st') ->
      db_users st' = db_users st /\ db_sessions st' = db_sessions st).
Proof.
  split.
  - apply signup_refused_throws.
  - intros e st' H.
    destruct (signup_throw_frame P event st st' e H) as (Hu & Hs & _); auto.
Qed.

Lemma signup_failure_writes_nothing_witness :
  (exists e, fst (signup_handler Test.platform (Test.post "carol@test" "longenough1")
                    Test.st0) = Throw e)
  /\ db_users (snd (signup_handler Test.platform (Test.post "carol@test" "longenough1")
                      Test.st0)) = db_users Test.st0
  /\ db_sessions (snd (signup_handler Test.platform (Test.post "carol@test" "longenough1")
                         Test.st0)) = db_sessions Test.st0.
Proof.
  pose proof (signup_failure_writes_nothing Test.platform
                (Test.post "carol@test" "longenough1") Test.st0) as [R W].
  split.
  - apply R; reflexivity.
  - apply (W (H3Error 400 "Invalid email format") Test.st0); reflexivity.
Defined.

(** ** The write of a successful sign-in *)

(** C8. A successful sign-in appends one Session row, carrying the token just
    minted (64 hex digits of 32 random bytes, not held by any earlier row),
    the id of the authenticated user and [expires = now + 30 days], and
    writes nothing else: the User table is unchanged and every earlier
    session is found, and accepted by [getSession], as before. *)
Theorem signin_writes_one_session
    (P : Platform) (event : Event) (st st' : State) (resp : jsval) :
  signin_handler P event st = (Ok resp, st') ->
  db_users st' = db_users st
  /\ (exists (u : User) (row : Session),
        find_user_by_email (str_of (body_email event)) (db_users st) = Some u
        /\ db_sessions st' = (db_sessions st ++ [row])%list
        /\ s_sessionToken row = minted_token P st
        /\ find_session_by_token (minted_token P st) (db_sessions st) = None
        /\ s_userId row = u_id u
        /\ s_expires row = clock st + 30 * 24 * 60 * 60 * 1000
        /\ res_cookies st'
           = (res_cookies st
              ++ [session_cookie P (s_sessionToken row) (30 * 24 * 60 * 60)])%list
        /\ resp = signin_response P u (s_sessionToken row) (s_expires row))
  /\ (forall tok s,
        find_session_by_token tok (db_sessions st) = Some s ->
        find_session_by_token tok (db_sessions st') = Some s)
  /\ (forall tok sw,
        fst (getSession tok (set_faults [] st)) = Ok (Some sw) ->
        fst (getSession tok (set_faults [] st')) = Ok (Some sw)).
Proof.
  intros H.
  apply signin_ok_inv in H
    as (u & row & U & Fresh & Hu & Hs & Htok & Huid & Hexp & Hck & Hclk & ->).
  assert (Keep : forall tok s,
            find_session_by_token tok (db_sessions st) = Some s ->
            find_session_by_token tok (db_sessions st') = Some s).
  { intros tok s F; unfold find_session_by_token in *.
    rewrite Hs, find_app, F; reflexivity. }
  split; [exact Hu|]. split; [|split; [exact Keep|]].
  - exists u, row; rewrite Htok; repeat split; auto.
  - intros tok sw G.
    destruct (getSession tok (set_faults [] st)) as [r st1] eqn:E.
    simpl in G; subst r.
    apply getSession_some_inv in E as (s & F & -> & L & _).
    simpl in F, L.
    rewrite (getSession_live tok (set_faults [] st') s); simpl; auto.
    + unfold joined; simpl; rewrite Hu; reflexivity.
    + rewrite Hclk; exact L.
Qed.

Lemma signin_writes_one_session_witness :
  db_users (snd (signin_handler Test.platform
                   (Test.post "alice@test.com" "password123") Test.st0))
  = db_users Test.st0.
Proof.
  apply (signin_writes_one_session Test.platform
           (Test.post "alice@test.com" "password123") Test.st0 _
           (signin_response Test.platform Test.alice Test.minted 2592002000)).
  reflexivity.
Defined.

(** ** Lazy expiry in the session store *)

(** C2, as the code has it. With the store answering and tokens unique, a
    stored session is returned, joined with the safe projection of its
    owner, exactly when [now <= expires]; the instant [now = expires] is
    still valid. When [expires < now] the row is deleted and [null] comes
    back, and a second [getSession] with the same token returns [null]
    again and raises nothing. *)
Theorem getSession_lazy_expiry (tok : string) (st : State) (s : Session) :
  faults st = [] ->
  unique_tokens (db_sessions st) ->
  find_session_by_token tok (db_sessions st) = Some s ->
  (clock st <= s_expires s ->
     getSession tok st = (Ok (Some (joined st s)), st)
     /\ has_key "passwordHash" (sw_user (joined st s)) = false)
  /\ (s_expires s < clock st ->
     getSession tok st
     = (Ok None, set_sessions (without_id (s_id s) (db_sessions st)) st)
     /\ ~ In s (without_id (s_id s) (db_sessions st))
     /\ getSession tok (set_sessions (without_id (s_id s) (db_sessions st)) st)
        = (Ok None, set_sessions (without_id (s_id s) (db_sessions st)) st)).
Proof.
  intros F U E.
  pose proof (next_fault_idle st F) as NF.
  pose proof (after_call_idle st F) as AC.
  split; intros L.
  - rewrite (getSession_live tok st s NF E L), AC.
    split; [reflexivity | apply include_user_safe].
  - rewrite (getSession_expired tok st s); rewrite ?AC; auto.
    split; [reflexivity|]. split.
    + unfold without_id; intros Hin; apply filter_In in Hin as [_ Hid].
      rewrite String.eqb_refl in Hid; discriminate.
    + set (st1 := set_sessions (without_id (s_id s) (db_sessions st)) st).
      assert (F1 : faults st1 = []) by exact F.
      rewrite (getSession_absent tok st1 (next_fault_idle st1 F1)).
      * rewrite (after_call_idle st1 F1); reflexivity.
      * apply (deleted_token_is_gone tok (db_sessions st) s U E).
Qed.

(** The expired session of the spec's scenario: looked up one instant after
    it has lapsed, then looked up again. *)
Lemma getSession_lazy_expiry_witness :
  getSession "tok-stale" Test.st0
  = (Ok None, set_sessions [Test.live; Test.edge] Test.st0)
  /\ ~ In Test.stale [Test.live; Test.edge]
  /\ getSession "tok-stale" (set_sessions [Test.live; Test.edge] Test.st0)
     = (Ok None, set_sessions [Test.live; Test.edge] Test.st0).
Proof.
  apply (getSession_lazy_expiry "tok-stale" Test.st0 Test.stale).
  - reflexivity.
  - unfold unique_tokens; simpl.
    repeat constructor; simpl; intros H;
      repeat (destruct H as [H|H]; [discriminate H|]); exact H.
  - reflexivity.
  - simpl; lia.
Defined.

(** C2, as the spec words it, fails at the boundary: at [now = expires],
    which is not [now < expires], the session is still returned. *)
Lemma getSession_valid_at_expiry_instant :
  find_session_by_token "tok-edge" (db_sessions Test.st0) = Some Test.edge
  /\ ~ (clock Test.st0 < s_expires Test.edge)
  /\ getSession "tok-edge" Test.st0
     = (Ok (Some (joined Test.st0 Test.edge)), Test.st0).
Proof.
  split; [reflexivity|]. split; [simpl; lia | reflexivity].
Qed.

(** ** Sign-out *)

(** C4, as the code has it. Every sign-out pushes the clearing cookie (empty
    value, Max-Age 0). It reports success when no session cookie came with
    the request and when the deletion went through; when the deletion
    fails, the cookie is still cleared P but the caller gets status 500 with
    the store's message (or "Failed to sign out"). *)
Theorem signout_clears_cookie (P : Platform) (event : Event) (st : State) :
  (res_cookies (snd (signout_handler P event st))
   = (res_cookies st ++ [clear_cookie P])%list
   /\ c_value (clear_cookie P) = "" /\ c_maxAge (clear_cookie P) = 0)
  /\ (truthy (session_token event) = false ->
      signout_handler P event st = (Ok signed_out, cleared P st))
  /\ (truthy (session_token event) = true -> next_fault st = None ->
      fst (signout_handler P event st) = Ok signed_out
      /\ db_sessions (snd (signout_handler P event st))
         = filter (fun s => negb (String.eqb (s_sessionToken s)
                                    (str_of (session_token event))))
             (db_sessions st))
  /\ (forall msg, truthy (session_token event) = true -> next_fault st = Some msg ->
      fst (signout_handler P event st)
      = Throw (H3Error 500 (or_else msg "Failed to sign out"))
      /\ db_sessions (snd (signout_handler P event st)) = db_sessions st).
Proof.
  split; [|split; [|split]].
  - split; [|split; reflexivity].
    destruct (truthy (session_token event)) eqn:T.
    + rewrite (signout_via P event st T).
      destruct (next_fault st) as [msg|] eqn:F.
      * rewrite (deleteSession_fails _ st msg F); reflexivity.
      * rewrite (deleteSession_answers _ st F); reflexivity.
    + rewrite (signout_no_cookie P event st T); reflexivity.
  - apply signout_no_cookie.
  - intros T F.
    rewrite (signout_via P event st T), (deleteSession_answers _ st F).
    split; reflexivity.
  - intros msg T F.
    rewrite (signout_via P event st T), (deleteSession_fails _ st msg F).
    split; reflexivity.
Qed.

Lemma signout_clears_cookie_witness :
  signout_handler Test.platform Test.no_cookie Test.st0
  = (Ok signed_out, cleared Test.platform Test.st0)
  /\ (fst (signout_handler Test.platform (Test.with_cookie "tok-live") Test.st0)
      = Ok signed_out
      /\ db_sessions (snd (signout_handler Test.platform
                             (Test.with_cookie "tok-live") Test.st0))
         = [Test.stale; Test.edge])
  /\ (fst (signout_handler Test.platform (Test.with_cookie "tok-live") Test.st_down)
      = Throw (H3Error 500 "db down")
      /\ db_sessions (snd (signout_handler Test.platform
                             (Test.with_cookie "tok-live") Test.st_down))
         = db_sessions Test.st_down).
Proof.
  split; [|split].
  - destruct (signout_clears_cookie Test.platform Test.no_cookie Test.st0)
      as (_ & H & _).
    apply H; reflexivity.
  - destruct (signout_clears_cookie Test.platform (Test.with_cookie "tok-live") Test.st0)
      as (_ & _ & H & _).
    apply H; reflexivity.
  - destruct (signout_clears_cookie Test.platform (Test.with_cookie "tok-live")
                Test.st_down) as (_ & _ & _ & H).
    apply (H "db down"); reflexivity.
Defined.

(** C4, as the spec words it, fails when the deletion fails: the cookie is
    cleared P, but the caller is told 500 and not success. *)
Lemma signout_reports_failed_deletion :
  signout_handler Test.platform (Test.with_cookie "tok-live") Test.st_down
  = (Throw (H3Error 500 "db down"),
     mkState [Test.alice; Test.bob] [Test.live; Test.stale; Test.edge] 2000 [] 0
       [clear_cookie Test.platform])
  /\ fst (signout_handler Test.platform (Test.with_cookie "tok-live") Test.st_down)
     <> Ok signed_out.
Proof.
  split; [reflexivity | discriminate].
Qed.

(** ** get-session *)

(** C6, as the code has it. Without a session cookie (or with an empty one)
    get-session answers [{session: null, user: null}] and sets no cookie.
    With a token that no row holds, or whose row has expired, and the store
    answering, it answers the same nulls and pushes the clearing cookie;
    the expired row is deleted on the way. *)
Theorem get_session_nulls (P : Platform) (event : Event) (st : State) :
  (truthy (session_token event) = false ->
   get_session_handler P event st = (Ok no_session, st))
  /\ (truthy (session_token event) = true -> faults st = [] ->
      find_session_by_token (str_of (session_token event)) (db_sessions st) = None ->
      get_session_handler P event st = (Ok no_session, cleared P st))
  /\ (forall s, truthy (session_token event) = true -> faults st = [] ->
      find_session_by_token (str_of (session_token event)) (db_sessions st) = Some s ->
      s_expires s < clock st ->
      get_session_handler P event st
      = (Ok no_session,
         cleared P (set_sessions (without_id (s_id s) (db_sessions st)) st)))
  /\ (forall st1, res_cookies (cleared P st1) = (res_cookies st1 ++ [clear_cookie P])%list)
  /\ c_value (clear_cookie P) = "" /\ c_maxAge (clear_cookie P) = 0.
Proof.
  split; [|split; [|split; [|repeat split]]].
  - apply get_session_no_cookie.
  - intros T F N.
    rewrite (get_session_via P event st T).
    rewrite (getSession_absent _ st (next_fault_idle st F) N).
    rewrite (after_call_idle st F); reflexivity.
  - intros s T F E L.
    rewrite (get_session_via P event st T).
    rewrite (getSession_expired _ st s); rewrite ?(after_call_idle st F);
      auto using next_fault_idle.
Qed.

Lemma get_session_nulls_witness :
  get_session_handler Test.platform Test.no_cookie Test.st0 = (Ok no_session, Test.st0)
  /\ get_session_handler Test.platform (Test.with_cookie "tok-forged") Test.st0
     = (Ok no_session, cleared Test.platform Test.st0)
  /\ get_session_handler Test.platform (Test.with_cookie "tok-stale") Test.st0
     = (Ok no_session,
        cleared Test.platform (set_sessions [Test.live; Test.edge] Test.st0)).
Proof.
  split; [|split].
  - destruct (get_session_nulls Test.platform Test.no_cookie Test.st0) as (H & _).
    apply H; reflexivity.
  - destruct (get_session_nulls Test.platform (Test.with_cookie "tok-forged") Test.st0)
      as (_ & H & _).
    apply H; reflexivity.
  - destruct (get_session_nulls Test.platform (Test.with_cookie "tok-stale") Test.st0)
      as (_ & _ & H & _).
    apply (H Test.stale); try reflexivity.
Defined.

(** C6, as the spec words it, fails for a request without a cookie: the
    nulls come back but no cookie is cleared. *)
Lemma get_session_no_cookie_clears_nothing :
  getCookie Test.no_cookie "auth.session_token" = None
  /\ fst (get_session_handler Test.platform Test.no_cookie Test.st0) = Ok no_session
  /\ res_cookies (snd (get_session_handler Test.platform Test.no_cookie Test.st0)) = []
  /\ ~ In (clear_cookie Test.platform)
         (res_cookies (snd (get_session_handler Test.platform Test.no_cookie Test.st0))).
Proof.
  repeat split. intros H; exact H.
Qed.

(** ** The guard and its optional form *)




(** * Further properties of the session store *)

Section StoreLemmas.

Lemma find_filter_keep {A} (f g : A -> bool) (l : list A) (x : A) :
  find f l = Some x -> g x = true -> find f (filter g l) = Some x.
Proof.
  induction l as [|a l IH]; simpl; [discriminate|].
  destruct (f a) eqn:Fa.
  - intros [= ->] Gx; rewrite Gx; simpl; rewrite Fa; reflexivity.
  - intros H Gx; destruct (g a); simpl; [rewrite Fa|]; auto.
Qed.

Lemma find_filter_none {A} (f g : A -> bool) (l : list A) :
  find f l = None -> find f (filter g l) = None.
Proof.
  induction l as [|a l IH]; simpl; [reflexivity|].
  destruct (f a) eqn:Fa; [discriminate|].
  intros H; destruct (g a); simpl; [rewrite Fa|]; auto.
Qed.


Lemma filter_filter_neg {A} (g : A -> bool) (l : list A) :
  filter g (filter (fun x => negb (g x)) l) = [].
Proof.
  induction l as [|a l IH]; simpl; [reflexivity|].
  destruct (g a) eqn:Ga; simpl; [|rewrite Ga]; exact IH.
Qed.

Lemma filter_neg_idem {A} (g : A -> bool) (l : list A) :
  filter (fun x => negb (g x)) (filter (fun x => negb (g x)) l)
  = filter (fun x => negb (g x)) l.
Proof.
  induction l as [|a l IH]; simpl; [reflexivity|].
  destruct (g a) eqn:Ga; simpl; [|rewrite Ga; simpl; f_equal]; exact IH.
Qed.

Lemma filter_partition_length {A} (g : A -> bool) (l : list A) :
  (List.length (filter g l) + List.length (filter (fun x => negb (g x)) l)
   = List.length l)%nat.
Proof.
  induction l as [|a l IH]; simpl; [reflexivity|].
  destruct (g a); simpl; lia.
Qed.

Lemma is_lower_hex_app (s1 s2 : string) :
  is_lower_hex (s1 ++ s2) = is_lower_hex s1 && is_lower_hex s2.
Proof.
  induction s1 as [|c s1 IH]; simpl; [reflexivity|].
  rewrite IH, andb_assoc; reflexivity.
Qed.

Lemma hex_of_byte_lower_hex (b : Byte.byte) : is_lower_hex (hex_of_byte b) = true.
Proof. destruct b; vm_compute; reflexivity. Qed.

Lemma toString_hex_lower_hex (buf : list Byte.byte) :
  is_lower_hex (toString_hex buf) = true.
Proof.
  unfold toString_hex.
  induction buf as [|b buf IH]; [reflexivity|].
  destruct buf as [|b' buf]; [apply hex_of_byte_lower_hex|].
  remember (b' :: buf) as tl eqn:E.
  replace (String.concat "" (map hex_of_byte (b :: tl)))
    with (hex_of_byte b ++ String.concat "" (map hex_of_byte tl))
    by (rewrite E; reflexivity).
  rewrite is_lower_hex_app, hex_of_byte_lower_hex, IH; reflexivity.
Qed.

Lemma deleteMany_where_answers (cond : Session -> bool) (st : State) :
  next_fault st = None ->
  prisma_session_deleteMany_where cond st
  = (Ok (List.length (filter cond (db_sessions st))),
     set_sessions (filter (fun s => negb (cond s)) (db_sessions st)) (after_call st)).
Proof. unfold prisma_session_deleteMany_where, store_call; intros ->; reflexivity. Qed.

End StoreLemmas.

(** X1. [generateSessionToken] never fails and touches no table: it takes
    exactly 32 bytes from the random source and returns them as 64
    lower-case hexadecimal digits. *)
Theorem generateSessionToken_format (P : Platform) (st : State) :
  exists tok,
    generateSessionToken P st = (Ok tok, set_seed (seed st + 32) st)
    /\ tok = toString_hex (map (rand_byte P) (seq (seed st) 32))
    /\ String.length tok = 64%nat
    /\ is_lower_hex tok = true.
Proof.
  eexists; split; [reflexivity|]. split; [reflexivity|]. split.
  - rewrite toString_hex_length, length_map, length_seq; reflexivity.
  - apply toString_hex_lower_hex.
Qed.

(** X2. [deleteSession] removes the rows that hold the token and no other
    row; it succeeds when no row holds the token, leaving the table as it
    was, so deleting twice is deleting once. *)
Theorem deleteSession_idempotent (tok : string) (st : State) :
  faults st = [] ->
  exists st',
    deleteSession tok st = (Ok tt, st')
    /\ db_users st' = db_users st
    /\ (forall s, In s (db_sessions st') <->
                  In s (db_sessions st) /\ s_sessionToken s <> tok)
    /\ find_session_by_token tok (db_sessions st') = None
    /\ (find_session_by_token tok (db_sessions st) = None -> st' = st)
    /\ deleteSession tok st' = (Ok tt, st').
Proof.
  intros F.
  pose proof (next_fault_idle st F) as NF.
  pose proof (after_call_idle st F) as AC.
  rewrite (deleteSession_answers tok st NF), AC.
  set (keep := fun s : Session => negb (String.eqb (s_sessionToken s) tok)).
  eexists; split; [reflexivity|].
  assert (Gone : find_session_by_token tok (filter keep (db_sessions st)) = None).
  { apply find_session_none; intros r Hr E.
    apply filter_In in Hr as [_ Hk]; unfold keep in Hk.
    rewrite E, String.eqb_refl in Hk; discriminate. }
  assert (Same : forall ss, find_session_by_token tok ss = None -> filter keep ss = ss).
  { intros ss N; apply forallb_filter_id, forallb_forall; intros r Hr.
    unfold find_session_by_token in N.
    pose proof (find_none _ _ N r Hr) as E; simpl in E.
    unfold keep; rewrite E; reflexivity. }
  split; [reflexivity|]. split; [|split; [exact Gone|split]].
  - intros s; simpl; rewrite filter_In; unfold keep.
    rewrite negb_true_iff, String.eqb_neq; reflexivity.
  - intros N; destruct st; simpl in *; unfold set_sessions; simpl.
    rewrite (Same _ N); reflexivity.
  - set (st1 := set_sessions (filter keep (db_sessions st)) st).
    assert (F1 : faults st1 = []) by exact F.
    rewrite (deleteSession_answers tok st1 (next_fault_idle st1 F1)).
    rewrite (after_call_idle st1 F1).
    unfold st1 at 1; simpl; fold keep.
    rewrite (Same _ Gone); reflexivity.
Qed.

Lemma deleteSession_idempotent_witness :
  exists st',
    deleteSession "tok-live" Test.st0 = (Ok tt, st')
    /\ db_users st' = db_users Test.st0
    /\ (forall s, In s (db_sessions st') <->
                  In s (db_sessions Test.st0) /\ s_sessionToken s <> "tok-live")
    /\ find_session_by_token "tok-live" (db_sessions st') = None
    /\ (find_session_by_token "tok-live" (db_sessions Test.st0) = None -> st' = Test.st0)
    /\ deleteSession "tok-live" st' = (Ok tt, st').
Proof.
  apply (deleteSession_idempotent "tok-live" Test.st0); reflexivity.
Defined.

(** X3. [deleteUserSessions] removes every session of the user and no
    session of anyone else: afterwards no row is owned by the user, a token
    of another user is found as before, and [getSession] accepts no session
    of the user. The User table is not touched. *)
Theorem deleteUserSessions_revokes_user (userId : string) (st : State) :
  next_fault st = None ->
  exists st',
    deleteUserSessions userId st = (Ok tt, st')
    /\ db_users st' = db_users st
    /\ (forall s, In s (db_sessions st') <->
                  In s (db_sessions st) /\ s_userId s <> userId)
    /\ (forall tok s,
          find_session_by_token tok (db_sessions st) = Some s ->
          s_userId s <> userId ->
          find_session_by_token tok (db_sessions st') = Some s)
    /\ (forall tok sw st'',
          getSession tok st' = (Ok (Some sw), st'') ->
          s_userId (sw_session sw) <> userId).
Proof.
  intros NF.
  unfold deleteUserSessions, bind, ret.
  rewrite (deleteMany_where_answers _ st NF).
  eexists; split; [reflexivity|]. split; [reflexivity|].
  assert (Mem : forall s,
             In s (filter (fun s => negb (String.eqb (s_userId s) userId)) (db_sessions st))
             <-> In s (db_sessions st) /\ s_userId s <> userId).
  { intros s; rewrite filter_In, negb_true_iff, String.eqb_neq; reflexivity. }
  split; [exact Mem|]. split.
  - intros tok s F Hne; simpl.
    apply (find_filter_keep _ _ _ _ F).
    apply negb_true_iff, String.eqb_neq; exact Hne.
  - intros tok sw st'' G.
    apply getSession_some_inv in G as (s & F & -> & _).
    apply find_session_In in F as [Hin _].
    simpl in Hin |- *; apply Mem in Hin as [_ Hne]; exact Hne.
Qed.

Lemma deleteUserSessions_revokes_user_witness :
  exists st',
    deleteUserSessions "u1" Test.st0 = (Ok tt, st')
    /\ db_users st' = db_users Test.st0
    /\ (forall s, In s (db_sessions st') <->
                  In s (db_sessions Test.st0) /\ s_userId s <> "u1")
    /\ (forall tok s,
          find_session_by_token tok (db_sessions Test.st0) = Some s ->
          s_userId s <> "u1" ->
          find_session_by_token tok (db_sessions st') = Some s)
    /\ (forall tok sw st'',
          getSession tok st' = (Ok (Some sw), st'') ->
          s_userId (sw_session sw) <> "u1").
Proof.
  apply (deleteUserSessions_revokes_user "u1" Test.st0); reflexivity.
Defined.

(** X4. [cleanupExpiredSessions] deletes exactly the rows with
    [expires < now] and returns how many they were: the rows it keeps are
    the rows with [now <= expires], in their order, and the count plus the
    rows kept is the size of the table before. A second sweep at the same
    time finds nothing and returns 0. *)
Theorem cleanupExpiredSessions_count (st : State) :
  faults st = [] ->
  exists n st',
    cleanupExpiredSessions st = (Ok n, st')
    /\ n = List.length (filter (expired_at (clock st)) (db_sessions st))
    /\ db_sessions st' = filter (fun s => negb (expired_at (clock st) s)) (db_sessions st)
    /\ (forall s, In s (db_sessions st') <->
                  In s (db_sessions st) /\ clock st <= s_expires s)
    /\ (n + List.length (db_sessions st') = List.length (db_sessions st))%nat
    /\ db_users st' = db_users st
    /\ cleanupExpiredSessions st' = (Ok 0%nat, st').
Proof.
  intros F.
  pose proof (next_fault_idle st F) as NF.
  pose proof (after_call_idle st F) as AC.
  unfold cleanupExpiredSessions, bind, ret, get_state.
  rewrite (deleteMany_where_answers _ st NF), AC.
  do 2 eexists; split; [reflexivity|].
  split; [reflexivity|]. split; [reflexivity|]. split; [|split; [|split]].
  - intros s; simpl; rewrite filter_In; unfold expired_at.
    rewrite negb_true_iff, Z.ltb_ge; reflexivity.
  - simpl; apply filter_partition_length.
  - reflexivity.
  - set (st1 := set_sessions _ st).
    assert (F1 : faults st1 = []) by exact F.
    rewrite (deleteMany_where_answers _ st1 (next_fault_idle st1 F1)).
    rewrite (after_call_idle st1 F1).
    unfold st1; simpl.
    change (fun s : Session => s_expires s <? clock st) with (expired_at (clock st)).
    rewrite filter_filter_neg, filter_neg_idem; reflexivity.
Qed.

Lemma cleanupExpiredSessions_count_witness :
  exists n st',
    cleanupExpiredSessions Test.st0 = (Ok n, st')
    /\ n = List.length (filter (expired_at (clock Test.st0)) (db_sessions Test.st0))
    /\ db_sessions st'
       = filter (fun s => negb (expired_at (clock Test.st0) s)) (db_sessions Test.st0)
    /\ (forall s, In s (db_sessions st') <->
                  In s (db_sessions Test.st0) /\ clock Test.st0 <= s_expires s)
    /\ (n + List.length (db_sessions st') = List.length (db_sessions Test.st0))%nat
    /\ db_users st' = db_users Test.st0
    /\ cleanupExpiredSessions st' = (Ok 0%nat, st').
Proof.
  apply (cleanupExpiredSessions_count Test.st0); reflexivity.
Defined.

(** X5. The sweep is invisible to lookups: with tokens unique, [getSession]
    returns the same value for every token whether or not
    [cleanupExpiredSessions] has run just before. *)
Theorem cleanup_invisible_to_getSession (tok : string) (st : State) :
  faults st = [] ->
  unique_tokens (db_sessions st) ->
  fst (getSession tok (snd (cleanupExpiredSessions st))) = fst (getSession tok st).
Proof.
  intros F U.
  pose proof (next_fault_idle st F) as NF.
  pose proof (after_call_idle st F) as AC.
  unfold cleanupExpiredSessions, bind, ret, get_state.
  rewrite (deleteMany_where_answers _ st NF), AC; simpl snd.
  set (live := fun s : Session => negb (s_expires s <? clock st)).
  set (st1 := set_sessions (filter live (db_sessions st)) st).
  assert (F1 : faults st1 = []) by exact F.
  pose proof (next_fault_idle st1 F1) as NF1.
  destruct (find_session_by_token tok (db_sessions st)) as [s|] eqn:E.
  - destruct (Z.lt_ge_cases (s_expires s) (clock st)) as [L|L].
    + rewrite (getSession_expired tok st s); rewrite ?AC; auto.
      rewrite (getSession_absent tok st1 NF1); [reflexivity|].
      apply find_session_none; intros r Hr Etok.
      apply filter_In in Hr as [Hr Hlive].
      apply find_session_In in E as [Hs Es].
      assert (r = s) as -> by (apply (unique_tokens_inj (db_sessions st)); congruence).
      unfold live in Hlive; apply negb_true_iff, Z.ltb_ge in Hlive; lia.
    + rewrite (getSession_live tok st s NF E L).
      rewrite (getSession_live tok st1 s NF1); auto.
      unfold st1; simpl; unfold find_session_by_token in *.
      apply (find_filter_keep _ _ _ _ E).
      unfold live; apply negb_true_iff, Z.ltb_ge; exact L.
  - rewrite (getSession_absent tok st NF E).
    rewrite (getSession_absent tok st1 NF1); [reflexivity|].
    unfold st1; simpl; unfold find_session_by_token in *.
    apply find_filter_none; exact E.
Qed.

Lemma cleanup_invisible_to_getSession_witness :
  fst (getSession "tok-stale" (snd (cleanupExpiredSessions Test.st0)))
  = fst (getSession "tok-stale" Test.st0).
Proof.
  apply (cleanup_invisible_to_getSession "tok-stale" Test.st0).
  - reflexivity.
  - unfold unique_tokens; simpl.
    repeat constructor; simpl; intros H;
      repeat (destruct H as [H|H]; [discriminate H|]); exact H.
Defined.

(** * Further properties of the gateway *)

Section GatewayLemmas.

Context (P : Platform).

Lemma unique_ids_find (us : list User) (u : User) :
  unique_ids us -> In u us -> find_user_by_id (u_id u) us = Some u.
Proof.
  unfold unique_ids, find_user_by_id.
  induction us as [|a us IH]; simpl; intros U Hin; [contradiction|].
  inversion U as [|x xs Hnotin Hnd]; subst.
  destruct Hin as [->|Hin].
  - rewrite String.eqb_refl; reflexivity.
  - destruct (String.eqb_spec (u_id a) (u_id u)) as [E|_]; [|auto].
    exfalso; apply Hnotin; rewrite E; apply in_map; exact Hin.
Qed.

Lemma signin_user_is_session_user (u : User) :
  obj_without "passwordHash" (select_user signin_select u)
  = select_user session_user_select u.
Proof. destruct u; reflexivity. Qed.

Lemma signin_response_user (u : User) (tok : string) (expires : Z) :
  opt_chain (signin_response P u tok expires) "user"
  = Some (obj_without "passwordHash" (select_user signin_select u)).
Proof. reflexivity. Qed.

Lemma select_user_not_null (keys : list string) (u : User) :
  is_null (select_user keys u) = false.
Proof. reflexivity. Qed.

Lemma minted_token_truthy (st : State) : truthy (Some (minted_token P st)) = true.
Proof.
  simpl; destruct (String.eqb_spec (minted_token P st) "") as [E|_]; [|reflexivity].
  pose proof (minted_token_length P st) as L; rewrite E in L; discriminate.
Qed.


End GatewayLemmas.

(** X6. The cookie set by a successful sign-in passes the guard. With user
    ids unique, a request that carries the token, at any time up to the
    expiry (30 days after the sign-in) and with the store answering, makes
    [requireAuth] succeed with the session just created, and the user it
    returns is the user object of the sign-in response. *)
Theorem signin_cookie_passes_guard
    (P : Platform) (event guard : Event) (st st' st2 : State) (resp : jsval) :
  signin_handler P event st = (Ok resp, st') ->
  unique_ids (db_users st) ->
  session_token guard = Some (minted_token P st) ->
  db_users st2 = db_users st' -> db_sessions st2 = db_sessions st' ->
  faults st2 = [] ->
  clock st2 <= clock st + 30 * 24 * 60 * 60 * 1000 ->
  exists sw,
    requireAuth P guard st2 = (Ok (auth_context sw), st2)
    /\ s_sessionToken (sw_session sw) = minted_token P st
    /\ s_expires (sw_session sw) = clock st + 30 * 24 * 60 * 60 * 1000
    /\ opt_chain resp "user" = Some (sw_user sw)
    /\ opt_chain (auth_context sw) "user" = Some (sw_user sw).
Proof.
  intros H U T Hu2 Hs2 F2 L.
  apply signin_ok_inv in H
    as (u & row & Fu & Fresh & Hu & Hs & Htok & Huid & Hexp & _ & _ & ->).
  assert (Tt : truthy (session_token guard) = true)
    by (rewrite T; apply minted_token_truthy).
  assert (Frow : find_session_by_token (minted_token P st) (db_sessions st2) = Some row).
  { rewrite Hs2, Hs; unfold find_session_by_token in *.
    rewrite find_app, Fresh; simpl.
    rewrite Htok, String.eqb_refl; reflexivity. }
  assert (Hin : In u (db_users st)).
  { unfold find_user_by_email in Fu; apply find_some in Fu as [Hin _]; exact Hin. }
  assert (Huser : sw_user (joined st2 row) = select_user session_user_select u).
  { unfold joined, include_user; simpl.
    rewrite Hu2, Hu, Huid, (unique_ids_find _ _ U Hin); reflexivity. }
  exists (joined st2 row).
  rewrite (requireAuth_via P guard st2 Tt), T; simpl str_of.
  rewrite (getSession_live _ st2 row (next_fault_idle st2 F2) Frow) by lia.
  rewrite (after_call_idle st2 F2).
  replace (is_null (sw_user (joined st2 row))) with false
    by (rewrite Huser; reflexivity).
  split; [reflexivity|]. split; [exact Htok|]. split; [exact Hexp|].
  split; [|reflexivity].
  rewrite signin_response_user, signin_user_is_session_user, Huser; reflexivity.
Qed.

Lemma signin_cookie_passes_guard_witness :
  exists sw,
    requireAuth Test.platform (Test.with_cookie Test.carol_token) Test.st2
    = (Ok (auth_context sw), Test.st2)
    /\ s_sessionToken (sw_session sw) = minted_token Test.platform Test.st1
    /\ s_expires (sw_session sw) = clock Test.st1 + 30 * 24 * 60 * 60 * 1000
    /\ opt_chain Test.carol_signin "user" = Some (sw_user sw)
    /\ opt_chain (auth_context sw) "user" = Some (sw_user sw).
Proof.
  apply (signin_cookie_passes_guard Test.platform Test.carol
           (Test.with_cookie Test.carol_token) Test.st1 Test.st2 Test.st2).
  - reflexivity.
  - unfold unique_ids; simpl.
    repeat constructor; simpl; intros H;
      repeat (destruct H as [H|H]; [discriminate H|]); exact H.
  - reflexivity.
  - reflexivity.
  - reflexivity.
  - reflexivity.
  - simpl; lia.
Defined.

(** X7. A sign-out that went through revokes the token: whatever happens
    to the rest of the store afterwards, as long as no session is added, a
    request that still carries the cookie is refused by the guard with 401
    and has its cookie cleared. *)
Theorem signout_revokes_token (P : Platform) (event : Event) (st st2 : State) :
  truthy (session_token event) = true ->
  next_fault st = None ->
  (forall s, In s (db_sessions st2) ->
             In s (db_sessions (snd (signout_handler P event st)))) ->
  faults st2 = [] ->
  fst (signout_handler P event st) = Ok signed_out
  /\ requireAuth P event st2
     = (Throw (H3Error 401 "Unauthorized - Invalid or expired session"), cleared P st2).
Proof.
  intros T NF Sub F2.
  rewrite (signout_via P event st T), (deleteSession_answers _ st NF) in *.
  split; [reflexivity|].
  rewrite (requireAuth_via P event st2 T).
  rewrite (getSession_absent _ st2 (next_fault_idle st2 F2)).
  - rewrite (after_call_idle st2 F2); reflexivity.
  - apply find_session_none; intros r Hr E.
    apply Sub in Hr; simpl in Hr.
    apply filter_In in Hr as [_ Hk].
    rewrite E, String.eqb_refl in Hk; discriminate.
Qed.

Lemma signout_revokes_token_witness :
  fst (signout_handler Test.platform (Test.with_cookie Test.carol_token) Test.st2)
  = Ok signed_out
  /\ requireAuth Test.platform (Test.with_cookie Test.carol_token) Test.st3
     = (Throw (H3Error 401 "Unauthorized - Invalid or expired session"),
        cleared Test.platform Test.st3).
Proof.
  apply (signout_revokes_token Test.platform (Test.with_cookie Test.carol_token)
           Test.st2 Test.st3).
  - reflexivity.
  - reflexivity.
  - intros s H; exact H.
  - reflexivity.
Defined.

(** X8. What sign-in does with a body it cannot use, before the store is
    asked anything. A request with no body, or with the body [null], is
    answered 500 with the message of the TypeError that destructuring raises
    ("Failed to sign in" when that message is empty). Any other body whose
    e-mail or password is falsy (absent, [null], [false], [0] or the empty
    string) is answered 400 "Email and password are required". In both
    cases the whole state, failure script included, is as it was. *)
Theorem missing_credentials_rejected_early
    (R : Runtime) (P : Platform) (body : option json) (st : State) :
  (body = None \/ body = Some JsNull ->
   signin_request R P body st
   = (Throw (H3Error 500 (or_else (cannot_destructure R "email" body)
                            "Failed to sign in")), st))
  /\ (forall b, body = Some b -> b <> JsNull ->
      json_truthy (member "email" b) && json_truthy (member "password" b) = false ->
      signin_request R P body st
      = (Throw (H3Error 400 "Email and password are required"), st)).
Proof.
  split.
  - intros [-> | ->]; reflexivity.
  - intros b -> Hb C.
    assert (D : destructure R "email" (Some b) st = (Ok b, st))
      by (destruct b; [congruence | reflexivity ..]).
    unfold signin_request; unfold_monad.
    rewrite D; cbv beta zeta.
    replace (negb (json_truthy (member "email" b))
             || negb (json_truthy (member "password" b)))
      with true
      by (destruct (json_truthy (member "email" b)),
                   (json_truthy (member "password" b)); simpl in *; congruence).
    reflexivity.
Qed.

(** No body at all, and alice's e-mail with an empty password, while the
    store is down. *)
Lemma missing_credentials_rejected_early_witness :
  signin_request Test.runtime Test.platform None Test.st_down
  = (Throw (H3Error 500 "Cannot destructure property 'email' of 'body' as it is undefined."),
     Test.st_down)
  /\ signin_request Test.runtime Test.platform
       (Test.sign_in (JsString "alice@test.com") (JsString "")) Test.st_down
     = (Throw (H3Error 400 "Email and password are required"), Test.st_down).
Proof.
  split.
  - destruct (missing_credentials_rejected_early Test.runtime Test.platform
                None Test.st_down) as [H _].
    apply H; left; reflexivity.
  - destruct (missing_credentials_rejected_early Test.runtime Test.platform
                (Test.sign_in (JsString "alice@test.com") (JsString "")) Test.st_down)
      as [_ H].
    apply (H (JsObject [ ("email", JsString "alice@test.com");
                         ("password", JsString "") ])).
    + reflexivity.
    + discriminate.
    + reflexivity.
Defined.

(** X9. A failure of the store reaches the caller as status 500 with the
    store's own message, and the handler's fallback text only when that
    message is empty: for the user lookup of sign-in and of sign-up, and
    for the session lookup of get-session. Nothing is written and no cookie
    is set. *)
Theorem store_failure_is_500_with_message
    (P : Platform) (event : Event) (st : State) (msg : string) :
  next_fault st = Some msg ->
  (credentials_supplied event = true ->
   signin_handler P event st
   = (Throw (H3Error 500 (or_else msg "Failed to sign in")), after_call st))
  /\ (valid_signup event = true ->
      signup_handler P event st
      = (Throw (H3Error 500 (or_else msg "Failed to create user")), after_call st))
  /\ (truthy (session_token event) = true ->
      get_session_handler P event st
      = (Throw (H3Error 500 (or_else msg "Failed to get session")), after_call st)).
Proof.
  intros NF; split; [|split].
  - unfold credentials_supplied, signin_handler, prisma_user_findUnique; unfold_monad.
    intros C; apply andb_prop in C as [C1 C2]; rewrite C1, C2; simpl.
    rewrite NF; reflexivity.
  - unfold valid_signup, signup_handler, prisma_user_findUnique; unfold_monad.
    intros V.
    apply andb_prop in V as [V V4]; apply andb_prop in V as [V V3];
      apply andb_prop in V as [V1 V2].
    rewrite V1, V2, V3; simpl.
    apply negb_true_iff in V4; rewrite V4, NF; reflexivity.
  - intros T.
    rewrite (get_session_via P event st T), (getSession_store_down _ st msg NF).
    reflexivity.
Qed.

Lemma store_failure_is_500_with_message_witness :
  signin_handler Test.platform (Test.post "alice@test.com" "password123") Test.st_down
  = (Throw (H3Error 500 "db down"), Test.st0)
  /\ signup_handler Test.platform (Test.post "carol@test.com" "password123") Test.st_down
     = (Throw (H3Error 500 "db down"), Test.st0)
  /\ get_session_handler Test.platform (Test.with_cookie "tok-live") Test.st_down
     = (Throw (H3Error 500 "db down"), Test.st0).
Proof.
  split; [|split].
  - destruct (store_failure_is_500_with_message Test.platform
                (Test.post "alice@test.com" "password123") Test.st_down "db down"
                eq_refl) as (H & _).
    apply H; reflexivity.
  - destruct (store_failure_is_500_with_message Test.platform
                (Test.post "carol@test.com" "password123") Test.st_down "db down"
                eq_refl) as (_ & H & _).
    apply H; reflexivity.
  - destruct (store_failure_is_500_with_message Test.platform
                (Test.with_cookie "tok-live") Test.st_down "db down"
                eq_refl) as (_ & _ & H).
    apply H; reflexivity.
Defined.

(** X10. What the guard does to the state. A [requireAuth] that succeeds
    writes nothing and sets no cookie. One that raises for want of a cookie
    leaves the state as it was. One that raises on a cookie it was sent,
    with the store answering, clears that cookie, deletes at most the
    expired row of that token, and leaves the User table alone. *)
Theorem requireAuth_effects (P : Platform) (event : Event) (st : State) :
  (forall v st', requireAuth P event st = (Ok v, st') ->
     st' = after_call st
     /\ has_key "passwordHash" v = false)
  /\ (truthy (session_token event) = false ->
      requireAuth P event st
      = (Throw (H3Error 401 "Unauthorized - No session token"), st))
  /\ (truthy (session_token event) = true -> faults st = [] ->
      forall e st', requireAuth P event st = (Throw e, st') ->
        e = H3Error 401 "Unauthorized - Invalid or expired session"
        /\ res_cookies st' = (res_cookies st ++ [clear_cookie P])%list
        /\ db_users st' = db_users st
        /\ (db_sessions st' = db_sessions st
            \/ exists s,
                 find_session_by_token (str_of (session_token event)) (db_sessions st)
                 = Some s
                 /\ s_expires s < clock st
                 /\ db_sessions st' = without_id (s_id s) (db_sessions st))).
Proof.
  split; [|split].
  - intros v st' H.
    apply requireAuth_ok_inv in H as (sw & G & _ & ->).
    apply getSession_some_inv in G as (s & _ & -> & _ & ->).
    split; [reflexivity|].
    unfold auth_context, joined; simpl sw_user; simpl sw_session.
    rewrite !has_key_cons, include_user_safe; reflexivity.
  - apply requireAuth_no_cookie.
  - intros T F e st' H.
    pose proof (next_fault_idle st F) as NF.
    pose proof (after_call_idle st F) as AC.
    rewrite (requireAuth_via P event st T) in H.
    destruct (find_session_by_token (str_of (session_token event)) (db_sessions st))
      as [s|] eqn:E.
    + destruct (Z.lt_ge_cases (s_expires s) (clock st)) as [L|L].
      * rewrite (getSession_expired _ st s) in H; rewrite ?AC in *; auto.
        inversion H; subst; clear H.
        repeat split; auto.
        right; exists s; repeat split; auto.
      * rewrite (getSession_live _ st s NF E L), AC in H.
        destruct (is_null (sw_user (joined st s))); inversion H; subst.
        repeat split; auto.
    + rewrite (getSession_absent _ st NF E), AC in H.
      inversion H; subst; repeat split; auto.
Qed.

Lemma requireAuth_effects_witness :
  (snd (requireAuth Test.platform (Test.with_cookie "tok-live") Test.st0) = Test.st0
   /\ has_key "passwordHash" (auth_context (joined Test.st0 Test.live)) = false)
  /\ requireAuth Test.platform Test.no_cookie Test.st0
     = (Throw (H3Error 401 "Unauthorized - No session token"), Test.st0)
  /\ res_cookies (snd (requireAuth Test.platform (Test.with_cookie "tok-stale") Test.st0))
     = [clear_cookie Test.platform].
Proof.
  split; [|split].
  - destruct (requireAuth_effects Test.platform (Test.with_cookie "tok-live") Test.st0)
      as (H & _).
    apply (H (auth_context (joined Test.st0 Test.live)) Test.st0); reflexivity.
  - destruct (requireAuth_effects Test.platform Test.no_cookie Test.st0) as (_ & H & _).
    apply H; reflexivity.
  - destruct (requireAuth_effects Test.platform (Test.with_cookie "tok-stale") Test.st0)
      as (_ & _ & H).
    apply (H eq_refl eq_refl
             (H3Error 401 "Unauthorized - Invalid or expired session")
             (snd (requireAuth Test.platform (Test.with_cookie "tok-stale") Test.st0)));
      reflexivity.
Defined.

(** * Further properties of sign-up and sign-in *)

Section SignUpRow.

Context (P : Platform).

Lemma signup_ok_row (event : Event) (st st' : State) (resp : jsval) :
  signup_handler P event st = (Ok resp, st') ->
  exists h,
    bcrypt_hash P (str_of (body_password event)) 10 (seed st) = Ok h
    /\ valid_signup event = true
    /\ next_fault st = None
    /\ find_user_by_email (str_of (body_email event)) (db_users st) = None
    /\ st' = set_seed (S (S (seed st)))
               (set_users
                  (db_users st
                   ++ [mkUser (cuid P (S (seed st))) (str_of (body_email event)) false
                         (if truthy (body_name event) then body_name event else None)
                         None (Some h) None false (clock st)])
                  (after_call (after_call st)))
    /\ resp = JObj [ ("success", JBool true);
                     ("user",
                      select_user signup_select
                        (mkUser (cuid P (S (seed st))) (str_of (body_email event)) false
                           (if truthy (body_name event) then body_name event else None)
                           None (Some h) None false (clock st))) ].
Proof.
  unfold valid_signup, signup_handler, prisma_user_findUnique,
    prisma_user_create, hashPassword.
  unfold_monad.
  intros H.
  repeat (step; simpl in *); try discriminate.
  all: apply orb_false_elim in Heqb as [T1 T2].
  all: apply negb_false_iff in T1, T2, Heqb0; rewrite T1, T2, Heqb0.
  all: eexists; repeat split.
Qed.

Lemma unique_emails_snoc (us : list User) (u : User) :
  unique_emails us -> find_user_by_email (u_email u) us = None ->
  unique_emails (us ++ [u]).
Proof.
  unfold unique_emails; intros U N.
  rewrite map_app; simpl.
  apply NoDup_app; [exact U | repeat constructor; intros [] |].
  intros e Hin [<-|[]].
  apply in_map_iff in Hin as (r & Hr & Hin).
  unfold find_user_by_email in N.
  pose proof (find_none _ _ N r Hin) as Hne; simpl in Hne.
  rewrite Hr, String.eqb_refl in Hne; discriminate.
Qed.

End SignUpRow.

(** X11. A successful sign-up writes one User row and nothing else. The row
    has the e-mail as sent, the bcrypt digest of the password at cost 10
    (never the password itself), [emailVerified] and [onboardingCompleted]
    false, no tenant and no image; the e-mail was not registered before, so
    e-mails stay unique. No session is created and no cookie is set: the
    caller is not signed in. *)
Theorem signup_creates_one_user
    (P : Platform) (event : Event) (st st' : State) (resp : jsval) :
  signup_handler P event st = (Ok resp, st') ->
  exists (u : User) (h : string),
    db_users st' = (db_users st ++ [u])%list
    /\ db_sessions st' = db_sessions st
    /\ res_cookies st' = res_cookies st
    /\ bcrypt_hash P (str_of (body_password event)) 10 (seed st) = Ok h
    /\ u_email u = str_of (body_email event)
    /\ u_passwordHash u = Some h
    /\ u_emailVerified u = false /\ u_onboardingCompleted u = false
    /\ u_tenantId u = None /\ u_image u = None
    /\ u_name u = (if truthy (body_name event) then body_name event else None)
    /\ u_createdAt u = clock st
    /\ find_user_by_email (u_email u) (db_users st) = None
    /\ (unique_emails (db_users st) -> unique_emails (db_users st'))
    /\ resp = JObj [ ("success", JBool true); ("user", select_user signup_select u) ].
Proof.
  intros H.
  apply signup_ok_row in H as (h & Hh & _ & _ & N & -> & ->).
  eexists; exists h; simpl.
  repeat split; auto.
  intros U; apply unique_emails_snoc; auto.
Qed.

Lemma signup_creates_one_user_witness :
  exists (u : User) (h : string),
    db_users Test.st1 = (db_users Test.st0 ++ [u])%list
    /\ db_sessions Test.st1 = db_sessions Test.st0
    /\ res_cookies Test.st1 = res_cookies Test.st0
    /\ bcrypt_hash Test.platform (str_of (body_password Test.carol)) 10 (seed Test.st0)
       = Ok h
    /\ u_email u = str_of (body_email Test.carol)
    /\ u_passwordHash u = Some h
    /\ u_emailVerified u = false /\ u_onboardingCompleted u = false
    /\ u_tenantId u = None /\ u_image u = None
    /\ u_name u = (if truthy (body_name Test.carol) then body_name Test.carol else None)
    /\ u_createdAt u = clock Test.st0
    /\ find_user_by_email (u_email u) (db_users Test.st0) = None
    /\ (unique_emails (db_users Test.st0) -> unique_emails (db_users Test.st1))
    /\ Test.carol_signup
       = JObj [ ("success", JBool true); ("user", select_user signup_select u) ].
Proof.
  apply (signup_creates_one_user Test.platform Test.carol Test.st0 Test.st1
           Test.carol_signup).
  reflexivity.
Defined.

Section SignInRuns.

Context (P : Platform).

Lemma createSession_answers (userId : string) (st : State) :
  next_fault st = None ->
  find_session_by_token (minted_token P st) (db_sessions st) = None ->
  createSession P userId st
  = (Ok (minted_token P st, clock st + SESSION_MAX_AGE * 1000),
     set_seed (S (seed st + 32))
       (set_sessions (db_sessions st ++ [created_session P userId st]) (after_call st))).
Proof.
  intros NF Fresh.
  unfold createSession, generateSessionToken, randomBytes, prisma_session_create,
    bind, ret, get_state, store_call.
  change (next_fault (set_seed (seed st + 32) st)) with (next_fault st).
  rewrite NF.
  change (db_sessions (after_call (set_seed (seed st + 32) st))) with (db_sessions st).
  change (toString_hex (map (rand_byte P) (seq (seed st) 32))) with (minted_token P st).
  rewrite Fresh; reflexivity.
Qed.

Lemma signin_succeeds (event : Event) (st : State) (u : User) (h : string) :
  credentials_supplied event = true ->
  next_fault st = None ->
  find_user_by_email (str_of (body_email event)) (db_users st) = Some u ->
  u_passwordHash u = Some h -> h <> "" ->
  bcrypt_compare P (str_of (body_password event)) h = Ok true ->
  next_fault (after_call st) = None ->
  find_session_by_token (minted_token P st) (db_sessions st) = None ->
  signin_handler P event st
  = (Ok (signin_response P u (minted_token P st) (clock st + SESSION_MAX_AGE * 1000)),
     set_res_cookies
       (res_cookies st ++ [session_cookie P (minted_token P st) (30 * 24 * 60 * 60)])
       (set_seed (S (seed st + 32))
          (set_sessions (db_sessions st ++ [created_session P (u_id u) (after_call st)])
             (after_call (after_call st))))).
Proof.
  intros C NF Fu Hh Hne B NF2 Fresh.
  unfold credentials_supplied in C; apply andb_prop in C as [C1 C2].
  unfold signin_handler, prisma_user_findUnique, verifyPassword, try_catch, bind,
    throw, store_call.
  rewrite C1, C2; cbv beta iota; cbn [negb orb].
  rewrite NF.
  change (db_users (after_call st)) with (db_users st).
  rewrite Fu, Hh; cbn [truthy negb].
  destruct (String.eqb_spec h "") as [->|_]; [contradiction|cbn [negb str_of]].
  rewrite B; cbn [negb].
  rewrite (createSession_answers (u_id u) (after_call st) NF2 Fresh).
  reflexivity.
Qed.

End SignInRuns.

(** X12. Sign-up, then sign-in with the same body. When bcrypt accepts the
    (non-empty) digest it has just produced, the store answers and the token
    minted is not held by a session already, the sign-in succeeds and its
    session belongs to the user the sign-up created. When bcrypt rejects
    the digest, the sign-in is the generic 401. *)
Theorem signup_then_signin
    (P : Platform) (event : Event) (st st' : State) (resp : jsval) (u : User) (h : string) :
  signup_handler P event st = (Ok resp, st') ->
  db_users st' = (db_users st ++ [u])%list ->
  u_passwordHash u = Some h ->
  next_fault st' = None ->
  (bcrypt_compare P (str_of (body_password event)) h = Ok false ->
   fst (signin_handler P event st') = Throw (H3Error 401 "Invalid email or password"))
  /\ (bcrypt_compare P (str_of (body_password event)) h = Ok true ->
      h <> "" ->
      next_fault (after_call st') = None ->
      find_session_by_token (minted_token P st') (db_sessions st') = None ->
      exists row st2,
        signin_handler P event st'
        = (Ok (signin_response P u (minted_token P st') (s_expires row)), st2)
        /\ db_sessions st2 = (db_sessions st' ++ [row])%list
        /\ s_userId row = u_id u).
Proof.
  intros H Hu Hh NF.
  pose proof (signup_ok_row P event st st' resp H) as (h0 & Hh0 & V & _ & N & E & _).
  assert (Eu : u = mkUser (cuid P (S (seed st))) (str_of (body_email event)) false
                     (if truthy (body_name event) then body_name event else None)
                     None (Some h0) None false (clock st)).
  { rewrite E in Hu; simpl in Hu. apply app_inv_head in Hu.
    inversion Hu; reflexivity. }
  assert (Fu : find_user_by_email (str_of (body_email event)) (db_users st') = Some u).
  { rewrite Hu; unfold find_user_by_email in *; rewrite find_app, N; simpl.
    rewrite Eu; simpl; rewrite String.eqb_refl; reflexivity. }
  unfold valid_signup in V.
  apply andb_prop in V as [V _]; apply andb_prop in V as [V _].
  split.
  - intros B.
    rewrite (signin_denied_outcome P event st' V NF); [reflexivity|].
    destruct (String.eqb_spec h "") as [Eh|Hne].
    + apply (no_password_hash P event st' u Fu).
      rewrite Hh, Eh; reflexivity.
    + apply (wrong_password P event st' u h Fu Hh Hne B).
  - intros B Hne NF2 Fresh.
    assert (C : credentials_supplied event = true)
      by (unfold credentials_supplied; rewrite V; reflexivity).
    rewrite (signin_succeeds P event st' u h C NF Fu Hh Hne B NF2 Fresh).
    exists (created_session P (u_id u) (after_call st')); eexists.
    split; [reflexivity|]. split; reflexivity.
Qed.

Lemma signup_then_signin_witness :
  exists row st2,
    signin_handler Test.platform Test.carol Test.st1
    = (Ok (signin_response Test.platform Test.carol_row
             (minted_token Test.platform Test.st1) (s_expires row)), st2)
    /\ db_sessions st2 = (db_sessions Test.st1 ++ [row])%list
    /\ s_userId row = u_id Test.carol_row.
Proof.
  destruct (signup_then_signin Test.platform Test.carol Test.st0 Test.st1
              Test.carol_signup Test.carol_row "$2a$10$0$password123"
              eq_refl eq_refl eq_refl eq_refl) as [_ H].
  apply H.
  - reflexivity.
  - discriminate.
  - reflexivity.
  - reflexivity.
Defined.

(** * Invariants *)

Section Frames.

Context (P : Platform).


Lemma getSession_frame (tok : string) (st : State) :
  db_users (snd (getSession tok st)) = db_users st
  /\ res_cookies (snd (getSession tok st)) = res_cookies st
  /\ sessions_step (db_sessions st) (db_sessions (snd (getSession tok st))).
Proof.
  unfold getSession, prisma_session_findUnique, prisma_session_delete.
  unfold_monad.
  repeat (step; simpl in *); repeat split; constructor.
Qed.

Lemma requireAuth_frame (event : Event) (st : State) :
  db_users (snd (requireAuth P event st)) = db_users st
  /\ sessions_step (db_sessions st) (db_sessions (snd (requireAuth P event st))).
Proof.
  destruct (getSession_frame (str_of (session_token event)) st) as (Hu & _ & Hs).
  destruct (truthy (session_token event)) eqn:T.
  - rewrite (requireAuth_via P event st T).
    destruct (getSession _ st) as [[[sw|]|e] st1]; simpl in *;
      [destruct (is_null (sw_user sw))| |]; simpl; auto.
  - rewrite (requireAuth_no_cookie P event st T); simpl; split; [reflexivity|constructor].
Qed.





End Frames.



(** * Onboarding *)

Section OnboardingLemmas.

Context (P : Platform).

Lemma find_user_by_id_id (id : string) (us : list User) (u : User) :
  find_user_by_id id us = Some u -> u_id u = id /\ In u us.
Proof.
  unfold find_user_by_id; intros H; apply find_some in H as [Hin E].
  split; [now apply String.eqb_eq | exact Hin].
Qed.

Lemma find_update_user_same (id : string) (f : User -> User) (us : list User) (u : User) :
  (forall r, u_id (f r) = u_id r) ->
  find_user_by_id id us = Some u ->
  find_user_by_id id (update_user id f us) = Some (f u).
Proof.
  unfold find_user_by_id, update_user; intros Hf.
  induction us as [|a us IH]; simpl; [discriminate|].
  destruct (String.eqb_spec (u_id a) id) as [E|N].
  - intros [= ->]; rewrite Hf, E, String.eqb_refl; reflexivity.
  - intros H; apply String.eqb_neq in N; rewrite N; auto.
Qed.

Lemma find_update_user_other (id id' : string) (f : User -> User) (us : list User) :
  (forall r, u_id (f r) = u_id r) ->
  id' <> id ->
  find_user_by_id id' (update_user id f us) = find_user_by_id id' us.
Proof.
  unfold find_user_by_id, update_user; intros Hf Hne.
  induction us as [|a us IH]; simpl; [reflexivity|].
  destruct (String.eqb_spec (u_id a) id) as [E|N].
  - rewrite Hf, E.
    destruct (String.eqb_spec id id') as [E'|_]; [congruence | exact IH].
  - destruct (String.eqb (u_id a) id'); [reflexivity | exact IH].
Qed.

Lemma update_user_emails (id : string) (f : User -> User) (us : list User) :
  (forall r, u_email (f r) = u_email r) ->
  map u_email (update_user id f us) = map u_email us.
Proof.
  intros Hf; unfold update_user; rewrite map_map.
  apply map_ext; intros a; destruct (String.eqb (u_id a) id); auto.
Qed.

Lemma update_user_idempotent (id : string) (f : User -> User) (us : list User) :
  (forall r, u_id (f r) = u_id r) -> (forall r, f (f r) = f r) ->
  update_user id f (update_user id f us) = update_user id f us.
Proof.
  intros Hid Hf; unfold update_user; rewrite map_map.
  apply map_ext; intros a.
  destruct (String.eqb (u_id a) id) eqn:E; [rewrite Hid, E; apply Hf | rewrite E; reflexivity].
Qed.

Lemma auth_user_id_of (s : Session) (u : User) :
  auth_user_id (auth_context (mkSessionWithUser s (select_user session_user_select u)))
  = Some (u_id u).
Proof. destruct u; reflexivity. Qed.

(** What a successful guard has seen: a live session and its owner. *)
Lemma requireAuth_ok_row (event : Event) (st st' : State) (v : jsval) :
  requireAuth P event st = (Ok v, st') ->
  exists s u,
    find_session_by_token (str_of (session_token event)) (db_sessions st) = Some s
    /\ clock st <= s_expires s
    /\ find_user_by_id (s_userId s) (db_users st) = Some u
    /\ v = auth_context (mkSessionWithUser s (select_user session_user_select u))
    /\ next_fault st = None
    /\ st' = after_call st.
Proof.
  intros H.
  assert (NF : next_fault st = None).
  { destruct (next_fault st) as [msg|] eqn:F; [|reflexivity].
    destruct (truthy (session_token event)) eqn:T.
    - rewrite (requireAuth_via P event st T), (getSession_store_down _ st msg F) in H.
      discriminate.
    - rewrite (requireAuth_no_cookie P event st T) in H; discriminate. }
  apply requireAuth_ok_inv in H as (sw & G & Hnull & ->).
  apply getSession_some_inv in G as (s & F & -> & L & ->).
  unfold joined, include_user in *; simpl in Hnull.
  destruct (find_user_by_id (s_userId s) (db_users st)) as [u|] eqn:Fu;
    [|discriminate].
  exists s, u; repeat split; auto.
Qed.

Lemma complete_ok_inv (event : Event) (st st' : State) (resp : jsval) :
  complete_handler P event st = (Ok resp, st') ->
  exists s u,
    find_session_by_token (str_of (session_token event)) (db_sessions st) = Some s
    /\ clock st <= s_expires s
    /\ find_user_by_id (s_userId s) (db_users st) = Some u
    /\ next_fault st = None
    /\ st' = set_users (update_user (u_id u) (set_onboardingCompleted true) (db_users st))
               (after_call (after_call st))
    /\ resp = JObj [ ("success", JBool true) ].
Proof.
  unfold complete_handler, bind, ret.
  destruct (requireAuth P event st) as [[v|e] st1] eqn:R; [|discriminate].
  apply requireAuth_ok_row in R as (s & u & Fs & L & Fu & -> & NF & ->).
  rewrite auth_user_id_of.
  unfold prisma_user_update, store_call.
  destruct (next_fault (after_call st)); [discriminate|].
  pose proof (find_user_by_id_id _ _ _ Fu) as [Eid _].
  change (db_users (after_call (after_call st))) with (db_users st).
  rewrite Eid, Fu.
  intros H; inversion H; subst.
  exists s, u; rewrite Eid; repeat split; auto.
Qed.

Lemma complete_throw_inv (event : Event) (st st' : State) (e : exn) :
  complete_handler P event st = (Throw e, st') ->
  db_users st' = db_users st
  /\ (requireAuth P event st = (Throw e, st')
      \/ exists msg, next_fault (after_call st) = Some msg /\ e = JsError msg).
Proof.
  unfold complete_handler, bind, ret.
  destruct (requireAuth P event st) as [[v|e1] st1] eqn:R.
  - apply requireAuth_ok_row in R as (s & u & Fs & L & Fu & -> & NF & ->).
    rewrite auth_user_id_of.
    unfold prisma_user_update, store_call.
    pose proof (find_user_by_id_id _ _ _ Fu) as [Eid _].
    destruct (next_fault (after_call st)) as [msg|] eqn:F2.
    + intros H; inversion H; subst; split; [reflexivity|]. right; eauto.
    + change (db_users (after_call (after_call st))) with (db_users st).
      rewrite Eid, Fu; discriminate.
  - intros H; inversion H; subst.
    pose proof (requireAuth_frame P event st) as [Hu _].
    rewrite R in Hu; split; [exact Hu | left; reflexivity].
Qed.

Lemma requireAuth_throws_401 (event : Event) (st st' : State) (e : exn) :
  faults st = [] ->
  requireAuth P event st = (Throw e, st') ->
  exists m, e = H3Error 401 m.
Proof.
  intros F H.
  destruct (truthy (session_token event)) eqn:T.
  - rewrite (requireAuth_via P event st T) in H.
    destruct (getSession_returns (str_of (session_token event)) st F)
      as (r & st1 & G & _).
    rewrite G in H.
    destruct r as [sw|]; [destruct (is_null (sw_user sw))|];
      inversion H; eauto.
  - rewrite (requireAuth_no_cookie P event st T) in H.
    inversion H; eauto.
Qed.

End OnboardingLemmas.

Lemma needsOnboarding_row (u : User) :
  needsOnboarding (select_user session_user_select u)
  = negb (u_onboardingCompleted u) || negb (truthy (u_tenantId u))
  /\ needsOnboarding (obj_without "passwordHash" (select_user signin_select u))
     = negb (u_onboardingCompleted u) || negb (truthy (u_tenantId u)).
Proof.
  destruct u as [i e v n im h [t|] o c]; split; destruct o; reflexivity.
Qed.

(** X14. [needsOnboarding] on the user objects the gateway hands out. For
    the user of a session, and for the user of a sign-in response, it is
    true exactly when the row has [onboardingCompleted] false or has no
    tenant (null or empty string). For [null] it is true. For the user of a
    sign-up response it is always true: that object carries no [tenantId]. *)
Theorem needsOnboarding_of_user (u : User) :
  needsOnboarding (select_user session_user_select u)
  = negb (u_onboardingCompleted u) || negb (truthy (u_tenantId u))
  /\ needsOnboarding (obj_without "passwordHash" (select_user signin_select u))
     = negb (u_onboardingCompleted u) || negb (truthy (u_tenantId u))
  /\ needsOnboarding (select_user signup_select u) = true
  /\ needsOnboarding JNull = true
  /\ checkOnboardingStatus (select_user session_user_select u)
     = needsOnboarding (select_user session_user_select u).
Proof.
  destruct u as [i e v n im h [t|] o c]; repeat split;
    destruct o; reflexivity.
Qed.

(** X15. The handler of complete.ts, on success, sets
    [onboardingCompleted] on the row of the user who owns the session of
    the request and changes nothing else: every other user is found as
    before, and sessions and cookies are untouched. When it fails no user
    is changed, and with the store answering the failure is the guard's
    401. Completing twice leaves the table as completing once. *)
Theorem complete_marks_the_caller (P : Platform) (event : Event) (st : State) :
  (forall resp st', complete_handler P event st = (Ok resp, st') ->
     resp = JObj [ ("success", JBool true) ]
     /\ db_sessions st' = db_sessions st /\ res_cookies st' = res_cookies st
     /\ map u_email (db_users st') = map u_email (db_users st)
     /\ exists s u,
          find_session_by_token (str_of (session_token event)) (db_sessions st) = Some s
          /\ find_user_by_id (s_userId s) (db_users st) = Some u
          /\ find_user_by_id (u_id u) (db_users st')
             = Some (set_onboardingCompleted true u)
          /\ (forall id, id <> u_id u ->
                find_user_by_id id (db_users st') = find_user_by_id id (db_users st))
          /\ (faults st = [] ->
              complete_handler P event st' = (Ok resp, st')))
  /\ (forall e st', complete_handler P event st = (Throw e, st') ->
        db_users st' = db_users st
        /\ (faults st = [] -> exists m, e = H3Error 401 m)).
Proof.
  split.
  - intros resp st' H.
    pose proof (complete_ok_inv P event st st' resp H)
      as (s & u & Fs & L & Fu & NF & E & ->).
    pose proof (find_user_by_id_id _ _ _ Fu) as [Eid _].
    assert (Fu' : find_user_by_id (u_id u) (db_users st) = Some u)
      by (rewrite Eid; exact Fu).
    assert (Hid : forall r, u_id (set_onboardingCompleted true r) = u_id r)
      by reflexivity.
    assert (Fnew : find_user_by_id (u_id u)
                     (update_user (u_id u) (set_onboardingCompleted true) (db_users st))
                   = Some (set_onboardingCompleted true u))
      by (apply find_update_user_same; assumption).
    subst st'; simpl.
    split; [reflexivity|]. split; [reflexivity|]. split; [reflexivity|].
    split; [apply update_user_emails; reflexivity|].
    exists s, u.
    split; [exact Fs|]. split; [exact Fu|]. split; [exact Fnew|].
    split; [intros id Hne; apply find_update_user_other; auto|].
    intros F.
    rewrite !(after_call_idle st F).
    set (st1 := set_users _ st).
    assert (F1 : faults st1 = []) by exact F.
    assert (T : truthy (session_token event) = true).
    { destruct (truthy (session_token event)) eqn:T; [reflexivity|].
      unfold complete_handler, bind in H.
      rewrite (requireAuth_no_cookie P event st T) in H; discriminate. }
    assert (R : requireAuth P event st1
                = (Ok (auth_context
                         (mkSessionWithUser s
                            (select_user session_user_select
                               (set_onboardingCompleted true u)))), st1)).
    { rewrite (requireAuth_via P event st1 T).
      rewrite (getSession_live _ st1 s (next_fault_idle st1 F1) Fs L).
      rewrite (after_call_idle st1 F1).
      unfold joined, include_user.
      change (db_users st1)
        with (update_user (u_id u) (set_onboardingCompleted true) (db_users st)).
      cbn [sw_user sw_session].
      rewrite <- Eid, Fnew; reflexivity. }
    unfold complete_handler, bind, ret.
    rewrite R, auth_user_id_of.
    unfold prisma_user_update, store_call.
    rewrite (next_fault_idle st1 F1), (after_call_idle st1 F1).
    change (db_users st1)
      with (update_user (u_id u) (set_onboardingCompleted true) (db_users st)).
    change (u_id (set_onboardingCompleted true u)) with (u_id u).
    rewrite Fnew.
    rewrite update_user_idempotent by (intros []; reflexivity).
    reflexivity.
  - intros e st' H.
    apply complete_throw_inv in H as (Hu & [R | (msg & F2 & ->)]).
    + split; [exact Hu|]. intros F.
      apply (requireAuth_throws_401 P event st st' e F R).
    + split; [exact Hu|]. intros F.
      rewrite (after_call_idle st F), (next_fault_idle st F) in F2; discriminate.
Qed.

Lemma complete_marks_the_caller_witness :
  (JObj [ ("success", JBool true) ] = JObj [ ("success", JBool true) ]
   /\ db_sessions Test.st0_completed = db_sessions Test.st0
   /\ res_cookies Test.st0_completed = res_cookies Test.st0
   /\ map u_email (db_users Test.st0_completed) = map u_email (db_users Test.st0)
   /\ exists s u,
        find_session_by_token (str_of (session_token (Test.with_cookie "tok-live")))
          (db_sessions Test.st0) = Some s
        /\ find_user_by_id (s_userId s) (db_users Test.st0) = Some u
        /\ find_user_by_id (u_id u) (db_users Test.st0_completed)
           = Some (set_onboardingCompleted true u)
        /\ (forall id, id <> u_id u ->
              find_user_by_id id (db_users Test.st0_completed)
              = find_user_by_id id (db_users Test.st0))
        /\ (faults Test.st0 = [] ->
            complete_handler Test.platform (Test.with_cookie "tok-live")
              Test.st0_completed
            = (Ok (JObj [ ("success", JBool true) ]), Test.st0_completed)))
  /\ (db_users Test.st0 = db_users Test.st0
      /\ (faults Test.st0 = [] ->
          exists m, H3Error 401 "Unauthorized - No session token" = H3Error 401 m)).
Proof.
  split.
  - destruct (complete_marks_the_caller Test.platform (Test.with_cookie "tok-live")
                Test.st0) as (H & _).
    apply H; reflexivity.
  - destruct (complete_marks_the_caller Test.platform Test.no_cookie Test.st0)
      as (_ & H).
    apply (H _ Test.st0); reflexivity.
Defined.

Section CompanySetup.

Context (R : Runtime) (P : Platform).

Lemma destructure_ok (k : string) (body : option json) (st st' : State) (b : json) :
  destructure R k body st = (Ok b, st') ->
  body = Some b /\ b <> JsNull /\ st' = st.
Proof.
  unfold destructure, throw, ret.
  destruct body as [[| | | | |]|]; try discriminate;
    intros H; inversion H; subst; repeat split; discriminate.
Qed.

Lemma destructure_throws (k : string) (body : option json) (st st' : State) (e : exn) :
  destructure R k body st = (Throw e, st') ->
  (body = None \/ body = Some JsNull)
  /\ e = JsError (cannot_destructure R k body) /\ st' = st.
Proof.
  unfold destructure, throw, ret.
  destruct body as [[| | | | |]|]; try discriminate;
    intros H; inversion H; subst; auto.
Qed.

Lemma prisma_string_ok (a : string) (v : option json) (st st' : State) (x : string) :
  prisma_string R a v st = (Ok x, st') -> v = Some (JsString x) /\ st' = st.
Proof.
  unfold prisma_string, throw, ret.
  destruct v as [[| | | | |]|]; try discriminate.
  intros H; inversion H; subst; auto.
Qed.

Lemma prisma_string_throws (a : string) (v : option json) (st st' : State) (e : exn) :
  prisma_string R a v st = (Throw e, st') ->
  (forall x, v <> Some (JsString x))
  /\ e = JsError (invalid_argument R a v) /\ st' = st.
Proof.
  unfold prisma_string, throw, ret.
  destruct v as [[| | | | |]|]; try discriminate;
    intros H; inversion H; subst; repeat split; intros x; discriminate.
Qed.

Lemma prisma_string_str (a x : string) (st : State) :
  prisma_string R a (Some (JsString x)) st = (Ok x, st).
Proof. reflexivity. Qed.

Lemma truthy_string (x : string) :
  json_truthy (Some (JsString x)) = true -> x <> "".
Proof. simpl; intros H ->; discriminate. Qed.

Lemma company_setup_ok_inv (event : Event) (body : option json)
    (tenants tenants' : list Tenant) (st st' : State) (resp : jsval) :
  company_setup_handler R P event body tenants st = (Ok (resp, tenants'), st') ->
  exists s u b cif name,
    find_session_by_token (str_of (session_token event)) (db_sessions st) = Some s
    /\ clock st <= s_expires s
    /\ find_user_by_id (s_userId s) (db_users st) = Some u
    /\ body = Some b
    /\ member "cif" b = Some (JsString cif) /\ member "name" b = Some (JsString name)
    /\ cif <> "" /\ name <> ""
    /\ find_tenant_by_cif cif tenants = None
    /\ tenants' = (tenants ++ [created_tenant P cif name st])%list
    /\ resp = JObj [ ("tenant", tenant_object (created_tenant P cif name st)) ]
    /\ st' = set_seed (S (seed st))
               (set_users
                  (update_user (u_id u)
                     (set_tenantId (Some (t_id (created_tenant P cif name st))))
                     (db_users st))
                  (after_call (after_call (after_call st)))).
Proof.
  unfold company_setup_handler, bind, ret, throw.
  destruct (requireAuth P event st) as [[v|e] st1] eqn:Rq; [|discriminate].
  apply requireAuth_ok_row in Rq as (s & u & Fs & L & Fu & -> & NF & ->).
  pose proof (find_user_by_id_id _ _ _ Fu) as [Eid _].
  destruct (destructure R "cif" body (after_call st)) as [[b|e] st2] eqn:D;
    [|discriminate].
  apply destructure_ok in D as (-> & Hb & ->).
  destruct (json_truthy (member "cif" b)) eqn:Tc; [|discriminate].
  destruct (json_truthy (member "name" b)) eqn:Tn; [|discriminate].
  cbn [negb orb].
  unfold prisma_tenant_findUnique_where, prisma_tenant_create_data, bind.
  destruct (prisma_string R "cif" (member "cif" b) (after_call st))
    as [[cif|e] st2] eqn:Pc; [|discriminate].
  pose proof (prisma_string_ok _ _ _ _ _ Pc) as [Ec ->].
  unfold prisma_tenant_findUnique, store_call.
  destruct (next_fault (after_call st)); [discriminate|].
  destruct (find_tenant_by_cif cif tenants) eqn:Ft; [discriminate|].
  rewrite Ec, prisma_string_str.
  destruct (prisma_string R "name" (member "name" b) (after_call (after_call st)))
    as [[name|e] st2] eqn:Pn; [|discriminate].
  apply prisma_string_ok in Pn as [En ->].
  rewrite auth_user_id_of.
  unfold prisma_tenant_create, store_call.
  destruct (next_fault (after_call (after_call st))); [discriminate|].
  rewrite Ft.
  change (db_users (after_call (after_call (after_call st)))) with (db_users st).
  rewrite Eid, Fu.
  intros H; inversion H; subst; clear H.
  rewrite Ec in Tc; rewrite En in Tn.
  exists s, u, b, cif, name; rewrite Eid.
  repeat split; auto using truthy_string.
Qed.

Lemma company_setup_throw_inv (event : Event) (body : option json)
    (tenants : list Tenant) (st st' : State) (e : exn) :
  company_setup_handler R P event body tenants st = (Throw e, st') ->
  db_users st' = db_users st
  /\ (faults st = [] ->
      (exists m, e = H3Error 401 m)
      \/ (e = JsError (cannot_destructure R "cif" body)
          /\ (body = None \/ body = Some JsNull))
      \/ exists b, body = Some b /\ b <> JsNull
         /\ ((e = H3Error 400 "CIF and name are required"
              /\ (json_truthy (member "cif" b) = false
                  \/ json_truthy (member "name" b) = false))
             \/ (e = JsError (invalid_argument R "cif" (member "cif" b))
                 /\ forall x, member "cif" b <> Some (JsString x))
             \/ (e = H3Error 409 "Company with this CIF already exists"
                 /\ exists c t, member "cif" b = Some (JsString c)
                                /\ find_tenant_by_cif c tenants = Some t)
             \/ (e = JsError (invalid_argument R "name" (member "name" b))
                 /\ (forall x, member "name" b <> Some (JsString x))
                 /\ exists c, member "cif" b = Some (JsString c)
                              /\ find_tenant_by_cif c tenants = None))).
Proof.
  unfold company_setup_handler, bind, ret, throw.
  destruct (requireAuth P event st) as [[v|e1] st1] eqn:Rq.
  - apply requireAuth_ok_row in Rq as (s & u & Fs & L & Fu & -> & NF & ->).
    pose proof (find_user_by_id_id _ _ _ Fu) as [Eid _].
    destruct (destructure R "cif" body (after_call st)) as [[b|e1] st2] eqn:D.
    2:{ apply destructure_throws in D as (Hb & -> & ->).
        intros H; inversion H; subst; split; [reflexivity|]; auto. }
    apply destructure_ok in D as (-> & Hb & ->).
    destruct (json_truthy (member "cif" b)) eqn:Tc;
      [|intros H; inversion H; subst; split; [reflexivity|];
        intros _; right; right; exists b; auto 6].
    destruct (json_truthy (member "name" b)) eqn:Tn;
      [|intros H; inversion H; subst; split; [reflexivity|];
        intros _; right; right; exists b; auto 6].
    cbn [negb orb].
    unfold prisma_tenant_findUnique_where, prisma_tenant_create_data, bind.
    destruct (prisma_string R "cif" (member "cif" b) (after_call st))
      as [[cif|e1] st2] eqn:Pc.
    2:{ apply prisma_string_throws in Pc as (Hc & -> & ->).
        intros H; inversion H; subst; split; [reflexivity|].
        intros _; right; right; exists b; auto 7. }
    pose proof (prisma_string_ok _ _ _ _ _ Pc) as [Ec ->].
    unfold prisma_tenant_findUnique, store_call.
    destruct (next_fault (after_call st)) eqn:F1.
    { intros H; inversion H; subst; split; [reflexivity|].
      intros F; rewrite (after_call_idle st F), (next_fault_idle st F) in F1.
      discriminate. }
    destruct (find_tenant_by_cif cif tenants) as [t|] eqn:Ft.
    { intros H; inversion H; subst; split; [reflexivity|].
      intros _; right; right; exists b.
      split; [reflexivity|]. split; [exact Hb|].
      right; right; left; split; [reflexivity|]. exists cif, t; auto. }
    rewrite Ec, prisma_string_str.
    destruct (prisma_string R "name" (member "name" b) (after_call (after_call st)))
      as [[name|e1] st2] eqn:Pn.
    2:{ apply prisma_string_throws in Pn as (Hn & -> & ->).
        intros H; inversion H; subst; split; [reflexivity|].
        intros _; right; right; exists b.
        split; [reflexivity|]. split; [exact Hb|].
        right; right; right; split; [reflexivity|]. split; [exact Hn|].
        exists cif; auto. }
    apply prisma_string_ok in Pn as [En ->].
    rewrite auth_user_id_of.
    unfold prisma_tenant_create, store_call.
    destruct (next_fault (after_call (after_call st))) eqn:F2.
    { intros H; inversion H; subst; split; [reflexivity|].
      intros F; rewrite !(after_call_idle st F), (next_fault_idle st F) in F2.
      discriminate. }
    rewrite Ft.
    change (db_users (after_call (after_call (after_call st)))) with (db_users st).
    rewrite Eid, Fu; discriminate.
  - intros H; inversion H; subst.
    pose proof (requireAuth_frame P event st) as [Hu _].
    rewrite Rq in Hu; split; [exact Hu|].
    intros F; left; apply (requireAuth_throws_401 P event st st' e F Rq).
Qed.

End CompanySetup.

(** X16. The handler of company-setup.ts, whatever the body. On success
    the body was an object whose [cif] and [name] are non-empty strings; one
    tenant has been created with them, whose CIF no tenant had, and the
    user who owns the session of the request has been linked to it; every
    other user, the e-mails and the sessions are as before. On any failure
    no user is changed, and with the store answering the failure is one of:
    the guard's 401; the TypeError of destructuring a missing or [null]
    body, which nothing catches; 400 for a [cif] or [name] that is falsy;
    the Prisma validation error for a truthy [cif] that is not a string;
    409 for a CIF already taken; the Prisma validation error for a truthy
    [name] that is not a string. *)
Theorem company_setup_links_the_caller
    (R : Runtime) (P : Platform) (event : Event) (body : option json)
    (tenants : list Tenant) (st : State) :
  (forall resp tenants' st',
     company_setup_handler R P event body tenants st = (Ok (resp, tenants'), st') ->
     exists s u t b,
       find_session_by_token (str_of (session_token event)) (db_sessions st) = Some s
       /\ find_user_by_id (s_userId s) (db_users st) = Some u
       /\ body = Some b
       /\ member "cif" b = Some (JsString (t_cif t))
       /\ member "name" b = Some (JsString (t_name t))
       /\ t_cif t <> "" /\ t_name t <> ""
       /\ find_tenant_by_cif (t_cif t) tenants = None
       /\ tenants' = (tenants ++ [t])%list
       /\ resp = JObj [ ("tenant", tenant_object t) ]
       /\ find_user_by_id (u_id u) (db_users st')
          = Some (set_tenantId (Some (t_id t)) u)
       /\ (forall id, id <> u_id u ->
             find_user_by_id id (db_users st') = find_user_by_id id (db_users st))
       /\ map u_email (db_users st') = map u_email (db_users st)
       /\ db_sessions st' = db_sessions st)
  /\ (forall e st',
        company_setup_handler R P event body tenants st = (Throw e, st') ->
        db_users st' = db_users st
        /\ (faults st = [] ->
            (exists m, e = H3Error 401 m)
            \/ (e = JsError (cannot_destructure R "cif" body)
                /\ (body = None \/ body = Some JsNull))
            \/ exists b, body = Some b /\ b <> JsNull
               /\ ((e = H3Error 400 "CIF and name are required"
                    /\ (json_truthy (member "cif" b) = false
                        \/ json_truthy (member "name" b) = false))
                   \/ (e = JsError (invalid_argument R "cif" (member "cif" b))
                       /\ forall x, member "cif" b <> Some (JsString x))
                   \/ (e = H3Error 409 "Company with this CIF already exists"
                       /\ exists c t, member "cif" b = Some (JsString c)
                                      /\ find_tenant_by_cif c tenants = Some t)
                   \/ (e = JsError (invalid_argument R "name" (member "name" b))
                       /\ (forall x, member "name" b <> Some (JsString x))
                       /\ exists c, member "cif" b = Some (JsString c)
                                    /\ find_tenant_by_cif c tenants = None)))).
Proof.
  split.
  - intros resp tenants' st' H.
    apply company_setup_ok_inv in H
      as (s & u & b & cif & name & Fs & L & Fu & Eb & Ec & En & Hc & Hn & Ft
          & -> & -> & ->).
    pose proof (find_user_by_id_id _ _ _ Fu) as [Eid _].
    assert (Fu' : find_user_by_id (u_id u) (db_users st) = Some u)
      by (rewrite Eid; exact Fu).
    exists s, u, (created_tenant P cif name st), b; simpl.
    split; [exact Fs|]. split; [exact Fu|]. split; [exact Eb|].
    split; [exact Ec|]. split; [exact En|].
    split; [exact Hc|]. split; [exact Hn|]. split; [exact Ft|].
    split; [reflexivity|]. split; [reflexivity|].
    split; [apply find_update_user_same; [reflexivity | exact Fu']|].
    split; [intros id Hne; apply find_update_user_other; auto|].
    split; [apply update_user_emails; reflexivity | reflexivity].
  - intros e st' H.
    apply (company_setup_throw_inv R P event body tenants st st' e H).
Qed.

(** alice's request, and the same request without a body. *)
Lemma company_setup_links_the_caller_witness :
  (exists s u t b,
     find_session_by_token (str_of (session_token Test.acme)) (db_sessions Test.st0)
     = Some s
     /\ find_user_by_id (s_userId s) (db_users Test.st0) = Some u
     /\ Test.acme_body = Some b
     /\ member "cif" b = Some (JsString (t_cif t))
     /\ member "name" b = Some (JsString (t_name t))
     /\ t_cif t <> "" /\ t_name t <> ""
     /\ find_tenant_by_cif (t_cif t) [] = None
     /\ [Test.acme_tenant] = ([] ++ [t])%list
     /\ JObj [ ("tenant", tenant_object Test.acme_tenant) ]
        = JObj [ ("tenant", tenant_object t) ]
     /\ find_user_by_id (u_id u) (db_users Test.st0_linked)
        = Some (set_tenantId (Some (t_id t)) u)
     /\ (forall id, id <> u_id u ->
           find_user_by_id id (db_users Test.st0_linked)
           = find_user_by_id id (db_users Test.st0))
     /\ map u_email (db_users Test.st0_linked) = map u_email (db_users Test.st0)
     /\ db_sessions Test.st0_linked = db_sessions Test.st0)
  /\ company_setup_handler Test.runtime Test.platform Test.acme None [] Test.st0
     = (Throw (JsError "Cannot destructure property 'cif' of 'body' as it is undefined."),
        Test.st0)
  /\ db_users Test.st0 = db_users Test.st0.
Proof.
  destruct (company_setup_links_the_caller Test.runtime Test.platform Test.acme
              Test.acme_body [] Test.st0) as [H _].
  destruct (company_setup_links_the_caller Test.runtime Test.platform Test.acme
              None [] Test.st0) as [_ H0].
  split; [apply H; reflexivity|].
  split; [reflexivity|].
  apply (H0 (JsError "Cannot destructure property 'cif' of 'body' as it is undefined.")
            Test.st0); reflexivity.
Defined.

Section OnboardingFlow.

Context (P : Platform).

Lemma getSession_sees_user (tok : string) (st : State) (s : Session) (u : User) :
  faults st = [] ->
  find_session_by_token tok (db_sessions st) = Some s ->
  clock st <= s_expires s ->
  find_user_by_id (s_userId s) (db_users st) = Some u ->
  getSession tok st
  = (Ok (Some (mkSessionWithUser s (select_user session_user_select u))), st).
Proof.
  intros F Fs L Fu.
  rewrite (getSession_live tok st s (next_fault_idle st F) Fs L).
  rewrite (after_call_idle st F).
  unfold joined, include_user; rewrite Fu; reflexivity.
Qed.

End OnboardingFlow.

(** X17. Onboarding takes both steps. After company-setup and then
    complete have succeeded for the same session, the user that
    [getSession] returns for it no longer needs onboarding (the tenant id
    minted by the store being non-empty). After complete alone, the user
    still needs onboarding exactly when the row has no tenant. *)
Theorem onboarding_takes_both_steps
    (R : Runtime) (P : Platform) (event : Event) (st : State) :
  (forall body tenants r1 tenants1 st1 r2 st2,
     company_setup_handler R P event body tenants st = (Ok (r1, tenants1), st1) ->
     complete_handler P event st1 = (Ok r2, st2) ->
     cuid P (seed st) <> "" ->
     faults st2 = [] ->
     exists sw,
       getSession (str_of (session_token event)) st2 = (Ok (Some sw), st2)
       /\ needsOnboarding (sw_user sw) = false)
  /\ (forall r st',
        complete_handler P event st = (Ok r, st') ->
        faults st' = [] ->
        exists sw s u,
          getSession (str_of (session_token event)) st' = (Ok (Some sw), st')
          /\ find_session_by_token (str_of (session_token event)) (db_sessions st)
             = Some s
          /\ find_user_by_id (s_userId s) (db_users st) = Some u
          /\ needsOnboarding (sw_user sw) = negb (truthy (u_tenantId u))).
Proof.
  assert (Step2 : forall st0 r st',
             complete_handler P event st0 = (Ok r, st') ->
             faults st' = [] ->
             exists sw s u,
               getSession (str_of (session_token event)) st' = (Ok (Some sw), st')
               /\ find_session_by_token (str_of (session_token event)) (db_sessions st0)
                  = Some s
               /\ find_user_by_id (s_userId s) (db_users st0) = Some u
               /\ sw_user sw
                  = select_user session_user_select (set_onboardingCompleted true u)).
  { intros st0 r st' H F.
    apply complete_ok_inv in H as (s & u & Fs & L & Fu & _ & E & _).
    pose proof (find_user_by_id_id _ _ _ Fu) as [Eid _].
    exists (mkSessionWithUser s
              (select_user session_user_select (set_onboardingCompleted true u))), s, u.
    split; [|auto].
    apply getSession_sees_user; auto.
    - rewrite E; exact Fs.
    - rewrite E; exact L.
    - rewrite E; simpl; rewrite <- Eid.
      apply find_update_user_same; [reflexivity | rewrite Eid; exact Fu]. }
  split.
  - intros body tenants r1 tenants1 st1 r2 st2 H1 H2 Hc F.
    destruct (Step2 st1 r2 st2 H2 F) as (sw & s & u1 & G & Fs1 & Fu1 & Eu).
    apply company_setup_ok_inv in H1
      as (s0 & u & b & cif & name & Fs & L & Fu & _ & _ & _ & _ & _ & _ & _ & _ & E1).
    pose proof (find_user_by_id_id _ _ _ Fu) as [Eid _].
    rewrite E1 in Fs1, Fu1; simpl in Fs1, Fu1.
    assert (s = s0) by congruence; subst s0.
    rewrite <- Eid in Fu1.
    rewrite (find_update_user_same (u_id u) _ (db_users st) u) in Fu1;
      [|reflexivity | rewrite Eid; exact Fu].
    inversion Fu1; subst u1; clear Fu1.
    exists sw; split; [exact G|].
    rewrite Eu.
    destruct (needsOnboarding_row
                (set_onboardingCompleted true (set_tenantId (Some (cuid P (seed st))) u)))
      as [-> _]; simpl.
    destruct (String.eqb_spec (cuid P (seed st)) ""); [contradiction | reflexivity].
  - intros r st' H F.
    destruct (Step2 st r st' H F) as (sw & s & u & G & Fs & Fu & Eu).
    exists sw, s, u; repeat split; auto.
    rewrite Eu.
    destruct (needsOnboarding_row (set_onboardingCompleted true u)) as [-> _].
    reflexivity.
Qed.

Lemma onboarding_takes_both_steps_witness :
  (exists sw,
     getSession (str_of (session_token Test.acme)) Test.st0_onboarded
     = (Ok (Some sw), Test.st0_onboarded)
     /\ needsOnboarding (sw_user sw) = false)
  /\ (exists sw s u,
        getSession (str_of (session_token Test.acme)) Test.st0_completed
        = (Ok (Some sw), Test.st0_completed)
        /\ find_session_by_token (str_of (session_token Test.acme))
             (db_sessions Test.st0) = Some s
        /\ find_user_by_id (s_userId s) (db_users Test.st0) = Some u
        /\ needsOnboarding (sw_user sw) = negb (truthy (u_tenantId u))).
Proof.
  destruct (onboarding_takes_both_steps Test.runtime Test.platform Test.acme Test.st0)
    as [H1 H2].
  split.
  - apply (H1 Test.acme_body []
             (JObj [ ("tenant", tenant_object Test.acme_tenant) ])
             [Test.acme_tenant] Test.st0_linked
             (JObj [ ("success", JBool true) ]) Test.st0_onboarded).
    + reflexivity.
    + reflexivity.
    + discriminate.
    + reflexivity.
  - apply (H2 (JObj [ ("success", JBool true) ]) Test.st0_completed); reflexivity.
Defined.

(** * The e-mail pattern *)

Section Regex.

Lemma append_eq_nil (s1 s2 : string) :
  (s1 ++ s2)%string = "" -> s1 = "" /\ s2 = "".
Proof. destruct s1; simpl; [auto | discriminate]. Qed.

Lemma nullable_matches (r : re) : nullable r = true <-> matches r "".
Proof.
  split.
  - induction r; simpl; intros H; try discriminate.
    + constructor.
    + apply andb_prop in H as [H1 H2].
      change ""%string with ("" ++ "")%string; constructor; auto.
    + apply orb_prop in H as [H|H]; [apply MAltL | apply MAltR]; auto.
    + constructor.
  - intros H; remember ""%string as s eqn:E.
    induction H; simpl; try reflexivity; try discriminate.
    + apply append_eq_nil in E as [-> ->]; rewrite IHmatches1, IHmatches2; auto.
    + rewrite IHmatches; auto.
    + rewrite IHmatches; auto using orb_true_r.
Qed.

Lemma deriv_sound (c : ascii) (r : re) (s : string) :
  matches (deriv c r) s -> matches r (String c s).
Proof.
  revert s; induction r; simpl; intros s H.
  - inversion H.
  - inversion H.
  - destruct (p c) eqn:E; inversion H; subst; constructor; exact E.
  - destruct (nullable r1) eqn:N.
    + inversion H; subst.
      * match goal with
        | H1 : matches (Cat _ _) _ |- _ => inversion H1; subst
        end.
        change (String c (s1 ++ s2)) with (String c s1 ++ s2)%string.
        constructor; auto.
      * change (String c s) with ("" ++ String c s)%string.
        constructor; [apply nullable_matches; exact N | auto].
    + inversion H; subst.
      change (String c (s1 ++ s2)) with (String c s1 ++ s2)%string.
      constructor; auto.
  - inversion H; subst; [apply MAltL | apply MAltR]; auto.
  - inversion H; subst.
    change (String c (s1 ++ s2)) with (String c s1 ++ s2)%string.
    constructor; auto.
Qed.

Lemma deriv_complete (r : re) (s0 : string) :
  matches r s0 -> forall c s, s0 = String c s -> matches (deriv c r) s.
Proof.
  induction 1 as [ | p c' Hp | r1 r2 s1 s2 H1 IH1 H2 IH2 | r1 r2 w H IH
                 | r1 r2 w H IH | r | r s1 s2 H1 IH1 H2 IH2 ];
    intros c s E; simpl.
  - discriminate.
  - inversion E; subst; rewrite Hp; constructor.
  - destruct s1 as [|c1 s1]; simpl in E.
    + assert (N : nullable r1 = true) by (apply nullable_matches; exact H1).
      rewrite N; apply MAltR; apply IH2; exact E.
    + inversion E; subst.
      destruct (nullable r1); [apply MAltL|]; constructor; auto.
  - apply MAltL; auto.
  - apply MAltR; auto.
  - discriminate.
  - destruct s1 as [|c1 s1]; simpl in E.
    + apply (IH2 c s E).
    + inversion E; subst; constructor; auto.
Qed.

Lemma re_test_matches (r : re) (s : string) : re_test r s = true <-> matches r s.
Proof.
  revert r; induction s as [|c s IH]; intros r; simpl.
  - apply nullable_matches.
  - rewrite IH; split; [apply deriv_sound|].
    intros H; apply (deriv_complete r (String c s) H c s eq_refl).
Qed.

Lemma matches_chr (p : ascii -> bool) (s : string) :
  matches (Chr p) s <-> exists c, s = String c "" /\ p c = true.
Proof.
  split.
  - intros H; inversion H; subst; eauto.
  - intros (c & -> & Hp); constructor; exact Hp.
Qed.

Lemma matches_star_chr (p : ascii -> bool) (s : string) :
  matches (Star (Chr p)) s <-> all_chars p s = true.
Proof.
  split.
  - intros H; remember (Star (Chr p)) as r eqn:E.
    induction H; try discriminate; [reflexivity|].
    inversion E; subst.
    match goal with
    | H1 : matches (Chr _) _ |- _ => inversion H1; subst
    end.
    simpl; rewrite IHmatches2 by reflexivity.
    match goal with Hp : p _ = true |- _ => rewrite Hp end; reflexivity.
  - induction s as [|c s IH]; simpl; intros H; [constructor|].
    apply andb_prop in H as [Hc Hs].
    change (String c s) with (String c "" ++ s)%string.
    constructor; [constructor; exact Hc | auto].
Qed.

Lemma matches_plus_chr (p : ascii -> bool) (s : string) :
  matches (Plus (Chr p)) s <-> s <> "" /\ all_chars p s = true.
Proof.
  unfold Plus; split.
  - intros H; inversion H; subst.
    match goal with
    | H1 : matches (Chr _) _ |- _ => apply matches_chr in H1 as (c & -> & Hp)
    end.
    match goal with
    | H2 : matches (Star _) _ |- _ => apply matches_star_chr in H2
    end.
    simpl; split; [discriminate|].
    rewrite Hp; assumption.
  - intros [Hne H]; destruct s as [|c s]; [contradiction|].
    simpl in H; apply andb_prop in H as [Hc Hs].
    change (String c s) with (String c "" ++ s)%string.
    constructor; [constructor; exact Hc | apply matches_star_chr; exact Hs].
Qed.

Lemma email_part_spec (s : string) :
  email_part s = true <-> s <> "" /\ all_chars not_space_at s = true.
Proof.
  unfold email_part; rewrite andb_true_iff, negb_true_iff, String.eqb_neq.
  reflexivity.
Qed.

End Regex.

(** X18. What the sign-up pattern accepts. A string passes
    [/^[^\s@]+@[^\s@]+\.[^\s@]+$/] exactly when it splits as
    [local @ domain . rest] with the three parts non-empty and free of
    white space and of [@]; in particular it has a single [@]. *)
Theorem emailRegex_accepts (s : string) :
  re_test emailRegex s = true <->
  exists local domain rest,
    s = (local ++ "@" ++ domain ++ "." ++ rest)%string
    /\ email_part local = true
    /\ email_part domain = true
    /\ email_part rest = true.
Proof.
  rewrite re_test_matches; unfold emailRegex; split.
  - intros H.
    inversion H as [| |r1 r2 l s1 Hl H1| | | |]; subst; clear H.
    inversion H1 as [| |r1 r2 a s2 Ha H2| | | |]; subst; clear H1.
    inversion H2 as [| |r1 r2 d s3 Hd H3| | | |]; subst; clear H2.
    inversion H3 as [| |r1 r2 b t Hb Ht| | | |]; subst; clear H3.
    apply matches_chr in Ha as (ca & -> & Ea).
    apply matches_chr in Hb as (cb & -> & Eb).
    apply Ascii.eqb_eq in Ea, Eb; subst ca cb.
    apply matches_plus_chr, email_part_spec in Hl, Hd, Ht.
    exists l, d, t; auto.
  - intros (l & d & t & -> & Hl & Hd & Ht).
    apply email_part_spec, matches_plus_chr in Hl, Hd, Ht.
    constructor; [exact Hl|].
    constructor; [constructor; reflexivity|].
    constructor; [exact Hd|].
    constructor; [constructor; reflexivity | exact Ht].
Qed.

Lemma emailRegex_accepts_witness :
  exists local domain rest,
    "alice@mail.test.com" = (local ++ "@" ++ domain ++ "." ++ rest)%string
    /\ email_part local = true
    /\ email_part domain = true
    /\ email_part rest = true.
Proof.
  apply (proj1 (emailRegex_accepts "alice@mail.test.com")); reflexivity.
Defined.

(** * The session cookie *)

(** X19. The cookie of a successful sign-in. It is the one cookie pushed,
    named [auth.session_token], HttpOnly, SameSite lax, path [/], Secure
    exactly in production; its value is the token of the row created and
    of the response, and its Max-Age, in seconds, is the lifetime of that
    row, so cookie and session lapse together. The clearing cookie has the
    same name, path and flags. *)
Theorem signin_cookie_matches_session
    (P : Platform) (event : Event) (st st' : State) (resp : jsval) :
  signin_handler P event st = (Ok resp, st') ->
  exists (c : Cookie) (row : Session) (session : jsval),
    res_cookies st' = (res_cookies st ++ [c])%list
    /\ db_sessions st' = (db_sessions st ++ [row])%list
    /\ c_name c = "auth.session_token"
    /\ c_value c = s_sessionToken row
    /\ opt_chain resp "session" = Some session
    /\ opt_chain session "sessionToken" = Some (JStr (c_value c))
    /\ opt_chain session "expires" = Some (JStr (toISOString P (s_expires row)))
    /\ c_maxAge c * 1000 = s_expires row - clock st
    /\ c_maxAge c = SESSION_MAX_AGE
    /\ c_httpOnly c = true /\ c_sameSite c = "lax" /\ c_path c = "/"
    /\ (c_secure c = true <-> NODE_ENV P = Some "production")
    /\ c_name (clear_cookie P) = c_name c /\ c_path (clear_cookie P) = c_path c
    /\ c_secure (clear_cookie P) = c_secure c
    /\ c_httpOnly (clear_cookie P) = c_httpOnly c
    /\ c_sameSite (clear_cookie P) = c_sameSite c.
Proof.
  intros H.
  apply signin_ok_inv in H
    as (u & row & _ & _ & _ & Hs & Htok & _ & Hexp & Hck & _ & ->).
  exists (session_cookie P (minted_token P st) (30 * 24 * 60 * 60)), row.
  eexists.
  split; [exact Hck|]. split; [exact Hs|].
  split; [reflexivity|]. split; [symmetry; exact Htok|].
  split; [reflexivity|]. split; [reflexivity|]. split; [reflexivity|].
  split; [rewrite Hexp; simpl; lia|].
  split; [reflexivity|]. split; [reflexivity|]. split; [reflexivity|].
  split; [reflexivity|].
  split; [|repeat split].
  simpl; unfold is_production.
  destruct (NODE_ENV P) as [e|]; [|split; discriminate].
  rewrite String.eqb_eq; split; [intros ->; reflexivity | intros [= ->]; reflexivity].
Qed.

Lemma signin_cookie_matches_session_witness :
  exists (c : Cookie) (row : Session) (session : jsval),
    res_cookies Test.st2 = (res_cookies Test.st1 ++ [c])%list
    /\ db_sessions Test.st2 = (db_sessions Test.st1 ++ [row])%list
    /\ c_name c = "auth.session_token"
    /\ c_value c = s_sessionToken row
    /\ opt_chain Test.carol_signin "session" = Some session
    /\ opt_chain session "sessionToken" = Some (JStr (c_value c))
    /\ opt_chain session "expires"
       = Some (JStr (toISOString Test.platform (s_expires row)))
    /\ c_maxAge c * 1000 = s_expires row - clock Test.st1
    /\ c_maxAge c = SESSION_MAX_AGE
    /\ c_httpOnly c = true /\ c_sameSite c = "lax" /\ c_path c = "/"
    /\ (c_secure c = true <-> NODE_ENV Test.platform = Some "production")
    /\ c_name (clear_cookie Test.platform) = c_name c
    /\ c_path (clear_cookie Test.platform) = c_path c
    /\ c_secure (clear_cookie Test.platform) = c_secure c
    /\ c_httpOnly (clear_cookie Test.platform) = c_httpOnly c
    /\ c_sameSite (clear_cookie Test.platform) = c_sameSite c.
Proof.
  apply (signin_cookie_matches_session Test.platform Test.carol Test.st1 Test.st2
           Test.carol_signin).
  reflexivity.
Defined.

(** * The client *)

(** X20. [fetchSession] always settles with [loading] false, whatever the
    refs held before. The client is authenticated afterwards exactly when
    the response was ok and its body has a truthy [user] and a truthy
    [session]; whenever [fetchSession] returns [null] (network error,
    status not ok, unreadable body, no user) both refs are null. *)
Theorem fetchSession_settles (fetched : Fetched) (refs : AuthRefs) :
  ref_loading (snd (fetchSession fetched refs)) = false
  /\ (isAuthenticated (snd (fetchSession fetched refs)) = true <->
      exists data,
        fetched = Response true (Some data)
        /\ truthy_opt (opt_chain data "user") = true
        /\ truthy_opt (opt_chain data "session") = true)
  /\ (fst (fetchSession fetched refs) = JNull ->
      snd (fetchSession fetched refs) = signed_off false)
  /\ fetchSession fetched refs = fetchSession fetched useAuth.
Proof.
  split; [|split; [|split]].
  - destruct fetched as [|[] [data|]]; simpl; try reflexivity.
    destruct (js_truthy data && truthy_opt (opt_chain data "user")); reflexivity.
  - split.
    + destruct fetched as [|[] [data|]]; simpl; try discriminate.
      destruct (js_truthy data) eqn:Td; simpl; [|discriminate].
      destruct (truthy_opt (opt_chain data "user")) eqn:Tu; simpl; [|discriminate].
      unfold isAuthenticated; simpl; rewrite Tu, andb_true_r.
      intros Ts; exists data; auto.
    + intros (data & -> & Tu & Ts); simpl.
      assert (Td : js_truthy data = true).
      { destruct data; try discriminate Tu; reflexivity. }
      rewrite Td, Tu; simpl; unfold isAuthenticated; simpl.
      rewrite Tu, Ts; reflexivity.
  - destruct fetched as [|[] [data|]]; simpl; try reflexivity.
    destruct (js_truthy data) eqn:Td; simpl; [|reflexivity].
    destruct (truthy_opt (opt_chain data "user")); simpl; [|reflexivity].
    intros ->; discriminate Td.
  - destruct fetched as [|[] [data|]]; reflexivity.
Qed.

Lemma fetchSession_settles_witness :
  snd (fetchSession (Response true (Some JNull)) useAuth) = signed_off false.
Proof.
  destruct (fetchSession_settles (Response true (Some JNull)) useAuth)
    as (_ & _ & H & _).
  apply H; reflexivity.
Defined.

Lemma fetch_session_response (P : Platform) (sw : SessionWithUser) (refs : AuthRefs) :
  isAuthenticated (snd (fetchSession (Response true (Some (session_response P sw))) refs))
  = js_truthy (sw_user sw)
  /\ (js_truthy (sw_user sw) = true ->
      ref_user (snd (fetchSession (Response true (Some (session_response P sw))) refs))
      = Some (sw_user sw)).
Proof.
  unfold fetchSession, session_response, isAuthenticated.
  cbn [js_truthy opt_chain find fst snd String.eqb Ascii.eqb Bool.eqb andb truthy_opt].
  destruct (js_truthy (sw_user sw)) eqn:E; simpl; rewrite ?E; split; auto; discriminate.
Qed.

(** X21. Client and server agree on who is signed in. When get-session
    answers, the client that reads this answer in [fetchSession] is
    authenticated exactly when the request carried a cookie whose session
    [getSession] accepted and whose user row exists; the user it then holds
    is the user of the answer, which carries no password hash. *)
Theorem client_authenticated_iff_session
    (P : Platform) (event : Event) (st st' : State) (resp : jsval) (refs : AuthRefs) :
  get_session_handler P event st = (Ok resp, st') ->
  (isAuthenticated (snd (fetchSession (Response true (Some resp)) refs)) = true <->
   truthy (session_token event) = true
   /\ exists sw,
        getSession (str_of (session_token event)) st = (Ok (Some sw), st')
        /\ is_null (sw_user sw) = false)
  /\ (isAuthenticated (snd (fetchSession (Response true (Some resp)) refs)) = true ->
      ref_user (snd (fetchSession (Response true (Some resp)) refs))
      = opt_chain resp "user"
      /\ has_key "passwordHash" resp = false).
Proof.
  intros H.
  destruct (truthy (session_token event)) eqn:T.
  - rewrite (get_session_via P event st T) in H.
    destruct (getSession _ st) as [[[sw|]|e] st1] eqn:G; inversion H; subst; clear H.
    + pose proof G as G'.
      apply getSession_some_inv in G' as (s & _ & Esw & _).
      assert (Tu : js_truthy (sw_user sw) = negb (is_null (sw_user sw))).
      { rewrite Esw; unfold joined, include_user; simpl.
        destruct (find_user_by_id (s_userId s) (db_users st)); reflexivity. }
      destruct (fetch_session_response P sw refs) as [-> Hu].
      rewrite Tu in *.
      destruct (is_null (sw_user sw)) eqn:N; simpl in *.
      * split; [split; [discriminate|]|discriminate].
        intros (_ & sw' & E & N'); inversion E; subst; congruence.
      * split; [split; eauto|].
        intros _; split; [apply Hu; reflexivity|].
        assert (S : has_key "passwordHash" (sw_user sw) = false)
          by (rewrite Esw; apply include_user_safe).
        rewrite S; reflexivity.
    + simpl; split; [split; [discriminate|]|discriminate].
      intros (_ & sw' & E & _); discriminate E.
  - rewrite (get_session_no_cookie P event st T) in H; inversion H; subst.
    simpl; split; [split; [discriminate|]|discriminate].
    intros [E _]; discriminate E.
Qed.

Lemma client_authenticated_iff_session_witness :
  isAuthenticated
    (snd (fetchSession
            (Response true (Some (session_response Test.platform
                                    (joined Test.st0 Test.live))))
            useAuth)) = true.
Proof.
  destruct (client_authenticated_iff_session Test.platform
              (Test.with_cookie "tok-live") Test.st0 Test.st0
              (session_response Test.platform (joined Test.st0 Test.live))
              useAuth eq_refl) as [[_ H] _].
  apply H; split; [reflexivity|].
  exists (joined Test.st0 Test.live); split; reflexivity.
Defined.

(** X22. The client's [signOut] always forgets the session: afterwards
    both refs are null and the client is not authenticated, whatever the
    server answered. It reports a truthy [success] for every response
    whose body parses to something other than [null], whatever the HTTP
    status, and [success: false] only when the request or the parsing
    failed or the body is [null]. *)
Theorem client_signOut_always_forgets (fetched : Fetched) (refs : AuthRefs) :
  snd (signOut fetched refs) = signed_off (ref_loading refs)
  /\ isAuthenticated (snd (signOut fetched refs)) = false
  /\ (forall ok result,
        fetched = Response ok (Some result) -> result <> JNull ->
        exists v, fst (signOut fetched refs) = JObj [ ("success", v) ]
                  /\ js_truthy v = true)
  /\ ((fetched = NetworkError
       \/ (exists ok, fetched = Response ok None)
       \/ (exists ok, fetched = Response ok (Some JNull))) ->
      fst (signOut fetched refs)
      = JObj [ ("success", JBool false); ("error", JStr "Sign out failed") ]).
Proof.
  split; [|split; [|split]].
  - destruct fetched as [|ok [[]|]]; reflexivity.
  - destruct fetched as [|ok [[]|]]; reflexivity.
  - intros ok result -> Hne.
    destruct result as [|b|str|ms|fields]; try contradiction;
      try (eexists; split; reflexivity).
    unfold signOut; cbn [fst].
    destruct (opt_chain (JObj fields) "success") as [v|]; cbn [truthy_opt].
    + destruct (js_truthy v) eqn:E; eexists; split; try reflexivity; exact E.
    + eexists; split; reflexivity.
  - intros [-> | [[ok ->] | [ok ->]]]; reflexivity.
Qed.

Lemma client_signOut_always_forgets_witness :
  exists v,
    fst (signOut (Response false
                    (Some (JObj [ ("statusCode", JStr "500");
                                  ("message", JStr "db down") ])))
           (mkAuthRefs (Some (JObj [])) (Some (JObj [])) false))
    = JObj [ ("success", v) ]
    /\ js_truthy v = true.
Proof.
  destruct (client_signOut_always_forgets
              (Response false
                 (Some (JObj [ ("statusCode", JStr "500");
                               ("message", JStr "db down") ])))
              (mkAuthRefs (Some (JObj [])) (Some (JObj [])) false))
    as (_ & _ & H & _).
  apply (H false (JObj [ ("statusCode", JStr "500"); ("message", JStr "db down") ]));
    [reflexivity | discriminate].
Defined.

(** X23. The route middleware. The auth middleware fetches the session and
    lets the navigation through exactly when the client is then
    authenticated; otherwise it redirects to [/auth/signin] with the
    target as [redirect]. The onboarding middleware reads
    [isAuthenticated] on the refs [useAuth()] has just created, before
    any fetch: it returns at that test and never redirects. *)
Theorem middleware_decisions (to : string) (fetched : Fetched) :
  (auth_middleware to fetched = None <->
   isAuthenticated (snd (fetchSession fetched useAuth)) = true)
  /\ (auth_middleware to fetched <> None ->
      auth_middleware to fetched = Some (navigateTo "/auth/signin" (Some to)))
  /\ onboarding_middleware to fetched = None.
Proof.
  unfold auth_middleware; simpl ref_loading; cbv iota.
  split; [|split; [|reflexivity]].
  - destruct (isAuthenticated (snd (fetchSession fetched useAuth))); simpl;
      split; intros; congruence.
  - destruct (isAuthenticated (snd (fetchSession fetched useAuth))); simpl;
      [contradiction | reflexivity].
Qed.

Lemma middleware_decisions_witness :
  auth_middleware "/dashboard" NetworkError
  = Some (navigateTo "/auth/signin" (Some "/dashboard")).
Proof.
  destruct (middleware_decisions "/dashboard" NetworkError) as (_ & H & _).
  apply H; discriminate.
Defined.

(** * Lifetime of a session, and the two readers of the cookie *)

(** X24. A session lives 30 days and not a millisecond more. A request
    that carries the token of a successful sign-in later than
    [now + 30 days], the store answering, is refused by the guard with
    401: the row is deleted on the way and the cookie cleared. *)
Theorem signin_session_lapses
    (P : Platform) (event guard : Event) (st st' st2 : State) (resp : jsval) :
  signin_handler P event st = (Ok resp, st') ->
  session_token guard = Some (minted_token P st) ->
  db_sessions st2 = db_sessions st' ->
  faults st2 = [] ->
  clock st + 30 * 24 * 60 * 60 * 1000 < clock st2 ->
  exists row,
    db_sessions st' = (db_sessions st ++ [row])%list
    /\ requireAuth P guard st2
       = (Throw (H3Error 401 "Unauthorized - Invalid or expired session"),
          cleared P (set_sessions (without_id (s_id row) (db_sessions st2)) st2))
    /\ ~ In row (without_id (s_id row) (db_sessions st2)).
Proof.
  intros H T Hs2 F2 L.
  apply signin_ok_inv in H
    as (u & row & _ & Fresh & _ & Hs & Htok & _ & Hexp & _ & _ & _).
  assert (Tt : truthy (session_token guard) = true)
    by (rewrite T; apply minted_token_truthy).
  assert (Frow : find_session_by_token (minted_token P st) (db_sessions st2) = Some row).
  { rewrite Hs2, Hs; unfold find_session_by_token in *.
    rewrite find_app, Fresh; simpl.
    rewrite Htok, String.eqb_refl; reflexivity. }
  exists row; split; [exact Hs|]. split.
  - rewrite (requireAuth_via P guard st2 Tt), T; simpl str_of.
    assert (NF2 : next_fault (after_call st2) = None)
      by (rewrite (after_call_idle st2 F2); apply next_fault_idle; exact F2).
    assert (Lx : s_expires row < clock st2) by lia.
    rewrite (getSession_expired _ st2 row (next_fault_idle st2 F2) NF2 Frow Lx).
    rewrite !(after_call_idle st2 F2); reflexivity.
  - unfold without_id; intros Hin; apply filter_In in Hin as [_ Hid].
    rewrite String.eqb_refl in Hid; discriminate.
Qed.

Lemma signin_session_lapses_witness :
  exists row,
    db_sessions Test.st2 = (db_sessions Test.st1 ++ [row])%list
    /\ requireAuth Test.platform (Test.with_cookie Test.carol_token) Test.st2_late
       = (Throw (H3Error 401 "Unauthorized - Invalid or expired session"),
          cleared Test.platform
            (set_sessions (without_id (s_id row) (db_sessions Test.st2_late))
               Test.st2_late))
    /\ ~ In row (without_id (s_id row) (db_sessions Test.st2_late)).
Proof.
  apply (signin_session_lapses Test.platform Test.carol
           (Test.with_cookie Test.carol_token) Test.st1 Test.st2 Test.st2_late
           Test.carol_signin).
  - reflexivity.
  - reflexivity.
  - reflexivity.
  - reflexivity.
  - simpl; lia.
Defined.

(** X25. The guard and get-session read the cookie alike. For a request
    that carries a cookie, with the store answering and every session
    owned by an existing user, both leave the same state (the same lazy
    delete, the same cleared cookie); the guard succeeds exactly when
    get-session returns a session, with the same session fields and the
    same user, and it raises exactly when get-session returns the nulls. *)
Theorem guard_agrees_with_get_session (P : Platform) (event : Event) (st : State) :
  truthy (session_token event) = true ->
  faults st = [] ->
  owners_exist st ->
  snd (requireAuth P event st) = snd (get_session_handler P event st)
  /\ (forall v, fst (requireAuth P event st) = Ok v ->
        exists sw,
          v = auth_context sw
          /\ fst (get_session_handler P event st) = Ok (session_response P sw)
          /\ opt_chain v "user" = opt_chain (session_response P sw) "user")
  /\ ((exists e, fst (requireAuth P event st) = Throw e) <->
      fst (get_session_handler P event st) = Ok no_session).
Proof.
  intros T F O.
  pose proof (next_fault_idle st F) as NF.
  pose proof (after_call_idle st F) as AC.
  rewrite (requireAuth_via P event st T), (get_session_via P event st T).
  destruct (find_session_by_token (str_of (session_token event)) (db_sessions st))
    as [s|] eqn:E.
  - destruct (Z.lt_ge_cases (s_expires s) (clock st)) as [L|L].
    + rewrite (getSession_expired _ st s); rewrite ?AC; auto.
      simpl; split; [reflexivity|]. split; [discriminate|].
      split; [reflexivity | eauto].
    + rewrite (getSession_live _ st s NF E L), AC.
      pose proof E as Ein; apply find_session_In in Ein as [Hin _].
      destruct (O s Hin) as [u Fu].
      assert (N : is_null (sw_user (joined st s)) = false)
        by (unfold joined, include_user; simpl; rewrite Fu; reflexivity).
      rewrite N; simpl.
      split; [reflexivity|]. split.
      * intros v [= <-]; exists (joined st s); repeat split.
      * split; [intros [e He]; discriminate He | discriminate].
  - rewrite (getSession_absent _ st NF E), AC.
    simpl; split; [reflexivity|]. split; [discriminate|].
    split; [reflexivity | eauto].
Qed.

Lemma guard_agrees_with_get_session_witness :
  snd (requireAuth Test.platform (Test.with_cookie "tok-stale") Test.st0)
  = snd (get_session_handler Test.platform (Test.with_cookie "tok-stale") Test.st0).
Proof.
  apply (guard_agrees_with_get_session Test.platform (Test.with_cookie "tok-stale")
           Test.st0).
  - reflexivity.
  - reflexivity.
  - intros s [<-|[<-|[<-|[]]]]; exists Test.alice; reflexivity.
Defined.

(** * What the responses carry *)

Section ResponseUsers.

Context (P : Platform).

Lemma signin_ok_auth (event : Event) (st st' : State) (resp : jsval) :
  signin_handler P event st = (Ok resp, st') ->
  exists u h,
    find_user_by_email (str_of (body_email event)) (db_users st) = Some u
    /\ u_passwordHash u = Some h
    /\ bcrypt_compare P (str_of (body_password event)) h = Ok true.
Proof.
  unfold signin_handler, prisma_user_findUnique, verifyPassword.
  unfold rethrow_or_500, try_catch, bind, ret, throw, store_call.
  destruct (negb (truthy (body_email event)) || negb (truthy (body_password event)));
    [discriminate|].
  destruct (next_fault st); [discriminate|].
  change (db_users (after_call st)) with (db_users st).
  destruct (find_user_by_email (str_of (body_email event)) (db_users st)) as [u|] eqn:U;
    [|discriminate].
  destruct (u_passwordHash u) as [h|] eqn:Hh; [|discriminate].
  destruct (negb (truthy (Some h))); [discriminate|].
  cbn [str_of].
  destruct (bcrypt_compare P (str_of (body_password event)) h) as [[|]|e] eqn:B.
  - intros _; exists u, h; auto.
  - discriminate.
  - destruct (has_statusCode e); discriminate.
Qed.

Lemma session_user_object (u : User) :
  select_user session_user_select u
  = JObj [ ("id", JStr (u_id u)); ("email", JStr (u_email u));
           ("emailVerified", JBool (u_emailVerified u));
           ("name", opt_str (u_name u)); ("image", opt_str (u_image u));
           ("tenantId", opt_str (u_tenantId u));
           ("onboardingCompleted", JBool (u_onboardingCompleted u)) ].
Proof. reflexivity. Qed.

Lemma signin_user_object (u : User) :
  obj_without "passwordHash" (select_user signin_select u)
  = JObj [ ("id", JStr (u_id u)); ("email", JStr (u_email u));
           ("emailVerified", JBool (u_emailVerified u));
           ("name", opt_str (u_name u)); ("image", opt_str (u_image u));
           ("tenantId", opt_str (u_tenantId u));
           ("onboardingCompleted", JBool (u_onboardingCompleted u)) ].
Proof. reflexivity. Qed.

Lemma signup_user_object (u : User) :
  select_user signup_select u
  = JObj [ ("id", JStr (u_id u)); ("email", JStr (u_email u));
           ("emailVerified", JBool (u_emailVerified u));
           ("name", opt_str (u_name u));
           ("onboardingCompleted", JBool (u_onboardingCompleted u));
           ("createdAt", JDate (u_createdAt u)) ].
Proof. reflexivity. Qed.

Lemma include_user_object (us : list User) (s : Session) :
  include_user session_user_select us s
  = match find_user_by_id (s_userId s) us with
    | Some u =>
        JObj [ ("id", JStr (u_id u)); ("email", JStr (u_email u));
               ("emailVerified", JBool (u_emailVerified u));
               ("name", opt_str (u_name u)); ("image", opt_str (u_image u));
               ("tenantId", opt_str (u_tenantId u));
               ("onboardingCompleted", JBool (u_onboardingCompleted u)) ]
    | None => JNull
    end.
Proof.
  unfold include_user.
  destruct (find_user_by_id (s_userId s) us); [apply session_user_object | reflexivity].
Qed.

End ResponseUsers.

(** C5. No success response of sign-up, sign-in or get-session has a
    [passwordHash] property at any depth, and each carries the user it is
    about. Sign-up returns the row it has just created, which holds the
    digest of the password, as the object of its id, e-mail, emailVerified,
    name, onboardingCompleted and createdAt. Sign-in returns the user found
    for the e-mail, whose stored digest bcrypt has accepted, as the object
    of its id, e-mail, emailVerified, name, image, tenantId and
    onboardingCompleted. The user that [getSession] joins to a session, and
    that get-session returns, is that same seven-column object of the owner
    of the session ([null] when the owner is gone). *)
Theorem responses_omit_passwordHash
    (P : Platform) (event : Event) (st st' : State) (resp : jsval) :
  (signup_handler P event st = (Ok resp, st') ->
   has_key "passwordHash" resp = false
   /\ exists u h,
        db_users st' = (db_users st ++ [u])%list
        /\ u_email u = str_of (body_email event)
        /\ u_passwordHash u = Some h
        /\ bcrypt_hash P (str_of (body_password event)) 10 (seed st) = Ok h
        /\ resp = JObj [ ("success", JBool true);
                         ("user",
                          JObj [ ("id", JStr (u_id u)); ("email", JStr (u_email u));
                                 ("emailVerified", JBool (u_emailVerified u));
                                 ("name", opt_str (u_name u));
                                 ("onboardingCompleted", JBool (u_onboardingCompleted u));
                                 ("createdAt", JDate (u_createdAt u)) ]) ])
  /\ (signin_handler P event st = (Ok resp, st') ->
      has_key "passwordHash" resp = false
      /\ exists u h row,
           find_user_by_email (str_of (body_email event)) (db_users st) = Some u
           /\ u_passwordHash u = Some h
           /\ bcrypt_compare P (str_of (body_password event)) h = Ok true
           /\ db_sessions st' = (db_sessions st ++ [row])%list
           /\ s_userId row = u_id u
           /\ resp = JObj [ ("success", JBool true);
                            ("session",
                             JObj [ ("sessionToken", JStr (s_sessionToken row));
                                    ("expires", JStr (toISOString P (s_expires row))) ]);
                            ("user",
                             JObj [ ("id", JStr (u_id u)); ("email", JStr (u_email u));
                                    ("emailVerified", JBool (u_emailVerified u));
                                    ("name", opt_str (u_name u));
                                    ("image", opt_str (u_image u));
                                    ("tenantId", opt_str (u_tenantId u));
                                    ("onboardingCompleted",
                                     JBool (u_onboardingCompleted u)) ]) ])
  /\ (get_session_handler P event st = (Ok resp, st') ->
      has_key "passwordHash" resp = false
      /\ (resp = JObj [ ("session", JNull); ("user", JNull) ]
          \/ exists s,
               find_session_by_token (str_of (session_token event)) (db_sessions st)
               = Some s
               /\ clock st <= s_expires s
               /\ resp
                  = JObj [ ("session",
                            JObj [ ("id", JStr (s_id s));
                                   ("sessionToken", JStr (s_sessionToken s));
                                   ("expires", JStr (toISOString P (s_expires s))) ]);
                           ("user",
                            match find_user_by_id (s_userId s) (db_users st) with
                            | Some u =>
                                JObj [ ("id", JStr (u_id u)); ("email", JStr (u_email u));
                                       ("emailVerified", JBool (u_emailVerified u));
                                       ("name", opt_str (u_name u));
                                       ("image", opt_str (u_image u));
                                       ("tenantId", opt_str (u_tenantId u));
                                       ("onboardingCompleted",
                                        JBool (u_onboardingCompleted u)) ]
                            | None => JNull
                            end) ]))
  /\ (forall tok sw,
        getSession tok st = (Ok (Some sw), st') ->
        has_key "passwordHash" (sw_user sw) = false
        /\ exists s,
             find_session_by_token tok (db_sessions st) = Some s
             /\ clock st <= s_expires s
             /\ sw_session sw = s
             /\ sw_user sw
                = match find_user_by_id (s_userId s) (db_users st) with
                  | Some u =>
                      JObj [ ("id", JStr (u_id u)); ("email", JStr (u_email u));
                             ("emailVerified", JBool (u_emailVerified u));
                             ("name", opt_str (u_name u));
                             ("image", opt_str (u_image u));
                             ("tenantId", opt_str (u_tenantId u));
                             ("onboardingCompleted", JBool (u_onboardingCompleted u)) ]
                  | None => JNull
                  end).
Proof.
  split; [|split; [|split]].
  - intros H.
    pose proof (signup_ok_row P event st st' resp H) as (h & Hh & _ & _ & _ & -> & ->).
    split.
    + rewrite !has_key_cons, signup_select_safe; reflexivity.
    + eexists; exists h; simpl.
      split; [reflexivity|]. split; [reflexivity|]. split; [reflexivity|].
      split; [exact Hh | reflexivity].
  - intros H.
    pose proof (signin_ok_auth P event st st' resp H) as (u & h & U & Hh & B).
    apply signin_ok_inv in H
      as (u' & row & U' & _ & _ & Hs & Htok & Hid & _ & _ & _ & ->).
    assert (u' = u) by congruence; subst u'.
    split.
    + unfold signin_response.
      rewrite !has_key_cons, userWithoutPassword_safe; reflexivity.
    + exists u, h, row.
      split; [exact U|]. split; [exact Hh|]. split; [exact B|].
      split; [exact Hs|]. split; [exact Hid|].
      unfold signin_response; rewrite signin_user_object, Htok; reflexivity.
  - intros H.
    destruct (truthy (session_token event)) eqn:T.
    + rewrite (get_session_via P event st T) in H.
      destruct (getSession _ st) as [[[sw|]|e] st1] eqn:G; inversion H; subst.
      * apply getSession_some_inv in G as (s & F & -> & L & _).
        unfold session_response, joined; cbn [sw_user sw_session].
        split; [rewrite !has_key_cons, include_user_safe; reflexivity|].
        right; exists s.
        split; [exact F|]. split; [exact L|].
        rewrite include_user_object; reflexivity.
      * split; [reflexivity | left; reflexivity].
    + rewrite (get_session_no_cookie P event st T) in H.
      inversion H; split; [reflexivity | left; reflexivity].
  - intros tok sw H.
    apply getSession_some_inv in H as (s & F & -> & L & _).
    split; [apply include_user_safe|].
    exists s; unfold joined; cbn [sw_user sw_session].
    split; [exact F|]. split; [exact L|]. split; [reflexivity|].
    apply include_user_object.
Qed.

(** alice signs in: the response carries her seven columns, and no digest. *)
Lemma responses_omit_passwordHash_witness :
  has_key "passwordHash"
    (signin_response Test.platform Test.alice Test.minted 2592002000) = false
  /\ exists u h row,
       find_user_by_email (str_of (body_email (Test.post "alice@test.com" "password123")))
         (db_users Test.st0) = Some u
       /\ u_passwordHash u = Some h
       /\ bcrypt_compare Test.platform
            (str_of (body_password (Test.post "alice@test.com" "password123"))) h
          = Ok true
       /\ db_sessions (snd (signin_handler Test.platform
                              (Test.post "alice@test.com" "password123") Test.st0))
          = (db_sessions Test.st0 ++ [row])%list
       /\ s_userId row = u_id u
       /\ signin_response Test.platform Test.alice Test.minted 2592002000
          = JObj [ ("success", JBool true);
                   ("session",
                    JObj [ ("sessionToken", JStr (s_sessionToken row));
                           ("expires", JStr (toISOString Test.platform (s_expires row))) ]);
                   ("user",
                    JObj [ ("id", JStr (u_id u)); ("email", JStr (u_email u));
                           ("emailVerified", JBool (u_emailVerified u));
                           ("name", opt_str (u_name u));
                           ("image", opt_str (u_image u));
                           ("tenantId", opt_str (u_tenantId u));
                           ("onboardingCompleted", JBool (u_onboardingCompleted u)) ]) ].
Proof.
  destruct (responses_omit_passwordHash Test.platform
              (Test.post "alice@test.com" "password123") Test.st0
              (snd (signin_handler Test.platform
                      (Test.post "alice@test.com" "password123") Test.st0))
              (signin_response Test.platform Test.alice Test.minted 2592002000))
    as (_ & H & _).
  apply H; reflexivity.
Defined.
